(** * Speaker/listener agents: [networks.py] and [rl/agents.py]

    A shallow embedding of the two training loops of the repository
    ([IndependentFullyConnectedAgents] and [BaseAgents]) together with the
    fragments of the Python runtime, numpy and keras they call into.

    - Python integers are [Z] (indices that are known to be counts are [nat]),
      numpy floating point arrays are lists of exact rationals [Q],
      Python strings are [string].  The rounding of the float32 arithmetic
      in which the model output is normalised is modelled apart, in
      [Float32], over the IEEE 754 operations of the Standard Library.
    - A method is a computation in the monad [M]: it receives a state, and
      returns either a value or a raised exception, with the state as the
      method left it (a raised exception does not undo earlier mutations).
    - numpy's random generator, numpy's [argsort] and the keras model are
      interfaces ([Numpy], [Keras]); what the code relies on is stated as
      contracts over them, and concrete instances are given at the end of
      the definitions.
    - [VisaAgents] and the configuration dictionary read by the
      constructors follow the two training loops. *)

From Stdlib Require Import String Ascii.
From Stdlib Require Import List ZArith QArith Bool Lia Lqa Permutation Sorted.
From Stdlib Require Decimal DecimalNat DecimalString.
From Stdlib Require Floats.SpecFloat.
Import ListNotations.

Local Open Scope nat_scope.

(* ================================================================= *)
(** ** Python runtime fragments *)

Module Py.

(** The exceptions the modelled code can raise. *)
Inductive exn : Set :=
| IndexError
| ValueError
| AttributeError.

Inductive result (A : Type) : Type :=
| Ok (a : A)
| Raise (e : exn).
Arguments Ok {A} a.
Arguments Raise {A} e.

(** Computations over a mutable state [S]. *)
Definition M (S A : Type) : Type := S -> result A * S.

Definition ret {S A} (a : A) : M S A := fun s => (Ok a, s).

Definition bind {S A B} (m : M S A) (k : A -> M S B) : M S B :=
  fun s =>
    match m s with
    | (Ok a, s') => k a s'
    | (Raise e, s') => (Raise e, s')
    end.

Definition raise {S A} (e : exn) : M S A := fun s => (Raise e, s).
Definition gets {S A} (f : S -> A) : M S A := fun s => (Ok (f s), s).
Definition modify {S} (f : S -> S) : M S unit := fun s => (Ok tt, f s).

(** [lift_result r] re-raises the exception of a pure fallible step. *)
Definition lift_result {S A} (r : result A) : M S A := fun s => (r, s).

(** [for x in xs: acc = body(acc, x)], the loop-carried locals being [acc]. *)
Fixpoint for_each {S A B} (body : B -> A -> M S B) (xs : list A) (acc : B)
  : M S B :=
  match xs with
  | [] => ret acc
  | x :: xs' => bind (body acc x) (for_each body xs')
  end.

(** Every run of [m], returning or raising, takes a state to one that is
    [R]-related to it. *)
Definition respects {S A} (R : S -> S -> Prop) (m : M S A) : Prop :=
  forall s r s', m s = (r, s') -> R s s'.

(** A state with an object [obj s] and a record of calls [trace s]:
    [s'] extends [s] when the object changed within [keep] and the calls
    made in between all satisfy [P]. *)
Definition extends {S O C} (obj : S -> O) (trace : S -> list C)
    (P : C -> Prop) (keep : O -> O -> Prop) (s s' : S) : Prop :=
  keep (obj s) (obj s') /\
  exists new, trace s' = trace s ++ new /\ Forall P new.

(** [xs[i]] for a Python integer [i]: negative indices count from the end,
    anything outside [-len, len) raises [IndexError]. *)
Definition getitem {A} (xs : list A) (i : Z) : result A :=
  let n := Z.of_nat (length xs) in
  let j := if (i <? 0)%Z then (n + i)%Z else i in
  if (j <? 0)%Z then Raise IndexError
  else match nth_error xs (Z.to_nat j) with
       | Some x => Ok x
       | None => Raise IndexError
       end.

(** [xs[i]] for an index that is a count. *)
Definition getitem_nat {A} (xs : list A) (i : nat) : result A :=
  match nth_error xs i with
  | Some x => Ok x
  | None => Raise IndexError
  end.

(** [xs[-k:]]: the last [k] elements; [-0] is [0], so [k = 0] keeps the
    whole list. *)
Definition slice_last {A} (k : nat) (xs : list A) : list A :=
  match k with
  | O => xs
  | S _ => skipn (length xs - k) xs
  end.

(** [str(n)] of a non-negative integer: its decimal digits. *)
Definition str (n : nat) : string :=
  DecimalString.NilEmpty.string_of_uint (Nat.to_uint n).

(** [sep.join(parts)]. *)
Definition join (sep : string) (parts : list string) : string :=
  String.concat sep parts.

(** [s.split(sep)] for a one-character separator. *)
Fixpoint split (sep : ascii) (s : string) : list string :=
  match s with
  | EmptyString => [EmptyString]
  | String c s' =>
      if Ascii.eqb c sep then EmptyString :: split sep s'
      else match split sep s' with
           | t :: ts => String c t :: ts
           | [] => [String c EmptyString]
           end
  end.

(** [sep not in t]. *)
Definition free_of (sep : ascii) (t : string) : Prop :=
  forall c, In c (list_ascii_of_string t) -> c <> sep.

(** [int(tok)] of a non-empty string of decimal digits. *)
Definition parse_nat (tok : string) : option nat :=
  match tok with
  | EmptyString => None
  | _ => option_map Nat.of_uint (DecimalString.NilEmpty.uint_of_string tok)
  end.

End Py.

Notation "x <- m ;; k" := (Py.bind m (fun x => k))
  (at level 61, m at next level, right associativity).
Notation "m ;;; k" := (Py.bind m (fun _ => k))
  (at level 61, right associativity).

(* ================================================================= *)
(** ** numpy and keras fragments *)

Module Np.
Import Py.

(** [np.sum] of a vector and of a matrix, [np.sum(m, axis=1)]. *)
Definition sum (v : list Q) : Q := fold_right Qplus 0%Q v.
Definition sum2 (m : list (list Q)) : Q := sum (concat m).
Definition sum_axis1 (m : list (list Q)) : list Q := map sum m.

(** [m / s] for a matrix [m] and a scalar [s], in exact arithmetic (the
    rounded quotients of float32 are those of [Float32.divide]). *)
Definition divide (v : list Q) (s : Q) : list Q := map (fun p => (p / s)%Q) v.
Definition divide2 (m : list (list Q)) (s : Q) : list (list Q) :=
  map (fun row => divide row s) m.

(** [v.cumsum()]. *)
Fixpoint cumsum_from (acc : Q) (v : list Q) : list Q :=
  match v with
  | [] => []
  | x :: xs => (acc + x)%Q :: cumsum_from (acc + x)%Q xs
  end.
Definition cumsum (v : list Q) : list Q := cumsum_from 0%Q v.

(** [cdf.searchsorted(u, side='right')] on a non-decreasing [cdf]: the
    number of entries that are [<= u]. *)
Fixpoint searchsorted_right (cdf : list Q) (u : Q) : nat :=
  match cdf with
  | [] => 0
  | c :: cs => if Qle_bool c u then S (searchsorted_right cs u) else 0
  end.

(** [np.vstack(rows)]: at least one row, all of one length. *)
Definition vstack {A} (rows : list (list A)) : result (list (list A)) :=
  match rows with
  | [] => Raise ValueError
  | r :: rs =>
      if forallb (fun r' => length r' =? length r) rs then Ok rows
      else Raise ValueError
  end.

(** [np.vstack] of a list of scalars and [.flatten()] of the column. *)
Definition vstack_scalars {A} (xs : list A) : result (list A) :=
  match xs with
  | [] => Raise ValueError
  | _ => Ok xs
  end.

(** [a * b] on vectors, with numpy's broadcasting of a one-element
    operand. *)
Definition multiply (a b : list Q) : result (list Q) :=
  if length a =? length b then Ok (map (fun xy => (fst xy * snd xy)%Q) (combine a b))
  else match a, b with
       | [x], _ => Ok (map (fun y => (x * y)%Q) b)
       | _, [y] => Ok (map (fun x => (x * y)%Q) a)
       | _, _ => Raise ValueError
       end.

(** [x.reshape(newshape)]: the element count must agree; the row-major
    data is unchanged. *)
Definition reshape (data : list Q) (newshape : list nat) : result (list Q) :=
  if length data =? fold_right Nat.mul 1 newshape then Ok data
  else Raise ValueError.

(** numpy's global random generator and its sort, as an interface. *)
Class Numpy : Type := {
  rng : Type;
  (** [random_sample()]: a uniform draw and the advanced generator. *)
  random_sample : rng -> Q * rng;
  (** [randint(high)] for [0 < high]. *)
  randint : nat -> rng -> nat * rng;
  (** [v.argsort()]. *)
  argsort : list Q -> list nat
}.

(** What numpy documents about them: uniform draws lie in [[0, 1)] and
    [randint(high)] in [[0, high)]; [argsort] lists every position of
    its argument once (in what order it lists them, and how it breaks
    ties, plays no part below). *)
Definition random_contract (N : Numpy) : Prop :=
  (forall g, (0 <= fst (random_sample g))%Q /\ (fst (random_sample g) < 1)%Q) /\
  (forall high g, 0 < high -> fst (randint high g) < high).

Definition argsort_contract (N : Numpy) : Prop :=
  forall v, Permutation (argsort v) (seq 0 (length v)).

(** What numpy documents about the order: [argsort] lists the positions
    by non-decreasing value. *)
Definition sorted_contract (N : Numpy) : Prop :=
  forall v, StronglySorted (fun i j => (nth i v 0 <= nth j v 0)%Q) (argsort v).

(** The generator after [k] uniform draws. *)
Definition draws {N : Numpy} (k : nat) (g : rng) : rng :=
  Nat.iter k (fun g => snd (random_sample g)) g.

(** The keras model behind a speaker policy, as an interface:
    [predict] maps the data of a [[1, speaker_dim, 1]] input to a matrix of
    symbol probabilities; [train_on_batch] is a training step on the data
    of [X_] with a target [Y] that the model accepts: the new weights, or
    the exception the step raises. *)
Class Keras : Type := {
  weights : Type;
  predict : weights -> list Q -> list (list Q);
  train_on_batch : weights -> list Q -> list Q -> result weights
}.

(** [model.train_on_batch(X_, Y)] for a target [Y] of one number per
    sample, on a model whose last layer has [units] outputs and whose loss
    is [categorical_crossentropy] (the model [initialize_speaker_model]
    builds, with [units = alphabet_size]): keras reads [Y] as a column of
    width one, checks it against the [units] columns of the output, and
    raises [ValueError] when they differ.  What a layer of one unit does
    with the step is left to the interface. *)
Definition model_train_on_batch {K : Keras} (units : nat) (w : weights)
    (X_ Y : list Q) : result weights :=
  if units =? 1 then train_on_batch w X_ Y else Raise ValueError.

(** A batch of one input through a softmax layer of [alphabet_size]
    units: one row, of non-negative entries with a positive sum. *)
Definition softmax_output (alphabet_size : nat) (probs : list (list Q)) : Prop :=
  exists row, probs = [row] /\ length row = alphabet_size /\
              Forall (fun p => (0 <= p)%Q) row /\ (0 < sum row)%Q.

Definition keras_contract (K : Keras) (alphabet_size : nat) : Prop :=
  forall w x, softmax_output alphabet_size (predict w x).

(** Calls into numpy and keras, in the order they are made. *)
Inductive call : Type :=
| KerasPredict (x : list Q)
| KerasTrainOnBatch (X_ : list Q) (Y : list Q)
| NpRandomChoice (a : nat) (p : list Q)
| NpRandomRandint (high : nat)
| NpArgsort (v : list Q).

(** The [(X_, Y)] of the [train_on_batch] calls among [cs], in order. *)
Definition train_calls (cs : list call) : list (list Q * list Q) :=
  flat_map (fun c => match c with
                     | KerasTrainOnBatch X_ Y => [(X_, Y)]
                     | _ => []
                     end) cs.

Section World.
Context {N : Numpy}.

(** The state a method of an object [Self] runs in: the object, the
    global generator, and the calls made so far. *)
Record world (Self : Type) : Type := mkWorld {
  self : Self;
  np_random : rng;
  calls : list call
}.
Arguments mkWorld {Self}.
Arguments self {Self}.
Arguments np_random {Self}.
Arguments calls {Self}.

Definition log {Self} (c : call) : M (world Self) unit :=
  modify (fun w => mkWorld (self w) (np_random w) (calls w ++ [c])).

Definition set_self {Self} (f : Self -> Self) : M (world Self) unit :=
  modify (fun w => mkWorld (f (self w)) (np_random w) (calls w)).

Definition draw {Self A} (f : rng -> A * rng) : M (world Self) A :=
  fun w => let '(a, g) := f (np_random w) in
           (Ok a, mkWorld (self w) g (calls w)).

(** [np.random.choice(a, 1, p=p)[0]]: [a] must be positive, [p] must
    have [a] non-negative entries that sum to one (numpy tests the sum up
    to a rounding tolerance; over exact rationals the test is equality);
    the draw is located in the normalised cumulative sums. *)
Definition random_choice {Self} (a : nat) (p : list Q) : M (world Self) nat :=
  log (NpRandomChoice a p) ;;;
  if a =? 0 then raise ValueError
  else if negb (length p =? a) then raise ValueError
  else if existsb (fun x => negb (Qle_bool 0 x)) p then raise ValueError
  else if negb (Qeq_bool (sum p) 1) then raise ValueError
  else
    let cdf := cumsum p in
    let cdf := divide cdf (last cdf 0%Q) in
    u <- draw random_sample ;;
    ret (searchsorted_right cdf u).

(** [np.random.randint(high)]. *)
Definition random_randint {Self} (high : nat) : M (world Self) nat :=
  log (NpRandomRandint high) ;;;
  if high =? 0 then raise ValueError
  else draw (randint high).

(** [v.argsort()]. *)
Definition ndarray_argsort {Self} (v : list Q) : M (world Self) (list nat) :=
  log (NpArgsort v) ;;;
  ret (argsort v).

End World.
Arguments mkWorld {N Self}.
Arguments self {N Self}.
Arguments np_random {N Self}.
Arguments calls {N Self}.

End Np.

Notation "' pat <- m ;; k" := (Py.bind m (fun x => match x with pat => k end))
  (at level 61, pat pattern, m at next level, right associativity).

(* ================================================================= *)
(** ** numpy arithmetic in single precision *)

Module Float32.

(** The numbers of a float32 array (IEEE 754 binary32: 24 bits of
    precision, exponents below 128), as keras returns them from
    [predict], with the operations of the Standard Library's
    specification of IEEE arithmetic, which round to nearest, ties to
    even. *)
Definition prec : Z := 24.
Definition emax : Z := 128.
Definition float32 : Type := SpecFloat.spec_float.

Definition zero : float32 := SpecFloat.S754_zero false.
Definition one : float32 := SpecFloat.S754_finite false 8388608 (-23).

Definition add (x y : float32) : float32 := SpecFloat.SFadd prec emax x y.
Definition div (x y : float32) : float32 := SpecFloat.SFdiv prec emax x y.

(** [np.sum] of a float32 array keeps the type of the array; the entries
    of a short array (fewer than eight) are added from left to right. *)
Definition sum (v : list float32) : float32 := fold_left add v zero.
Definition sum2 (m : list (list float32)) : float32 := sum (concat m).

(** [m / s] for a float32 matrix [m] and a float32 scalar [s]. *)
Definition divide (v : list float32) (s : float32) : list float32 :=
  map (fun p => div p s) v.
Definition divide2 (m : list (list float32)) (s : float32) : list (list float32) :=
  map (fun row => divide row s) m.

(** [normalized_probs = probs/np.sum(probs)], the normalisation of
    [sample_speaker_policy_for_message] and [infer_from_speaker_policy]. *)
Definition normalize (probs : list (list float32)) : list (list float32) :=
  divide2 probs (sum2 probs).

(** The number a float stands for (zero for infinities and NaN, which
    do not occur below). *)
Definition to_Q (x : float32) : Q :=
  match x with
  | SpecFloat.S754_finite s m e =>
      let v := if s then Z.neg m else Z.pos m in
      match e with
      | Z0 => inject_Z v
      | Zpos p => inject_Z (v * 2 ^ Zpos p)
      | Zneg p => Qmake v (2 ^ p)
      end
  | _ => 0%Q
  end.

(** The float32 nearest to one tenth. *)
Definition tenth : float32 := SpecFloat.S754_finite false 13421773 (-27).

(** A raw output of three equal entries that sum to about 0.3. *)
Definition flat_output : list (list float32) := [[tenth; tenth; tenth]].

(** A raw output over five symbols as a float32 softmax returns it: its
    entries sum to one up to the last bit. *)
Definition softmax_output : list (list float32) :=
  [[SpecFloat.S754_finite false 9033605 (-25);
    SpecFloat.S754_finite false 9753316 (-26);
    SpecFloat.S754_finite false 15132777 (-26);
    SpecFloat.S754_finite false 14943067 (-26);
    SpecFloat.S754_finite false 9212497 (-26)]].

End Float32.

(* ================================================================= *)
(** ** [networks.py] *)

Module Networks.
Import Py Np.

(** One element of a dataset:
    [(target_input, candidates, target_candidate_idx)], the ground truth
    being a bare index. *)
Definition example : Type := list Q * list (list Q) * Z.

Definition input_of (ex : example) : list Q := fst (fst ex).
Definition candidates_of (ex : example) : list (list Q) := snd (fst ex).

(** An example the agents can process: an input of [speaker_dim] features
    and at least one candidate. *)
Definition well_formed (speaker_dim : nat) (ex : example) : Prop :=
  length (input_of ex) = speaker_dim /\ candidates_of ex <> [].

(** A statistics record
    [{"reward": .., "input": .., "message": .., "chosen_target": ..}]. *)
Record stats : Type := mkStats {
  reward : Z;
  input : list Q;
  message : string;
  chosen_target : list Q
}.

(** The symbols a message contains: its decimal tokens between ['#']
    separators (a final separator closes the last token). *)
Definition drop_closing (toks : list string) : list string :=
  match rev toks with
  | EmptyString :: before => rev before
  | _ => toks
  end.

Fixpoint parse_all (toks : list string) : option (list nat) :=
  match toks with
  | [] => Some []
  | t :: ts =>
      match parse_nat t, parse_all ts with
      | Some n, Some ns => Some (n :: ns)
      | _, _ => None
      end
  end.

Definition message_symbols (m : string) : option (list nat) :=
  parse_all (drop_closing (split "#" m)).

(** The message made of the given symbols, each followed by ['#']. *)
Definition closed_message (syms : list nat) : string :=
  fold_right (fun n acc => String.append (str n) (String "#" acc))
             EmptyString syms.

Section Methods.
Context {N : Numpy} {K : Keras}.

(** [normalized_probs[0][argmax_indices]]: indexing by a list of
    positions. *)
Fixpoint take {S} (row : list Q) (idx : list nat) : M S (list Q) :=
  match idx with
  | [] => ret []
  | i :: idx' =>
      p <- lift_result (getitem_nat row i) ;;
      ps <- take row idx' ;;
      ret (p :: ps)
  end.

(** One turn of the sampling loop: draw a symbol from the normalised
    probabilities, append it and its probability. *)
Definition sample_step {Self} (alphabet_size : nat)
    (normalized_probs : list (list Q)) (acc : string * list Q) (i : nat)
  : M (world Self) (string * list Q) :=
  let '(message, message_probs) := acc in
  row <- lift_result (getitem_nat normalized_probs 0) ;;
  sampled_symbol <- random_choice alphabet_size row ;;
  row' <- lift_result (getitem_nat normalized_probs 0) ;;
  p <- lift_result (getitem_nat row' sampled_symbol) ;;
  ret (String.append message (String.append (str sampled_symbol) "#"),
       message_probs ++ [p]).

(** The body shared, word for word, by
    [SpeakerPolicy.sample_speaker_policy] and
    [IndependentFullyConnectedAgents.sample_speaker_policy_for_message],
    over the attributes it reads from [self]. *)
Definition sample_message {Self} (model : weights)
    (speaker_dim max_message_length alphabet_size : nat)
    (target_input : list Q) : M (world Self) (string * list Q) :=
  x <- lift_result (reshape target_input [1; speaker_dim; 1]) ;;
  log (KerasPredict x) ;;;
  let probs := predict model x in
  let normalized_probs := divide2 probs (sum2 probs) in
  for_each (sample_step alphabet_size normalized_probs)
           (seq 0 max_message_length)
           (EmptyString, []).

(** *** [SpeakerPolicy]

    The object as [sample_speaker_policy] reads it: [self._model],
    [self.speaker_dim], [self.max_message_length], [self.alphabet_size].
    ([load_config] stores the configuration under names with a leading
    underscore; the three attributes read here are taken as given.) *)

Record speaker_policy : Type := mkSpeakerPolicy {
  sp_model : weights;
  sp_speaker_dim : nat;
  sp_max_message_length : nat;
  sp_alphabet_size : nat
}.

Definition sample_speaker_policy (target_input : list Q)
  : M (world speaker_policy) (string * list Q) :=
  o <- gets self ;;
  sample_message (sp_model o) (sp_speaker_dim o) (sp_max_message_length o)
                 (sp_alphabet_size o) target_input.

(** *** [IndependentFullyConnectedAgents] *)

(** The arrays [train_speaker_policy_on_batch] leaves on [self]. *)
Record batch_arrays : Type := mkBatchArrays {
  m_probs : option (list (list Q));
  r : option (list Z);
  X : option (list (list Q));
  Y : option (list Q);
  X_ : option (list Q)
}.

Record ifca : Type := mkIfca {
  max_message_length : nat;
  alphabet_size : nat;
  speaker_dim : nat;
  batch_size : nat;
  save_training_stats : bool;
  save_testing_stats : bool;
  training_stats : option (list stats);
  testing_stats : option (list stats);
  speaker_model : weights;
  arrays : batch_arrays
}.

(** [__init__]. *)
Definition init (max_message_length alphabet_size speaker_dim batch_size : nat)
    (model : weights) (save_training_stats save_testing_stats : bool) : ifca :=
  mkIfca max_message_length alphabet_size speaker_dim batch_size
         save_training_stats save_testing_stats None None model
         (mkBatchArrays None None None None None).

Definition set_training_stats (v : option (list stats)) (o : ifca) : ifca :=
  mkIfca (max_message_length o) (alphabet_size o) (speaker_dim o) (batch_size o)
         (save_training_stats o) (save_testing_stats o)
         v (testing_stats o) (speaker_model o) (arrays o).

Definition set_testing_stats (v : option (list stats)) (o : ifca) : ifca :=
  mkIfca (max_message_length o) (alphabet_size o) (speaker_dim o) (batch_size o)
         (save_training_stats o) (save_testing_stats o)
         (training_stats o) v (speaker_model o) (arrays o).

Definition set_speaker_model (v : weights) (o : ifca) : ifca :=
  mkIfca (max_message_length o) (alphabet_size o) (speaker_dim o) (batch_size o)
         (save_training_stats o) (save_testing_stats o)
         (training_stats o) (testing_stats o) v (arrays o).

Definition set_arrays (f : batch_arrays -> batch_arrays) (o : ifca) : ifca :=
  mkIfca (max_message_length o) (alphabet_size o) (speaker_dim o) (batch_size o)
         (save_training_stats o) (save_testing_stats o)
         (training_stats o) (testing_stats o) (speaker_model o) (f (arrays o)).

(** Calls of the greedy path of the speaker: the forward pass and the
    sort. *)
Definition deterministic_call (c : call) : Prop :=
  match c with
  | KerasPredict _ | NpArgsort _ => True
  | _ => False
  end.

(** Calls that neither sample a symbol nor train: those of the greedy
    path, and the listener's random pick. *)
Definition evaluation_call (c : call) : Prop :=
  match c with
  | KerasPredict _ | NpArgsort _ | NpRandomRandint _ => True
  | _ => False
  end.

(** Two objects that differ at most in [testing_stats]. *)
Definition same_but_testing_stats (o o' : ifca) : Prop :=
  set_testing_stats None o' = set_testing_stats None o.

(** What [predict] may do to the object: change [testing_stats], and
    nothing at all when [save_training_stats] is off. *)
Definition predict_keep (o o' : ifca) : Prop :=
  same_but_testing_stats o o' /\
  (save_training_stats o = false -> o' = o).

(** What [__init__] fixes for the life of the object. *)
Definition config (o : ifca) : nat * nat * nat * nat * bool * bool :=
  (max_message_length o, alphabet_size o, speaker_dim o, batch_size o,
   save_training_stats o, save_testing_stats o).

(** [log.append(record)]; [None] has no [append]. *)
Definition append_stats (sel : ifca -> option (list stats))
    (set : option (list stats) -> ifca -> ifca) (record : stats)
  : M (world ifca) unit :=
  o <- gets self ;;
  match sel o with
  | Some l => set_self (set (Some (l ++ [record])))
  | None => raise AttributeError
  end.

Definition sample_speaker_policy_for_message (target_input : list Q)
  : M (world ifca) (string * list Q) :=
  o <- gets self ;;
  sample_message (speaker_model o) (speaker_dim o) (max_message_length o)
                 (alphabet_size o) target_input.

(** The five arrays are assigned one by one, then the model is called on
    [self.X_] and the flat [self.Y]; the weights change only if the call
    returns. *)
Definition train_speaker_policy_on_batch
    (target_inputs : list (list Q)) (message_probs : list (list Q))
    (rewards : list Z) : M (world ifca) unit :=
  m <- lift_result (vstack message_probs) ;;
  set_self (set_arrays (fun a => mkBatchArrays (Some m) (r a) (X a) (Y a) (X_ a))) ;;;
  rs <- lift_result (vstack_scalars rewards) ;;
  set_self (set_arrays (fun a => mkBatchArrays (m_probs a) (Some rs) (X a) (Y a) (X_ a))) ;;;
  xs <- lift_result (vstack target_inputs) ;;
  set_self (set_arrays (fun a => mkBatchArrays (m_probs a) (r a) (Some xs) (Y a) (X_ a))) ;;;
  ys <- lift_result (multiply (map inject_Z rs) (sum_axis1 m)) ;;
  set_self (set_arrays (fun a => mkBatchArrays (m_probs a) (r a) (X a) (Some ys) (X_ a))) ;;;
  o <- gets self ;;
  xs_ <- lift_result (reshape (concat xs) [batch_size o; speaker_dim o; 1]) ;;
  set_self (set_arrays (fun a => mkBatchArrays (m_probs a) (r a) (X a) (Y a) (Some xs_))) ;;;
  log (KerasTrainOnBatch xs_ ys) ;;;
  o <- gets self ;;
  trained <- lift_result (model_train_on_batch (alphabet_size o)
                                               (speaker_model o) xs_ ys) ;;
  set_self (set_speaker_model trained).

Definition infer_from_speaker_policy (target_input : list Q)
  : M (world ifca) (string * list Q) :=
  o <- gets self ;;
  x <- lift_result (reshape target_input [1; speaker_dim o; 1]) ;;
  log (KerasPredict x) ;;;
  let probs := predict (speaker_model o) x in
  let normalized_probs := divide2 probs (sum2 probs) in
  row <- lift_result (getitem_nat normalized_probs 0) ;;
  sorted <- ndarray_argsort row ;;
  let argmax_indices := rev (slice_last (max_message_length o) sorted) in
  row' <- lift_result (getitem_nat normalized_probs 0) ;;
  message_probs <- take row' argmax_indices ;;
  let message := join "#" (map str argmax_indices) in
  ret (message, message_probs).

Definition listener_policy (message : string) (candidates : list (list Q))
  : M (world ifca) nat :=
  random_randint (length candidates).

Definition calculate_reward (chosen_target_idx target_candidate_idx : Z) : Z :=
  if (chosen_target_idx =? target_candidate_idx)%Z then 1%Z else 0%Z.

(** The locals [fit] carries around its loop. *)
Record fit_locals : Type := mkFitLocals {
  message_probs_storage : list (list Q);
  rewards_storage : list Z;
  total_reward : Z;
  batch_counter : nat;
  batch_training_inputs : list (list Q)
}.

Definition fit_locals_init : fit_locals := mkFitLocals [] [] 0%Z 0 [].

(** The loop body of [fit] up to the batch test: one episode, stored
    for training and recorded in the statistics. *)
Definition fit_episode (l : fit_locals) (ex : example) : M (world ifca) fit_locals :=
  let '(target_input, candidates, target_candidate_idx) := ex in
  '(message, message_probs) <- sample_speaker_policy_for_message target_input ;;
  chosen_target_idx <- listener_policy message candidates ;;
  let reward := calculate_reward (Z.of_nat chosen_target_idx) target_candidate_idx in
  let l' := mkFitLocals (message_probs_storage l ++ [message_probs])
                        (rewards_storage l ++ [reward])
                        (total_reward l + reward)%Z
                        (batch_counter l + 1)
                        (batch_training_inputs l ++ [target_input]) in
  o <- gets self ;;
  (if save_training_stats o then
     c <- lift_result (getitem_nat candidates chosen_target_idx) ;;
     append_stats training_stats set_training_stats
                  (mkStats reward target_input message c)
   else ret tt) ;;;
  ret l'.

(** The batch test that ends the loop body of [fit]. *)
Definition fit_train_if_full (l : fit_locals) : M (world ifca) fit_locals :=
  o <- gets self ;;
  if batch_counter l =? batch_size o then
    train_speaker_policy_on_batch (batch_training_inputs l)
                                  (message_probs_storage l)
                                  (rewards_storage l) ;;;
    ret (mkFitLocals [] [] (total_reward l) 0 [])
  else ret l.

Definition fit_body (l : fit_locals) (ex : example) : M (world ifca) fit_locals :=
  l' <- fit_episode l ex ;;
  fit_train_if_full l'.

Definition fit_loop (train_data : list example) : M (world ifca) fit_locals :=
  set_self (set_training_stats (Some [])) ;;;
  for_each fit_body train_data fit_locals_init.

Definition fit (train_data : list example) : M (world ifca) unit :=
  fit_loop train_data ;;; ret tt.

Definition predict_body (total_reward : Z) (ex : example) : M (world ifca) Z :=
  let '(target_input, candidates, target_candidate_idx) := ex in
  '(message, message_probs) <- infer_from_speaker_policy target_input ;;
  chosen_target_idx <- listener_policy message candidates ;;
  let reward := calculate_reward (Z.of_nat chosen_target_idx) target_candidate_idx in
  let total_reward := (total_reward + reward)%Z in
  o <- gets self ;;
  (if save_training_stats o then
     c <- lift_result (getitem_nat candidates chosen_target_idx) ;;
     append_stats testing_stats set_testing_stats
                  (mkStats reward target_input message c)
   else ret tt) ;;;
  ret total_reward.

Definition predict (test_data : list example) : M (world ifca) unit :=
  set_self (set_testing_stats (Some [])) ;;;
  for_each predict_body test_data 0%Z ;;;
  ret tt.

(** A record of the training log for an episode on [ex]: the input of
    [ex], a message of [mml] symbols below [asz], each closed by ['#'],
    the candidate of [ex] at the listener's choice, and the reward of
    that choice. *)
Definition episode_record (mml asz : nat) (ex : example) (rec : stats) : Prop :=
  input rec = input_of ex /\
  (exists syms, message rec = closed_message syms /\
                length syms = mml /\ Forall (fun s => s < asz) syms) /\
  exists i, nth_error (candidates_of ex) i = Some (chosen_target rec) /\
            reward rec = calculate_reward (Z.of_nat i) (snd ex).

(** The targets of a training step: for every episode of the batch, its
    reward times the sum of the probabilities of its message. *)
Definition targets (rewards : list Z) (message_probs : list (list Q)) : list Q :=
  map (fun xy => (fst xy * snd xy)%Q)
      (combine (map inject_Z rewards) (sum_axis1 message_probs)).

(** What the generator alone decides in the episodes of [fit] on [data]:
    after the [mml] uniform draws of the message, the listener's pick;
    with it the reward and the chosen candidate. *)
Fixpoint listener_outcomes (mml : nat) (data : list example) (g : rng)
  : list (Z * list Q) * rng :=
  match data with
  | [] => ([], g)
  | ex :: rest =>
      let '(i, g') := randint (length (candidates_of ex)) (draws mml g) in
      let '(outcomes, g'') := listener_outcomes mml rest g' in
      ((calculate_reward (Z.of_nat i) (snd ex), nth i (candidates_of ex) [])
         :: outcomes, g'')
  end.

(** The greedy message for an input under given weights: the positions
    of the largest normalised outputs, largest first, joined by ['#']. *)
Definition greedy_message (model : weights) (mml : nat) (x : list Q) : string :=
  let row := hd [] (Np.predict model x) in
  join "#" (map str (rev (slice_last mml (argsort (divide row (sum row)))))).

(** The calls of one turn of [predict] on [ex]: the forward pass and
    the sort of the greedy speaker path, then the listener's pick. *)
Definition evaluation_calls (model : weights) (ex : example) : list call :=
  let row := hd [] (Np.predict model (input_of ex)) in
  [KerasPredict (input_of ex); NpArgsort (divide row (sum row));
   NpRandomRandint (length (candidates_of ex))].

(** Calls that [fit] can make: all but the sort of the greedy path. *)
Definition fit_call (c : call) : Prop :=
  match c with
  | NpArgsort _ => False
  | _ => True
  end.

(** What [fit] leaves alone: the configuration and the testing log. *)
Definition fit_keep (o o' : ifca) : Prop :=
  config o' = config o /\ testing_stats o' = testing_stats o.

(** What a training step leaves alone: the configuration and both
    logs. *)
Definition train_keep (o o' : ifca) : Prop :=
  config o' = config o /\
  training_stats o' = training_stats o /\
  testing_stats o' = testing_stats o.

End Methods.
End Networks.

(* ================================================================= *)
(** ** [rl/agents.py] *)

Module Agents.
Import Py.

(** The speaker and listener networks handed to [BaseAgents], as an
    interface: each method maps the network object to its result and
    the object as the method left it. *)
Class PolicyNetworks : Type := {
  speaker : Type;
  listener : Type;
  msg : Type;
  speaker_probs : Type;
  listener_probs : Type;
  sample_from_speaker_policy :
    list Q -> speaker -> (msg * speaker_probs) * speaker;
  sample_from_listener_policy :
    msg -> list (list Q) -> listener -> (Z * listener_probs) * listener;
  remember_speaker_training_details :
    list Q -> msg -> speaker_probs -> Z -> speaker -> speaker;
  remember_listener_training_details :
    msg -> Z -> listener_probs -> list (list Q) -> Z -> listener -> listener;
  train_speaker_policy_on_batch : speaker -> speaker;
  train_listener_policy_on_batch : listener -> listener;
  infer_from_speaker_policy :
    list Q -> speaker -> (msg * speaker_probs) * speaker;
  infer_from_listener_policy :
    msg -> list (list Q) -> listener -> Z * listener
}.

(** A listener answers with a position of a non-empty candidate list. *)
Definition listener_contract (P : PolicyNetworks) : Prop :=
  (forall m cands l,
      cands <> [] ->
      (0 <= fst (fst (sample_from_listener_policy m cands l))
       < Z.of_nat (length cands))%Z) /\
  (forall m cands l,
      cands <> [] ->
      (0 <= fst (infer_from_listener_policy m cands l)
       < Z.of_nat (length cands))%Z).

(** Networks whose greedy paths leave them as they are. *)
Definition inference_is_pure (P : PolicyNetworks) : Prop :=
  (forall x s, snd (infer_from_speaker_policy x s) = s) /\
  (forall m cands l, snd (infer_from_listener_policy m cands l) = l).

(** Calls into the two networks, in the order they are made. *)
Inductive call : Set :=
| SpeakerSample
| ListenerSample
| SpeakerRemember
| ListenerRemember
| SpeakerTrain
| ListenerTrain
| SpeakerInfer
| ListenerInfer.

(** The calls of one episode, of one training step, of the episodes of a
    list of examples, and of a list of batches each followed by its
    training step. *)
Definition episode_calls : list call :=
  [SpeakerSample; ListenerSample; SpeakerRemember; ListenerRemember].

Definition train_step_calls : list call := [SpeakerTrain; ListenerTrain].

Definition episodes {A} (exs : list A) : list call :=
  flat_map (fun _ => episode_calls) exs.

Definition batches {A} (chunks : list (list A)) : list call :=
  flat_map (fun c => episodes c ++ train_step_calls) chunks.

(** Calls of the greedy path of the two networks. *)
Definition infer_call (c : call) : Prop := c = SpeakerInfer \/ c = ListenerInfer.

(** One element of a dataset, the ground truth being a one-hot vector
    over the candidates. *)
Definition example : Type := list Q * list (list Q) * list Q.

Definition well_formed (ex : example) : Prop :=
  let '(_, candidates, target_candidate_idx) := ex in
  candidates <> [] /\ length target_candidate_idx = length candidates.

Section Methods.
Context {P : PolicyNetworks}.

(** A statistics record
    [{"reward": .., "input": .., "message": .., "chosen_target_idx": ..}]. *)
Record stats : Type := mkStats {
  reward : Z;
  input : list Q;
  message : msg;
  chosen_target_idx : Z
}.

(** [total_training_reward] and [batch_counter] exist only once [fit]
    has assigned them. *)
Record base_agents : Type := mkBaseAgents {
  batch_size : nat;
  speaker_model : speaker;
  listener_model : listener;
  save_training_stats : bool;
  save_testing_stats : bool;
  training_stats : list stats;
  testing_stats : list stats;
  total_training_reward : option Z;
  batch_counter : option nat
}.

(** [__init__]. *)
Definition init (batch_size : nat) (s : speaker) (l : listener)
    (save_training_stats save_testing_stats : bool) : base_agents :=
  mkBaseAgents batch_size s l save_training_stats save_testing_stats
               [] [] None None.

Record world : Type := mkWorld {
  self : base_agents;
  calls : list call
}.

Definition log (c : call) : M world unit :=
  modify (fun w => mkWorld (self w) (calls w ++ [c])).

Definition set_self (f : base_agents -> base_agents) : M world unit :=
  modify (fun w => mkWorld (f (self w)) (calls w)).

(** What [__init__] fixes for the life of the object. *)
Definition config (o : base_agents) : nat * bool * bool :=
  (batch_size o, save_training_stats o, save_testing_stats o).

(** Two objects that differ at most in the two networks and in
    [testing_stats]. *)
Definition same_training_side (o o' : base_agents) : Prop :=
  config o' = config o /\
  training_stats o' = training_stats o /\
  total_training_reward o' = total_training_reward o /\
  batch_counter o' = batch_counter o.

Definition set_speaker_model (v : speaker) (o : base_agents) : base_agents :=
  mkBaseAgents (batch_size o) v (listener_model o)
               (save_training_stats o) (save_testing_stats o)
               (training_stats o) (testing_stats o)
               (total_training_reward o) (batch_counter o).

Definition set_listener_model (v : listener) (o : base_agents) : base_agents :=
  mkBaseAgents (batch_size o) (speaker_model o) v
               (save_training_stats o) (save_testing_stats o)
               (training_stats o) (testing_stats o)
               (total_training_reward o) (batch_counter o).

Definition set_training_stats (v : list stats) (o : base_agents) : base_agents :=
  mkBaseAgents (batch_size o) (speaker_model o) (listener_model o)
               (save_training_stats o) (save_testing_stats o)
               v (testing_stats o)
               (total_training_reward o) (batch_counter o).

Definition set_testing_stats (v : list stats) (o : base_agents) : base_agents :=
  mkBaseAgents (batch_size o) (speaker_model o) (listener_model o)
               (save_training_stats o) (save_testing_stats o)
               (training_stats o) v
               (total_training_reward o) (batch_counter o).

Definition set_total_training_reward (v : option Z) (o : base_agents) : base_agents :=
  mkBaseAgents (batch_size o) (speaker_model o) (listener_model o)
               (save_training_stats o) (save_testing_stats o)
               (training_stats o) (testing_stats o)
               v (batch_counter o).

Definition set_batch_counter (v : option nat) (o : base_agents) : base_agents :=
  mkBaseAgents (batch_size o) (speaker_model o) (listener_model o)
               (save_training_stats o) (save_testing_stats o)
               (training_stats o) (testing_stats o)
               (total_training_reward o) v.

(** A call of a method of [self.speaker_model] / [self.listener_model]. *)
Definition on_speaker {A} (c : call) (f : speaker -> A * speaker) : M world A :=
  log c ;;;
  o <- gets self ;;
  let '(a, s) := f (speaker_model o) in
  set_self (set_speaker_model s) ;;;
  ret a.

Definition on_listener {A} (c : call) (f : listener -> A * listener) : M world A :=
  log c ;;;
  o <- gets self ;;
  let '(a, l) := f (listener_model o) in
  set_self (set_listener_model l) ;;;
  ret a.

(** An attribute that must have been assigned before it is read. *)
Definition attr {A} (sel : base_agents -> option A) : M world A :=
  o <- gets self ;;
  match sel o with
  | Some a => ret a
  | None => raise AttributeError
  end.

Definition calculate_reward (chosen_target_idx : Z)
    (target_candidate_idx : list Q) : result Z :=
  match getitem target_candidate_idx chosen_target_idx with
  | Ok v => if Qeq_bool v 1 then Ok 1%Z else Ok 0%Z
  | Raise e => Raise e
  end.

Definition sample_from_networks_on_batch (target_input : list Q)
    (candidates : list (list Q)) (target_candidate_idx : list Q)
  : M world unit :=
  '(speaker_message, speaker_probs) <-
    on_speaker SpeakerSample (sample_from_speaker_policy target_input) ;;
  '(listener_action, listener_probs) <-
    on_listener ListenerSample
      (sample_from_listener_policy speaker_message candidates) ;;
  reward <- lift_result (calculate_reward listener_action target_candidate_idx) ;;
  on_speaker SpeakerRemember
    (fun s => (tt, remember_speaker_training_details
                     target_input speaker_message speaker_probs reward s)) ;;;
  on_listener ListenerRemember
    (fun l => (tt, remember_listener_training_details
                     speaker_message listener_action listener_probs
                     candidates reward l)) ;;;
  t <- attr total_training_reward ;;
  set_self (set_total_training_reward (Some (t + reward)%Z)) ;;;
  c <- attr batch_counter ;;
  set_self (set_batch_counter (Some (c + 1))) ;;;
  o <- gets self ;;
  if save_training_stats o then
    set_self (set_training_stats
                (training_stats o
                 ++ [mkStats reward target_input speaker_message listener_action]))
  else ret tt.

Definition train_networks_on_batch : M world unit :=
  on_speaker SpeakerTrain (fun s => (tt, train_speaker_policy_on_batch s)) ;;;
  on_listener ListenerTrain (fun l => (tt, train_listener_policy_on_batch l)) ;;;
  set_self (set_batch_counter (Some 0)).

Definition fit_body (_ : unit) (ex : example) : M world unit :=
  let '(target_input, candidates, target_candidate_idx) := ex in
  sample_from_networks_on_batch target_input candidates target_candidate_idx ;;;
  c <- attr batch_counter ;;
  o <- gets self ;;
  if c =? batch_size o then train_networks_on_batch else ret tt.

Definition fit (train_data : list example) : M world unit :=
  set_self (set_total_training_reward (Some 0%Z)) ;;;
  set_self (set_batch_counter (Some 0)) ;;;
  for_each fit_body train_data tt.

Definition predict_body (total_reward : Z) (ex : example) : M world Z :=
  let '(target_input, candidates, target_candidate_idx) := ex in
  '(message, message_probs) <-
    on_speaker SpeakerInfer (infer_from_speaker_policy target_input) ;;
  chosen_target_idx <-
    on_listener ListenerInfer (infer_from_listener_policy message candidates) ;;
  reward <- lift_result (calculate_reward chosen_target_idx target_candidate_idx) ;;
  let total_reward := (total_reward + reward)%Z in
  o <- gets self ;;
  (if save_testing_stats o then
     set_self (set_testing_stats
                 (testing_stats o
                  ++ [mkStats reward target_input message chosen_target_idx]))
   else ret tt) ;;;
  ret total_reward.

Definition predict (test_data : list example) : M world unit :=
  set_self (set_testing_stats []) ;;;
  for_each predict_body test_data 0%Z ;;;
  ret tt.

(** A log record for an episode on an example: its input, a position
    of its candidate list as the chosen index, and the reward of that
    choice. *)
Definition logged_episode (ex : example) (rec : stats) : Prop :=
  let '(target_input, candidates, target_candidate_idx) := ex in
  input rec = target_input /\
  (0 <= chosen_target_idx rec < Z.of_nat (length candidates))%Z /\
  calculate_reward (chosen_target_idx rec) target_candidate_idx = Ok (reward rec).

(** The sum of the rewards of a list of records. *)
Definition reward_total (recs : list stats) : Z :=
  fold_right Z.add 0%Z (map reward recs).

(** The calls of [predict] on a list of examples: for each, the greedy
    path of the speaker, then that of the listener. *)
Definition inference_calls {A} (exs : list A) : list call :=
  flat_map (fun _ => [SpeakerInfer; ListenerInfer]) exs.

(** Calls of the sampling and training path of the two networks. *)
Definition training_call (c : call) : Prop :=
  match c with
  | SpeakerInfer | ListenerInfer => False
  | _ => True
  end.

(** What [fit] leaves alone: the configuration and the testing log. *)
Definition fit_keep (o o' : base_agents) : Prop :=
  config o' = config o /\ testing_stats o' = testing_stats o.

End Methods.
End Agents.

(* ================================================================= *)
(** ** Concrete instances of the interfaces *)

Module Demo.
Import Py Np.

(** A stable insertion argsort. *)
Fixpoint insert_index (v : list Q) (i : nat) (sorted : list nat) : list nat :=
  match sorted with
  | [] => [i]
  | j :: js =>
      if Qle_bool (nth i v 0%Q) (nth j v 0%Q) then i :: j :: js
      else j :: insert_index v i js
  end.

Definition insertion_argsort (v : list Q) : list nat :=
  fold_right (insert_index v) [] (seq 0 (length v)).

(** A generator that is a counter: the [g]-th uniform draw is
    [(g mod 4) / 4], the [g]-th integer draw is [g mod high]. *)
Definition numpy : Numpy := {|
  rng := nat;
  random_sample := fun g => (Z.of_nat (g mod 4) # 4, S g);
  randint := fun high g => (g mod high, S g);
  argsort := insertion_argsort
|}.

(** A model over an alphabet of five symbols, whose weights count the
    training steps it accepts. *)
Definition raw_output : list (list Q) :=
  [[1 # 10; 2 # 10; 3 # 10; 2 # 10; 2 # 10]%Q].

Definition keras : Keras := {|
  weights := nat;
  predict := fun _ _ => raw_output;
  train_on_batch := fun w _ _ => Ok (S w)
|}.

(** The same model with a raw output that does not sum to one. *)
Definition unnormalized_output : list (list Q) := [[1; 2; 3; 2; 2]%Q].

Definition keras_unnormalized : Keras := {|
  weights := nat;
  predict := fun _ _ => unnormalized_output;
  train_on_batch := fun w _ _ => Ok (S w)
|}.

(** A model whose output favours the first symbol. *)
Definition peaked_output : list (list Q) :=
  [[7 # 10; 1 # 10; 1 # 10; 1 # 20; 1 # 20]%Q].

Definition keras_peaked : Keras := {|
  weights := nat;
  predict := fun _ _ => peaked_output;
  train_on_batch := fun w _ _ => Ok (S w)
|}.

(** [alphabet_size = 5], [max_message_length = 3], [batch_size = 2],
    inputs of two features. *)
Definition agent (save_training_stats save_testing_stats : bool)
  : @Networks.ifca keras :=
  @Networks.init keras 3 5 2 2 0 save_training_stats save_testing_stats.

(** The same agent asked for messages longer than the alphabet. *)
Definition long_agent : @Networks.ifca keras :=
  @Networks.init keras 7 5 2 2 0 true true.

(** An agent of the same configuration over the peaked model. *)
Definition peaked_agent : @Networks.ifca keras_peaked :=
  @Networks.init keras_peaked 3 5 2 2 0 true true.

(** A bare speaker policy with the attributes its sampling reads. *)
Definition policy : @Networks.speaker_policy keras :=
  @Networks.mkSpeakerPolicy keras 0 2 3 5.

Definition start (o : @Networks.ifca keras) : @world numpy (@Networks.ifca keras) :=
  @mkWorld numpy _ o 0 [].

(** Two examples with four candidates each. *)
Definition candidates4 : list (list Q) :=
  [[0; 0]; [0; 1]; [1; 0]; [1; 1]]%Q.

Definition two_examples : list Networks.example :=
  [([0; 1]%Q, candidates4, 1%Z); ([1; 0]%Q, candidates4, 2%Z)].

(** Networks for [BaseAgents]: the speaker says the number of episodes
    it has been asked about, the listener answers with the first
    candidate; both count what they have been told to remember. *)
Definition networks : Agents.PolicyNetworks := {|
  Agents.speaker := nat;
  Agents.listener := nat;
  Agents.msg := nat;
  Agents.speaker_probs := unit;
  Agents.listener_probs := unit;
  Agents.sample_from_speaker_policy := fun _ s => ((s, tt), s);
  Agents.sample_from_listener_policy :=
    fun _ _ l => ((0%Z, tt), l);
  Agents.remember_speaker_training_details := fun _ _ _ _ s => S s;
  Agents.remember_listener_training_details := fun _ _ _ _ _ l => S l;
  Agents.train_speaker_policy_on_batch := fun _ => 0;
  Agents.train_listener_policy_on_batch := fun _ => 0;
  Agents.infer_from_speaker_policy := fun _ s => ((s, tt), s);
  Agents.infer_from_listener_policy :=
    fun _ _ l => (0%Z, l)
|}.

Definition base_agent (save_training_stats save_testing_stats : bool)
  : @Agents.base_agents networks :=
  @Agents.init networks 2 0 0 save_training_stats save_testing_stats.

Definition base_start (o : @Agents.base_agents networks) : @Agents.world networks :=
  @Agents.mkWorld networks o [].

Definition onehot_examples : list Agents.example :=
  [([0; 1]%Q, candidates4, [1; 0; 0; 0]%Q);
   ([1; 0]%Q, candidates4, [0; 0; 1; 0]%Q)].

End Demo.

(* ================================================================= *)
(** ** [rl/agents.py]: [VisaAgents] *)

Module Visa.
Import Py Agents.

(** The dataset wrapper handed to [VisaAgents], as an interface: each
    generator method maps the wrapper to the examples it yields and the
    wrapper as the method left it.  (Its row counts are read for progress
    messages only.  The loops consume what a method yields to its end and
    do nothing else with the wrapper, so on a run that returns a lazy
    generator leaves the wrapper as this eager reading does.) *)
Class DatasetWrapper : Type := {
  dataset : Type;
  training_batch_generator : dataset -> list example * dataset;
  training_set_evaluation_generator : dataset -> list example * dataset;
  testing_set_generator : dataset -> list example * dataset
}.

Section Methods.
Context {P : PolicyNetworks} {D : DatasetWrapper}.

(** [infer_from_listener_policy] as [VisaAgents] uses it: the result is
    unpacked into the chosen index and the listener's probabilities. *)
Class ListenerInference : Type := {
  infer_from_listener_policy_pair :
    msg -> list (list Q) -> listener -> (Z * listener_probs) * listener
}.
Context {L : ListenerInference}.

(** A listener answers with a position of a non-empty candidate list. *)
Definition inference_contract : Prop :=
  forall m cands l,
    cands <> [] ->
    (0 <= fst (fst (infer_from_listener_policy_pair m cands l))
     < Z.of_nat (length cands))%Z.

(** [training_eval_stats] exists only once [evaluate_on_training_set]
    has assigned it. *)
Record visa_agents : Type := mkVisaAgents {
  base : base_agents;
  n_batches : nat;
  verbose : bool;
  training_eval_stats : option (list stats)
}.

(** [__init__]. *)
Definition init (batch_size n_batches : nat) (s : speaker) (l : listener)
    (save_training_stats save_testing_stats verbose : bool) : visa_agents :=
  mkVisaAgents (Agents.init batch_size s l save_training_stats save_testing_stats)
               n_batches verbose None.

Record world : Type := mkWorld {
  self : visa_agents;
  data_generator : dataset;
  calls : list call
}.

Definition set_base (b : base_agents) (o : visa_agents) : visa_agents :=
  mkVisaAgents b (n_batches o) (verbose o) (training_eval_stats o).

Definition set_training_eval_stats (v : option (list stats)) (o : visa_agents)
  : visa_agents :=
  mkVisaAgents (base o) (n_batches o) (verbose o) v.

(** A method inherited from [BaseAgents], run on the [BaseAgents] part of
    the object. *)
Definition inherited {A} (m : M Agents.world A) : M world A :=
  fun w =>
    let '(r, bw) := m (Agents.mkWorld (base (self w)) (calls w)) in
    (r, mkWorld (set_base (Agents.self bw) (self w)) (data_generator w)
                (Agents.calls bw)).

(** A call of a generator method of [data_generator]. *)
Definition generate (f : dataset -> list example * dataset) : M world (list example) :=
  fun w =>
    let '(batch, g) := f (data_generator w) in
    (Ok batch, mkWorld (self w) g (calls w)).

(** [VisaAgents.fit]: [n_batches] calls of the batch generator, the
    body of [BaseAgents.fit] on every example they yield. *)
Definition fit_on_batch (_ : unit) (n : nat) : M world unit :=
  batch <- generate training_batch_generator ;;
  for_each (fun _ b => inherited (Agents.fit_body tt b)) batch tt.

Definition fit : M world unit :=
  inherited (Agents.set_self (set_total_training_reward (Some 0%Z))) ;;;
  inherited (Agents.set_self (set_batch_counter (Some 0))) ;;;
  o <- gets self ;;
  for_each fit_on_batch (seq 0 (n_batches o)) tt.

(** The loop body shared by [evaluate_on_training_set] and [predict]:
    greedy speaker, greedy listener, reward; [record] stores the
    statistics. *)
Definition evaluate_example (record : stats -> M world unit)
    (total_reward : Z) (ex : example) : M world Z :=
  let '(target_input, candidates, target_candidate_idx) := ex in
  '(message, message_probs) <-
    inherited (on_speaker SpeakerInfer (infer_from_speaker_policy target_input)) ;;
  '(chosen_target_idx, listener_probs) <-
    inherited (on_listener ListenerInfer
                 (infer_from_listener_policy_pair message candidates)) ;;
  reward <- lift_result (calculate_reward chosen_target_idx target_candidate_idx) ;;
  let total_reward := (total_reward + reward)%Z in
  record (Agents.mkStats reward target_input message chosen_target_idx) ;;;
  ret total_reward.

Definition record_training_eval (r : stats) : M world unit :=
  o <- gets self ;;
  if save_training_stats (base o) then
    match training_eval_stats o with
    | Some l =>
        modify (fun w => mkWorld (set_training_eval_stats (Some (l ++ [r])) (self w))
                                 (data_generator w) (calls w))
    | None => raise AttributeError
    end
  else ret tt.

Definition record_testing (r : stats) : M world unit :=
  o <- gets self ;;
  if save_testing_stats (base o) then
    inherited (Agents.set_self
                 (set_testing_stats (testing_stats (base o) ++ [r])))
  else ret tt.

Definition evaluate_on_training_set : M world unit :=
  modify (fun w => mkWorld (set_training_eval_stats (Some []) (self w))
                           (data_generator w) (calls w)) ;;;
  training_eval_set <- generate training_set_evaluation_generator ;;
  for_each (evaluate_example record_training_eval) training_eval_set 0%Z ;;;
  ret tt.

Definition predict : M world unit :=
  inherited (Agents.set_self (set_testing_stats [])) ;;;
  test_set <- generate testing_set_generator ;;
  for_each (evaluate_example record_testing) test_set 0%Z ;;;
  ret tt.

(** The batches that [n] successive calls of the batch generator yield,
    and the wrapper after them. *)
Fixpoint batches_of (n : nat) (g : dataset) : list (list example) * dataset :=
  match n with
  | O => ([], g)
  | S n' =>
      let '(batch, g') := training_batch_generator g in
      let '(rest, g'') := batches_of n' g' in
      (batch :: rest, g'')
  end.

(** The calls of the greedy episodes of a list of examples. *)
Definition inferences {A} (exs : list A) : list call :=
  flat_map (fun _ => [SpeakerInfer; ListenerInfer]) exs.

(** What [predict] leaves alone: the training side of the object and
    the log of [evaluate_on_training_set]. *)
Definition predict_keep (o o' : visa_agents) : Prop :=
  same_training_side (base o) (base o') /\
  n_batches o' = n_batches o /\ verbose o' = verbose o /\
  training_eval_stats o' = training_eval_stats o.

(** What [evaluate_on_training_set] leaves alone: the training side of
    the object and the testing log. *)
Definition evaluation_keep (o o' : visa_agents) : Prop :=
  same_training_side (base o) (base o') /\
  n_batches o' = n_batches o /\ verbose o' = verbose o /\
  testing_stats (base o') = testing_stats (base o).

End Methods.
End Visa.

(* ================================================================= *)
(** ** A concrete dataset wrapper *)

Module VisaDemo.
Import Py Agents.

Definition three_examples : list example :=
  Demo.onehot_examples ++ [([1; 1]%Q, Demo.candidates4, [0; 0; 0; 1]%Q)].

(** A wrapper that counts the generators it has handed out: batches of
    three examples, the same three for the evaluation of the training
    set, and a test set of two. *)
Definition wrapper : Visa.DatasetWrapper := {|
  Visa.dataset := nat;
  Visa.training_batch_generator := fun g => (three_examples, S g);
  Visa.training_set_evaluation_generator := fun g => (three_examples, S g);
  Visa.testing_set_generator := fun g => (Demo.onehot_examples, S g)
|}.

(** The listener of [Demo.networks], answering with its probabilities. *)
Definition inference : @Visa.ListenerInference Demo.networks := {|
  Visa.infer_from_listener_policy_pair :=
    fun _ _ l => ((0%Z, tt : @listener_probs Demo.networks), l)
|}.

(** [batch_size = 2], [n_batches = 2]. *)
Definition agent (save_training_stats save_testing_stats : bool)
  : @Visa.visa_agents Demo.networks :=
  @Visa.init Demo.networks 2 2 0 0 save_training_stats save_testing_stats true.

Definition start (o : @Visa.visa_agents Demo.networks)
  : @Visa.world Demo.networks wrapper :=
  @Visa.mkWorld Demo.networks wrapper o 0 [].

End VisaDemo.

(* ================================================================= *)
(** ** The configuration dictionary *)

Module Config.

(** The values a configuration holds. *)
Inductive value : Type :=
| VInt (z : Z)
| VFloat (q : Q)
| VStr (s : string)
| VList (items : list string).

Inductive exn : Type :=
| KeyError (key : string)
| TypeError.

Inductive result (A : Type) : Type :=
| Ok (a : A)
| Raise (e : exn).
Arguments Ok {A} a.
Arguments Raise {A} e.

Definition bind {A B} (m : result A) (k : A -> result B) : result B :=
  match m with
  | Ok a => k a
  | Raise e => Raise e
  end.

Notation "'let*' x ':=' m 'in' k" := (bind m (fun x => k))
  (at level 10, x name, m at level 100, k at level 200).

(** A dictionary with string keys, and [d.get(key)]. *)
Definition dict : Type := list (string * value).

Fixpoint lookup (key : string) (d : dict) : option value :=
  match d with
  | [] => None
  | (k, v) :: d' => if String.eqb k key then Some v else lookup key d'
  end.

(** [d[key]]. *)
Definition getitem (d : dict) (key : string) : result value :=
  match lookup key d with
  | Some v => Ok v
  | None => Raise (KeyError key)
  end.

(** [v + 1]. *)
Definition add_one (v : value) : result value :=
  match v with
  | VInt z => Ok (VInt (z + 1))
  | VFloat q => Ok (VFloat (q + 1))
  | VStr _ | VList _ => Raise TypeError
  end.

(** The attributes [IndependentFullyConnectedAgents.initialize_parameters]
    assigns. *)
Record ifca_parameters : Type := mkIfcaParameters {
  max_message_length : value;
  alphabet : value;
  alphabet_size : value;
  speaker_lr : value;
  speaker_dim : value;
  listener_lr : value;
  listener_dim : value;
  training_epoch : value;
  batch_size : value;
  n_classes : value
}.

Definition ifca_initialize_parameters (config_dict : dict) : result ifca_parameters :=
  let* max_message_length := getitem config_dict "max_message_length" in
  let* alphabet := getitem config_dict "alphabet" in
  let* alphabet_size := getitem config_dict "alphabet_size" in
  let* speaker_lr := getitem config_dict "speaker_lr" in
  let* speaker_dim := getitem config_dict "speaker_dim" in
  let* listener_lr := getitem config_dict "listener_lr" in
  let* listener_dim := getitem config_dict "listener_dim" in
  let* training_epoch := getitem config_dict "training_epoch" in
  let* batch_size := getitem config_dict "batch_size" in
  let* n_distractors := getitem config_dict "n_distractors" in
  let* n_classes := add_one n_distractors in
  Ok (mkIfcaParameters max_message_length alphabet alphabet_size speaker_lr
                       speaker_dim listener_lr listener_dim training_epoch
                       batch_size n_classes).

(** The attributes [BaseAgents.initialize_parameters] assigns: those
    above, [speaker_input_dim] and [n_batches]. *)
Record base_parameters : Type := mkBaseParameters {
  shared : ifca_parameters;
  speaker_input_dim : value;
  n_batches : value
}.

Definition base_initialize_parameters (config_dict : dict) : result base_parameters :=
  let* max_message_length := getitem config_dict "max_message_length" in
  let* alphabet := getitem config_dict "alphabet" in
  let* alphabet_size := getitem config_dict "alphabet_size" in
  let* speaker_lr := getitem config_dict "speaker_lr" in
  let* speaker_dim := getitem config_dict "speaker_dim" in
  let* speaker_input_dim := getitem config_dict "speaker_input_dim" in
  let* listener_lr := getitem config_dict "listener_lr" in
  let* listener_dim := getitem config_dict "listener_dim" in
  let* training_epoch := getitem config_dict "training_epoch" in
  let* batch_size := getitem config_dict "batch_size" in
  let* n_distractors := getitem config_dict "n_distractors" in
  let* n_classes := add_one n_distractors in
  let* n_batches := getitem config_dict "n_batches" in
  Ok (mkBaseParameters
        (mkIfcaParameters max_message_length alphabet alphabet_size speaker_lr
                          speaker_dim listener_lr listener_dim training_epoch
                          batch_size n_classes)
        speaker_input_dim n_batches).

(** The keys the two methods read. *)
Definition ifca_keys : list string :=
  ["max_message_length"; "alphabet"; "alphabet_size"; "speaker_lr"; "speaker_dim";
   "listener_lr"; "listener_dim"; "training_epoch"; "batch_size";
   "n_distractors"]%string.

Definition base_keys : list string :=
  ifca_keys ++ ["speaker_input_dim"; "n_batches"]%string.

(** A configuration with every key, and some more. *)
Definition example_config : dict :=
  [("verbose", VInt 1); ("max_message_length", VInt 3);
   ("alphabet", VList ["a"; "b"; "c"; "d"; "e"]);
   ("alphabet_size", VInt 5); ("speaker_lr", VFloat (1 # 1000));
   ("speaker_dim", VInt 2); ("speaker_input_dim", VInt 2);
   ("listener_lr", VFloat (1 # 1000)); ("listener_dim", VInt 2);
   ("training_epoch", VInt 1); ("batch_size", VInt 2);
   ("n_distractors", VInt 3); ("n_batches", VInt 2)]%string.

End Config.

(* ================================================================= *)
(** * Properties *)

(** ** The monad *)

Section MonadFacts.
Import Py.
Context {S A B : Type}.

Lemma bind_ok (m : M S A) (k : A -> M S B) s a s' :
  m s = (Ok a, s') -> bind m k s = k a s'.
Proof. intros H. unfold bind. now rewrite H. Qed.

Lemma bind_raise (m : M S A) (k : A -> M S B) s e s' :
  m s = (Raise e, s') -> bind m k s = (Raise e, s').
Proof. intros H. unfold bind. now rewrite H. Qed.

Lemma bind_ok_inv (m : M S A) (k : A -> M S B) s b s'' :
  bind m k s = (Ok b, s'') ->
  exists a s', m s = (Ok a, s') /\ k a s' = (Ok b, s'').
Proof.
  unfold bind. destruct (m s) as [[a | e] s'] eqn:E; intros H.
  - now exists a, s'.
  - discriminate.
Qed.

Lemma for_each_app (body : B -> A -> M S B) xs ys acc s :
  for_each body (xs ++ ys) acc s
  = bind (for_each body xs acc) (for_each body ys) s.
Proof.
  revert acc s. induction xs as [| x xs IH]; intros acc s.
  - reflexivity.
  - change (for_each body ((x :: xs) ++ ys) acc s)
      with (bind (body acc x) (for_each body (xs ++ ys)) s).
    change (for_each body (x :: xs) acc)
      with (bind (body acc x) (for_each body xs)).
    unfold bind. destruct (body acc x s) as [[b | e] s'].
    + rewrite IH. reflexivity.
    + reflexivity.
Qed.
End MonadFacts.

(** ** Messages as strings *)

Section StringFacts.
Import Py.

Lemma append_assoc (a b c : string) :
  String.append (String.append a b) c = String.append a (String.append b c).
Proof. induction a as [| x a IH]; cbn; [reflexivity | now rewrite IH]. Qed.

Lemma append_empty_r (a : string) : String.append a EmptyString = a.
Proof. induction a as [| x a IH]; cbn; [reflexivity | now rewrite IH]. Qed.

Lemma split_token sep t rest :
  free_of sep t ->
  split sep (String.append t (String sep rest)) = t :: split sep rest.
Proof.
  induction t as [| c t IH]; intros Hfree; cbn.
  - now rewrite Ascii.eqb_refl.
  - assert (Hc : Ascii.eqb c sep = false).
    { apply Ascii.eqb_neq. apply Hfree. cbn. now left. }
    rewrite Hc, IH; [reflexivity |].
    intros c' Hin. apply Hfree. cbn. now right.
Qed.

Lemma split_plain sep t : free_of sep t -> split sep t = [t].
Proof.
  induction t as [| c t IH]; intros Hfree; cbn.
  - reflexivity.
  - assert (Hc : Ascii.eqb c sep = false).
    { apply Ascii.eqb_neq. apply Hfree. cbn. now left. }
    rewrite Hc, IH; [reflexivity |].
    intros c' Hin. apply Hfree. cbn. now right.
Qed.

Lemma digits_free_of_hash d :
  free_of "#" (DecimalString.NilEmpty.string_of_uint d).
Proof.
  induction d; intros c Hin; cbn in Hin;
    try (destruct Hin as [<- | Hin]; [discriminate | now apply IHd]).
  contradiction.
Qed.

Lemma str_free_of_hash n : free_of "#" (str n).
Proof. apply digits_free_of_hash. Qed.

Lemma to_uint_nonnil n : Nat.to_uint n <> Decimal.Nil.
Proof.
  rewrite <- (DecimalNat.Unsigned.of_to n) at 1.
  rewrite DecimalNat.Unsigned.to_of. apply DecimalFacts.unorm_nonnil.
Qed.

Lemma str_nonempty n : str n <> EmptyString.
Proof.
  unfold str. generalize (to_uint_nonnil n).
  destruct (Nat.to_uint n); cbn; congruence.
Qed.

Lemma parse_nat_str n : parse_nat (str n) = Some n.
Proof.
  unfold parse_nat. generalize (str_nonempty n).
  destruct (str n) eqn:E; [congruence |]. intros _.
  rewrite <- E. unfold str.
  rewrite DecimalString.NilEmpty.usu. cbn.
  now rewrite DecimalNat.Unsigned.of_to.
Qed.

Lemma parse_all_str syms : Networks.parse_all (map str syms) = Some syms.
Proof.
  induction syms as [| n syms IH]; cbn; [reflexivity |].
  now rewrite parse_nat_str, IH.
Qed.

Lemma drop_closing_closed toks :
  Networks.drop_closing (toks ++ [EmptyString]) = toks.
Proof.
  unfold Networks.drop_closing. rewrite rev_app_distr. cbn.
  apply rev_involutive.
Qed.

Lemma drop_closing_open syms :
  syms <> [] -> Networks.drop_closing (map str syms) = map str syms.
Proof.
  intros Hne. unfold Networks.drop_closing.
  rewrite <- map_rev.
  destruct (rev syms) as [| n before] eqn:E.
  - apply (f_equal (@rev nat)) in E. rewrite rev_involutive in E.
    cbn in E. contradiction.
  - cbn. generalize (str_nonempty n). destruct (str n); congruence.
Qed.

(** A message built symbol by symbol, each followed by ['#']. *)
Lemma symbols_of_closed_message syms :
  Networks.message_symbols (Networks.closed_message syms) = Some syms.
Proof.
  unfold Networks.message_symbols, Networks.closed_message.
  assert (H : split "#" (fold_right (fun n acc => String.append (str n) (String "#" acc))
                                   EmptyString syms)
              = map str syms ++ [EmptyString]).
  { induction syms as [| n syms IH]; cbn; [reflexivity |].
    rewrite split_token by apply str_free_of_hash. now rewrite IH. }
  rewrite H, drop_closing_closed. apply parse_all_str.
Qed.

(** A message built by ["#".join]. *)
Lemma split_join syms :
  syms <> [] -> split "#" (join "#" (map str syms)) = map str syms.
Proof.
  induction syms as [| n syms IH]; [congruence |]. intros _.
  destruct syms as [| n' syms].
  - cbn. apply split_plain, str_free_of_hash.
  - change (join "#" (map str (n :: n' :: syms)))
      with (String.append (str n)
              (String "#" (join "#" (map str (n' :: syms))))).
    rewrite split_token by apply str_free_of_hash.
    rewrite IH by congruence. reflexivity.
Qed.

Lemma symbols_of_joined_message syms :
  Networks.message_symbols (join "#" (map str syms)) = Some syms.
Proof.
  unfold Networks.message_symbols. destruct syms as [| n syms].
  - reflexivity.
  - rewrite split_join by congruence.
    rewrite drop_closing_open by congruence. apply parse_all_str.
Qed.

End StringFacts.

(** ** numpy arithmetic *)

Section NumpyFacts.
Import Py Np.

Lemma sum_cons a v : (sum (a :: v) == a + sum v)%Q.
Proof. reflexivity. Qed.

Lemma sum_divide v s : (sum (divide v s) == sum v / s)%Q.
Proof.
  induction v as [| a v IH].
  - cbn. unfold Qdiv. ring.
  - change (divide (a :: v) s) with ((a / s)%Q :: divide v s).
    rewrite !sum_cons, IH. unfold Qdiv. ring.
Qed.

Lemma sum_app u v : (sum (u ++ v) == sum u + sum v)%Q.
Proof.
  induction u as [| a u IH].
  - change (sum []) with 0%Q. cbn [app]. ring.
  - change ((a :: u) ++ v) with (a :: (u ++ v)).
    rewrite !sum_cons, IH. ring.
Qed.

Lemma sum_nonneg v : Forall (fun p => (0 <= p)%Q) v -> (0 <= sum v)%Q.
Proof.
  induction 1 as [| a v Ha _ IH].
  - apply Qle_refl.
  - rewrite sum_cons. lra.
Qed.

Lemma divide_nonneg v s :
  Forall (fun p => (0 <= p)%Q) v -> (0 < s)%Q ->
  Forall (fun p => (0 <= p)%Q) (divide v s).
Proof.
  intros Hv Hs. unfold divide. apply Forall_map.
  eapply Forall_impl; [| exact Hv]. cbn beta. intros a Ha.
  apply Qle_shift_div_l; [exact Hs | lra].
Qed.

(** Dividing a vector by its non-zero sum makes it sum to one. *)
Lemma sum_normalized v : ~ (sum v == 0)%Q -> (sum (divide v (sum v)) == 1)%Q.
Proof.
  intros Hs. rewrite sum_divide. now field.
Qed.

Lemma length_divide v s : length (divide v s) = length v.
Proof. apply length_map. Qed.

Lemma length_cumsum_from acc v : length (cumsum_from acc v) = length v.
Proof.
  revert acc. induction v as [| a v IH]; intros acc; cbn [cumsum_from length];
    [| rewrite IH]; reflexivity.
Qed.

Lemma last_cumsum_from acc v d :
  v <> [] -> (last (cumsum_from acc v) d == acc + sum v)%Q.
Proof.
  revert acc. induction v as [| a v IH]; intros acc Hne; [congruence |].
  destruct v as [| b v].
  - cbn [cumsum_from last]. rewrite sum_cons. change (sum []) with 0%Q. ring.
  - change (last (cumsum_from acc (a :: b :: v)) d)
      with (last (cumsum_from (acc + a) (b :: v)) d).
    rewrite IH by congruence. rewrite (sum_cons a). ring.
Qed.

Lemma last_divide v s d :
  v <> [] -> last (divide v s) d = (last v d / s)%Q.
Proof.
  induction v as [| a v IH]; intros Hne; [congruence |].
  destruct v as [| b v]; [reflexivity |].
  change (last (divide (a :: b :: v) s) d) with (last (divide (b :: v) s) d).
  rewrite IH by congruence. reflexivity.
Qed.

Lemma searchsorted_right_lt cdf u d :
  cdf <> [] -> (u < last cdf d)%Q -> searchsorted_right cdf u < length cdf.
Proof.
  induction cdf as [| c cs IH]; intros Hne Hu; [congruence |].
  cbn [searchsorted_right length].
  destruct (Qle_bool c u) eqn:E; [| lia].
  destruct cs as [| c' cs].
  - cbn [last] in Hu. apply Qle_bool_iff in E. lra.
  - apply -> Nat.succ_lt_mono. apply IH; [congruence | exact Hu].
Qed.

Lemma existsb_negative_false p :
  Forall (fun x => (0 <= x)%Q) p ->
  existsb (fun x => negb (Qle_bool 0 x)) p = false.
Proof.
  induction 1 as [| a p Ha _ IH]; cbn [existsb]; [reflexivity |].
  apply Qle_bool_iff in Ha. now rewrite Ha, IH.
Qed.

Lemma reshape_input x d : length x = d -> reshape x [1; d; 1] = Ok x.
Proof.
  intros <-. unfold reshape. cbn [fold_right].
  replace (1 * (length x * (1 * 1))) with (length x) by lia.
  now rewrite Nat.eqb_refl.
Qed.

End NumpyFacts.

(** ** Calls into numpy *)

Section NumpyCalls.
Import Py Np.
Context {N : Numpy} {Self : Type}.

Lemma random_choice_ok a p (w : world Self) :
  random_contract N ->
  0 < a -> length p = a ->
  Forall (fun x => (0 <= x)%Q) p -> (sum p == 1)%Q ->
  exists i,
    i < a /\
    random_choice a p w
    = (Ok i, mkWorld (self w) (snd (random_sample (np_random w)))
                     (calls w ++ [NpRandomChoice a p])).
Proof.
  intros [Hu _] Ha Hlen Hnn Hsum.
  assert (Hp : p <> []) by (destruct p; cbn in Hlen; [lia | congruence]).
  unfold random_choice, log, draw, modify, bind, ret, raise. cbn [self np_random calls].
  replace (a =? 0) with false by (symmetry; apply Nat.eqb_neq; lia).
  replace (length p =? a) with true by (symmetry; now apply Nat.eqb_eq).
  rewrite existsb_negative_false by exact Hnn.
  replace (Qeq_bool (sum p) 1) with true by (symmetry; now apply Qeq_bool_iff).
  cbn [negb self np_random calls]. specialize (Hu (np_random w)).
  destruct (random_sample (np_random w)) as [u g]. cbn [fst snd self np_random calls] in *.
  eexists. split; [| reflexivity].
  assert (Hlen' : a = length (divide (cumsum p) (last (cumsum p) 0%Q))).
  { rewrite length_divide. unfold cumsum. now rewrite length_cumsum_from. }
  rewrite Hlen'.
  assert (Hc : cumsum p <> []).
  { unfold cumsum. intros E. apply (f_equal (@length Q)) in E.
    rewrite length_cumsum_from in E. destruct p; cbn in E; congruence. }
  apply (searchsorted_right_lt _ _ 0%Q).
  - intros E. apply (f_equal (@length Q)) in E.
    rewrite length_divide in E. destruct (cumsum p); cbn in E; congruence.
  - rewrite last_divide by exact Hc.
    assert (Hl : (last (cumsum p) 0 == 1)%Q).
    { unfold cumsum. rewrite last_cumsum_from by exact Hp. rewrite Hsum. ring. }
    rewrite Hl. unfold Qdiv. 
    setoid_replace (1 * / 1)%Q with 1%Q by reflexivity. apply Hu.
Qed.

Lemma random_randint_ok high (w : world Self) :
  random_contract N ->
  0 < high ->
  exists i,
    i < high /\
    random_randint high w
    = (Ok i, mkWorld (self w) (snd (randint high (np_random w)))
                     (calls w ++ [NpRandomRandint high])).
Proof.
  intros [_ Hr] Hh.
  unfold random_randint, log, draw, modify, bind, ret, raise. cbn [self np_random calls].
  replace (high =? 0) with false by (symmetry; apply Nat.eqb_neq; lia).
  cbn [self np_random calls].
  specialize (Hr high (np_random w) Hh).
  destruct (randint high (np_random w)) as [i g]. cbn [fst snd self np_random calls] in *.
  now exists i.
Qed.

Lemma random_randint_empty (w : world Self) :
  random_randint 0 w
  = (Raise ValueError,
     mkWorld (self w) (np_random w) (calls w ++ [NpRandomRandint 0])).
Proof. reflexivity. Qed.

End NumpyCalls.

(** ** The speaker policy *)

Section SpeakerFacts.
Import Py Np Networks.
Context {N : Numpy} {K : Keras}.

Lemma softmax_normalized alphabet_size probs :
  softmax_output alphabet_size probs ->
  exists row,
    probs = [row] /\ length row = alphabet_size /\ (0 < sum row)%Q /\
    divide2 probs (sum2 probs) = [divide row (sum row)] /\
    Forall (fun p => (0 <= p)%Q) (divide row (sum row)) /\
    (sum (divide row (sum row)) == 1)%Q.
Proof.
  intros (row & -> & Hlen & Hnn & Hpos).
  exists row. repeat split; try assumption.
  - unfold divide2, sum2. cbn [concat map]. now rewrite app_nil_r.
  - now apply divide_nonneg.
  - apply sum_normalized. lra.
Qed.

Lemma sample_loop_ok {Self} alphabet_size nrow k :
  random_contract N ->
  0 < alphabet_size -> length nrow = alphabet_size ->
  Forall (fun p => (0 <= p)%Q) nrow -> (sum nrow == 1)%Q ->
  forall start message message_probs (w : world Self),
  exists syms w',
    for_each (sample_step alphabet_size [nrow]) (seq start k)
             (message, message_probs) w
    = (Ok (String.append message (closed_message syms),
           message_probs ++ map (fun i => nth i nrow 0%Q) syms), w') /\
    length syms = k /\
    Forall (fun s => s < alphabet_size) syms /\
    self w' = self w /\
    calls w' = calls w ++ repeat (NpRandomChoice alphabet_size nrow) k.
Proof.
  intros Hr Ha Hlen Hnn Hsum.
  induction k as [| k IH]; intros start message message_probs w.
  - exists [], w. cbn. rewrite append_empty_r, !app_nil_r. now repeat split.
  - destruct (random_choice_ok alphabet_size nrow w Hr Ha Hlen Hnn Hsum)
      as (sym & Hsym & Hchoice).
    assert (Hnth : nth_error nrow sym = Some (nth sym nrow 0%Q)).
    { apply nth_error_nth'. lia. }
    set (w1 := mkWorld (self w) (snd (random_sample (np_random w)))
                       (calls w ++ [NpRandomChoice alphabet_size nrow])) in *.
    destruct (IH (S start)
                 (String.append message (String.append (str sym) "#"))
                 (message_probs ++ [nth sym nrow 0%Q]) w1)
      as (syms & w' & Hrun & Hk & Hall & Hself & Hcalls).
    exists (sym :: syms), w'.
    split; [| repeat split].
    + cbn [seq for_each]. unfold bind at 1.
      unfold sample_step at 1. unfold bind at 1. unfold lift_result at 1.
      cbn [getitem_nat nth_error]. unfold bind at 1. rewrite Hchoice.
      unfold bind at 1. unfold lift_result at 1.
      cbn [getitem_nat nth_error]. unfold bind at 1. unfold lift_result at 1.
      unfold getitem_nat. rewrite Hnth. unfold ret at 1.
      rewrite Hrun. unfold closed_message. cbn [fold_right map].
      rewrite !append_assoc, <- !app_assoc. reflexivity.
    + cbn. now rewrite Hk.
    + now constructor.
    + rewrite Hself. reflexivity.
    + rewrite Hcalls. subst w1. cbn [calls repeat].
      now rewrite <- app_assoc.
Qed.

Lemma sample_message_ok {Self} model sd mml asz x (w : world Self) :
  random_contract N -> keras_contract K asz -> length x = sd ->
  exists row syms w',
    Np.predict model x = [row] /\
    sample_message model sd mml asz x w
    = (Ok (closed_message syms,
           map (fun i => nth i (divide row (sum row)) 0%Q) syms), w') /\
    length syms = mml /\
    Forall (fun s => s < asz) syms /\
    self w' = self w /\
    calls w' = calls w ++ KerasPredict x
                 :: repeat (NpRandomChoice asz (divide row (sum row))) mml /\
    (sum (divide row (sum row)) == 1)%Q.
Proof.
  intros Hr Hk Hx.
  destruct (softmax_normalized _ _ (Hk model x))
    as (row & Hrow & Hlen & Hpos & Hnorm & Hnn & Hone).
  assert (Ha : 0 < asz).
  { destruct row; [| cbn in Hlen; lia]. cbn in Hpos. lra. }
  set (w0 := mkWorld (self w) (np_random w) (calls w ++ [KerasPredict x])).
  destruct (sample_loop_ok asz (divide row (sum row)) mml Hr Ha
              ltac:(now rewrite length_divide) Hnn Hone 0 EmptyString [] w0)
    as (syms & w' & Hrun & Hlen' & Hall & Hself & Hcalls).
  exists row, syms, w'. split; [exact Hrow |]. split; [| repeat split; try assumption].
  - unfold sample_message. unfold bind at 1. unfold lift_result at 1.
    rewrite (reshape_input _ _ Hx). unfold bind at 1. unfold log, modify.
    fold w0. rewrite Hnorm. rewrite Hrun. reflexivity.
  - rewrite Hcalls. subst w0. cbn [calls]. now rewrite <- app_assoc.
Qed.

Lemma incl_slice_last {A} k (xs : list A) : incl (slice_last k xs) xs.
Proof.
  destruct k as [| k]; cbn [slice_last]; [apply incl_refl |].
  intros a Ha. rewrite <- (firstn_skipn (length xs - S k) xs).
  apply in_or_app. now right.
Qed.

Lemma length_slice_last {A} k (xs : list A) :
  0 < k -> length (slice_last k xs) = Nat.min k (length xs).
Proof.
  destruct k as [| k]; [lia |]. intros _. cbn [slice_last].
  rewrite length_skipn. lia.
Qed.

Lemma take_ok {S} row idx (s : S) :
  Forall (fun i => i < length row) idx ->
  take row idx s = (Ok (map (fun i => nth i row 0%Q) idx), s).
Proof.
  induction 1 as [| i idx Hi _ IH]; [reflexivity |].
  cbn [take map]. unfold bind at 1. unfold lift_result at 1.
  unfold getitem_nat. rewrite (nth_error_nth' row 0%Q Hi).
  unfold bind at 1. rewrite IH. reflexivity.
Qed.

Lemma argsort_in_range v i :
  argsort_contract N -> In i (argsort v) -> i < length v.
Proof.
  intros Hs Hin. apply (Permutation_in _ (Hs v)) in Hin.
  apply in_seq in Hin. lia.
Qed.

Lemma infer_ok x (w : world ifca) :
  argsort_contract N ->
  keras_contract K (alphabet_size (self w)) ->
  length x = speaker_dim (self w) ->
  exists row,
    Np.predict (speaker_model (self w)) x = [row] /\
    length row = alphabet_size (self w) /\
    (sum (divide row (sum row)) == 1)%Q /\
    infer_from_speaker_policy x w
    = (Ok (join "#" (map str (rev (slice_last (max_message_length (self w))
                                              (argsort (divide row (sum row)))))),
           map (fun i => nth i (divide row (sum row)) 0%Q)
               (rev (slice_last (max_message_length (self w))
                                (argsort (divide row (sum row)))))),
       mkWorld (self w) (np_random w)
               (calls w ++ [KerasPredict x; NpArgsort (divide row (sum row))])).
Proof.
  intros Hs Hk Hx.
  destruct (softmax_normalized _ _ (Hk (speaker_model (self w)) x))
    as (row & Hrow & Hlen & Hpos & Hnorm & Hnn & Hone).
  exists row. repeat split; try assumption.
  unfold infer_from_speaker_policy. unfold bind at 1. unfold gets at 1.
  unfold bind at 1. unfold lift_result at 1. rewrite (reshape_input _ _ Hx).
  unfold bind at 1. unfold log at 1, modify. rewrite Hnorm.
  erewrite bind_ok by reflexivity.
  erewrite bind_ok by reflexivity.
  erewrite bind_ok by reflexivity.
  erewrite bind_ok; cycle 1.
  - apply take_ok. apply Forall_forall. intros i Hi. apply in_rev in Hi.
    apply incl_slice_last in Hi.
    now apply (argsort_in_range (divide row (sum row))).
  - unfold ret. simpl. rewrite <- app_assoc. reflexivity.
Qed.

Lemma listener_policy_ok message candidates (w : world ifca) :
  random_contract N -> candidates <> [] ->
  exists i,
    i < length candidates /\
    listener_policy message candidates w
    = (Ok i, mkWorld (self w) (snd (randint (length candidates) (np_random w)))
                     (calls w ++ [NpRandomRandint (length candidates)])).
Proof.
  intros Hr Hne. apply random_randint_ok; [exact Hr |].
  destruct candidates; [congruence | cbn; lia].
Qed.

End SpeakerFacts.

(** ** The training loop of [IndependentFullyConnectedAgents] *)

Section FitFacts.
Import Py Np Networks.
Context {N : Numpy} {K : Keras}.

Lemma vstack_ok {A} (rows : list (list A)) n :
  rows <> [] -> Forall (fun r => length r = n) rows -> vstack rows = Ok rows.
Proof.
  intros Hne Hall. destruct rows as [| r rows]; [congruence |].
  unfold vstack. inversion Hall as [| ? ? Hr Hrows]; subst.
  replace (forallb (fun r' => length r' =? length r) rows) with true; [reflexivity |].
  symmetry. apply forallb_forall. intros r' Hin.
  apply Nat.eqb_eq. rewrite Forall_forall in Hrows. now apply Hrows.
Qed.

Lemma vstack_scalars_ok {A} (xs : list A) : xs <> [] -> vstack_scalars xs = Ok xs.
Proof. destruct xs; [congruence | reflexivity]. Qed.

Lemma multiply_ok a b :
  length a = length b ->
  multiply a b = Ok (map (fun xy => (fst xy * snd xy)%Q) (combine a b)).
Proof. intros H. unfold multiply. now rewrite H, Nat.eqb_refl. Qed.

Lemma length_concat_uniform {A} (rows : list (list A)) n :
  Forall (fun r => length r = n) rows -> length (concat rows) = length rows * n.
Proof.
  induction 1 as [| r rows Hr _ IH]; [reflexivity |].
  cbn [concat length]. rewrite length_app, IH, Hr. lia.
Qed.

Lemma reshape_batch (rows : list (list Q)) b d :
  length rows = b -> Forall (fun r => length r = d) rows ->
  reshape (concat rows) [b; d; 1] = Ok (concat rows).
Proof.
  intros Hb Hall. unfold reshape. cbn [fold_right].
  rewrite (length_concat_uniform rows d Hall), Hb.
  replace (b * (d * (1 * 1))) with (b * d) by lia.
  now rewrite Nat.eqb_refl.
Qed.

Lemma train_calls_app cs cs' : train_calls (cs ++ cs') = train_calls cs ++ train_calls cs'.
Proof. apply flat_map_app. Qed.

Lemma train_calls_repeat_choice a p k :
  train_calls (repeat (NpRandomChoice a p) k) = [].
Proof. induction k as [| k IH]; [reflexivity | exact IH]. Qed.

Lemma fit_episode_ok l ex (w : world ifca) ts :
  random_contract N -> keras_contract K (alphabet_size (self w)) ->
  well_formed (speaker_dim (self w)) ex ->
  training_stats (self w) = Some ts ->
  exists probs reward record new w',
    fit_episode l ex w
    = (Ok (mkFitLocals (message_probs_storage l ++ [probs])
                       (rewards_storage l ++ [reward])
                       (total_reward l + reward)%Z
                       (batch_counter l + 1)
                       (batch_training_inputs l ++ [input_of ex])), w') /\
    length probs = max_message_length (self w) /\
    self w' = (if save_training_stats (self w)
               then set_training_stats (Some (ts ++ [record])) (self w)
               else self w) /\
    calls w' = calls w ++ new /\ train_calls new = [].
Proof.
  intros Hr Hk [Hx Hc] Hts. destruct ex as [[x cands] t].
  unfold input_of, candidates_of in *. cbn [fst snd] in *.
  destruct (sample_message_ok (speaker_model (self w)) (speaker_dim (self w))
              (max_message_length (self w)) (alphabet_size (self w)) x w Hr Hk Hx)
    as (row & syms & w1 & _ & Hrun & Hlen & _ & Hself1 & Hcalls1 & _).
  destruct (listener_policy_ok (closed_message syms) cands w1 Hr Hc)
    as (i & Hi & Hlisten).
  set (probs := map (fun i => nth i (divide row (sum row)) 0%Q) syms) in *.
  set (reward := calculate_reward (Z.of_nat i) t).
  set (record := mkStats reward x (closed_message syms) (nth i cands [])).
  set (new := KerasPredict x
                :: repeat (NpRandomChoice (alphabet_size (self w))
                                          (divide row (sum row)))
                          (max_message_length (self w))
                ++ [NpRandomRandint (length cands)]).
  assert (Hnew : train_calls new = []).
  { subst new. cbn [train_calls flat_map app].
    change (flat_map _ ?cs) with (train_calls cs).
    now rewrite train_calls_app, train_calls_repeat_choice. }
  assert (Hget : getitem_nat cands i = Ok (nth i cands [])).
  { unfold getitem_nat. now rewrite (nth_error_nth' cands [] Hi). }
  exists probs, reward, record, new.
  unfold fit_episode.
  erewrite bind_ok; cycle 1.
  { unfold sample_speaker_policy_for_message.
    erewrite bind_ok by reflexivity. exact Hrun. }
  cbn beta iota. erewrite bind_ok by exact Hlisten.
  erewrite bind_ok by reflexivity. simpl self. rewrite Hself1.
  destruct (save_training_stats (self w)) eqn:Hsave.
  - unfold bind at 1. unfold bind at 1. unfold lift_result at 1. rewrite Hget.
    unfold append_stats. erewrite bind_ok by reflexivity.
    replace (training_stats (self _)) with (Some ts) by (symmetry; exact Hts).
    eexists. split; [reflexivity |]. simpl.
    rewrite Hcalls1. subst probs. rewrite length_map.
    repeat split; try assumption. subst new. cbn [app]. now rewrite <- app_assoc.
  - eexists. split; [reflexivity |]. simpl.
    rewrite Hcalls1. subst probs. rewrite length_map.
    repeat split; try assumption. subst new. cbn [app]. now rewrite <- app_assoc.
Qed.

Lemma fit_train_if_full_not l (w : world ifca) :
  batch_counter l <> batch_size (self w) -> fit_train_if_full l w = (Ok l, w).
Proof.
  intros Hc. unfold fit_train_if_full. erewrite bind_ok by reflexivity.
  apply Nat.eqb_neq in Hc. now rewrite Hc.
Qed.

Lemma config_episode (o : ifca) ts :
  config (if save_training_stats o then set_training_stats ts o else o) = config o.
Proof. now destruct (save_training_stats o). Qed.

(** Chunks of [bs] and a shorter rest are the quotient and the remainder. *)
Lemma chunks_div_mod {A} (data : list A) chunks rest bs :
  data = concat chunks ++ rest ->
  Forall (fun c => length c = bs) chunks ->
  (bs = 0 -> chunks = []) ->
  (bs = 0 \/ length rest < bs) ->
  length chunks = length data / bs /\ length rest = length data mod bs.
Proof.
  intros -> Hchunks Hz Hrest.
  rewrite length_app, (length_concat_uniform chunks bs Hchunks).
  destruct (Nat.eq_dec bs 0) as [-> | Hbs].
  - rewrite (Hz eq_refl). cbn [length]. now rewrite Nat.div_0_r, Nat.mod_0_r.
  - destruct Hrest as [? | Hrest]; [contradiction |].
    split.
    + apply (Nat.div_unique _ bs _ (length rest)); [exact Hrest | lia].
    + apply (Nat.mod_unique _ bs (length chunks)); [exact Hrest | lia].
Qed.

End FitFacts.

(** ** Frames: what a method leaves alone on every run *)

Section FrameFacts.
Import Py.
Context {S O C : Type} (obj : S -> O) (trace : S -> list C).
Context (P : C -> Prop) (keep : O -> O -> Prop).
Hypothesis keep_refl : forall o, keep o o.
Hypothesis keep_trans : forall o1 o2 o3, keep o1 o2 -> keep o2 o3 -> keep o1 o3.

Lemma extends_refl s : extends obj trace P keep s s.
Proof.
  split; [apply keep_refl |]. exists []. now rewrite app_nil_r.
Qed.

Lemma extends_trans s1 s2 s3 :
  extends obj trace P keep s1 s2 -> extends obj trace P keep s2 s3 ->
  extends obj trace P keep s1 s3.
Proof.
  intros [Hk1 (n1 & Ht1 & Hp1)] [Hk2 (n2 & Ht2 & Hp2)]. split.
  - eapply keep_trans; eassumption.
  - exists (n1 ++ n2). split.
    + now rewrite Ht2, Ht1, app_assoc.
    + apply Forall_app. now split.
Qed.

Lemma respects_ret {A} (a : A) : respects (extends obj trace P keep) (ret a).
Proof. intros s r s' [= _ <-]. apply extends_refl. Qed.

Lemma respects_raise {A} e : respects (extends obj trace P keep) (@raise S A e).
Proof. intros s r s' [= _ <-]. apply extends_refl. Qed.

Lemma respects_lift_result {A} (x : result A) :
  respects (extends obj trace P keep) (lift_result x).
Proof. intros s r s' [= _ <-]. apply extends_refl. Qed.

Lemma respects_gets {A} (f : S -> A) : respects (extends obj trace P keep) (gets f).
Proof. intros s r s' [= _ <-]. apply extends_refl. Qed.

Lemma respects_bind {A B} (m : M S A) (k : A -> M S B) :
  respects (extends obj trace P keep) m ->
  (forall a, respects (extends obj trace P keep) (k a)) ->
  respects (extends obj trace P keep) (bind m k).
Proof.
  intros Hm Hk s r s'. unfold bind.
  destruct (m s) as [[a | e] s1] eqn:E; intros H.
  - eapply extends_trans; [eapply Hm, E | eapply Hk, H].
  - injection H as _ <-. eapply Hm, E.
Qed.

(** A continuation that reads the state it starts from. *)
Lemma respects_gets_bind {A B} (f : S -> A) (k : A -> M S B) :
  (forall s r s', k (f s) s = (r, s') -> extends obj trace P keep s s') ->
  respects (extends obj trace P keep) (bind (gets f) k).
Proof. intros Hk s r s' H. exact (Hk s r s' H). Qed.

Lemma respects_for_each {A B} (body : B -> A -> M S B) xs :
  (forall acc x, respects (extends obj trace P keep) (body acc x)) ->
  forall acc, respects (extends obj trace P keep) (for_each body xs acc).
Proof.
  intros Hbody. induction xs as [| x xs IH]; intros acc.
  - apply respects_ret.
  - cbn [for_each]. apply respects_bind; [apply Hbody | exact IH].
Qed.

End FrameFacts.


(** ** What [predict] of [IndependentFullyConnectedAgents] leaves alone *)

Section PredictFrame.
Import Py Np Networks.
Context {N : Numpy} {K : Keras}.
Context (P : call -> Prop) (keep : ifca -> ifca -> Prop).
Hypothesis keep_refl : forall o, keep o o.
Hypothesis keep_trans : forall o1 o2 o3, keep o1 o2 -> keep o2 o3 -> keep o1 o3.

Let R : world ifca -> world ifca -> Prop := extends self calls P keep.

Lemma respects_log c : P c -> respects R (log c).
Proof.
  intros Hc s r s' [= _ <-]. split; [apply keep_refl |].
  exists [c]. split; [reflexivity | now constructor].
Qed.

Lemma respects_draw {A} (f : rng -> A * rng) : respects R (draw f).
Proof.
  intros s r s'. unfold draw. destruct (f (np_random s)) as [a g].
  intros [= _ <-]. split; [apply keep_refl |].
  exists []. cbn. now rewrite app_nil_r.
Qed.

Lemma respects_set_self f : (forall o, keep o (f o)) -> respects R (set_self f).
Proof.
  intros Hf s r s' [= _ <-]. split; [apply Hf |].
  exists []. cbn. now rewrite app_nil_r.
Qed.

Lemma respects_random_randint high :
  P (NpRandomRandint high) -> respects R (random_randint high).
Proof.
  intros Hc. unfold random_randint.
  apply respects_bind; try assumption; [now apply respects_log |].
  intros _. destruct (high =? 0).
  - now apply respects_raise.
  - apply respects_draw.
Qed.

Lemma respects_ndarray_argsort v :
  P (NpArgsort v) -> respects R (ndarray_argsort v).
Proof.
  intros Hc. unfold ndarray_argsort.
  apply respects_bind; try assumption; [now apply respects_log |].
  intros _. now apply respects_ret.
Qed.

Lemma respects_take row idx : respects R (take row idx).
Proof.
  induction idx as [| i idx IH]; cbn [take].
  - now apply respects_ret.
  - apply respects_bind; try assumption; [now apply respects_lift_result |].
    intros p. apply respects_bind; try assumption.
    intros ps. now apply respects_ret.
Qed.

Lemma respects_infer x :
  (forall c, deterministic_call c -> P c) ->
  respects R (infer_from_speaker_policy x).
Proof.
  intros HP. unfold infer_from_speaker_policy.
  apply respects_bind; try assumption; [now apply respects_gets |]. intros o.
  apply respects_bind; try assumption; [now apply respects_lift_result |]. intros x'.
  apply respects_bind; try assumption; [now apply respects_log, HP |]. intros _.
  apply respects_bind; try assumption; [now apply respects_lift_result |]. intros row.
  apply respects_bind; try assumption; [now apply respects_ndarray_argsort, HP |].
  intros sorted.
  apply respects_bind; try assumption; [now apply respects_lift_result |]. intros row'.
  apply respects_bind; try assumption; [apply respects_take |]. intros ps.
  now apply respects_ret.
Qed.

Lemma respects_listener_policy message candidates :
  (forall high, P (NpRandomRandint high)) ->
  respects R (listener_policy message candidates).
Proof. intros HP. apply respects_random_randint, HP. Qed.

End PredictFrame.

Section PredictFacts.
Import Py Np Networks.
Context {N : Numpy} {K : Keras}.

Lemma predict_keep_refl o : predict_keep o o.
Proof. split; [reflexivity | trivial]. Qed.

Lemma predict_keep_trans o1 o2 o3 :
  predict_keep o1 o2 -> predict_keep o2 o3 -> predict_keep o1 o3.
Proof.
  intros [H12 F12] [H23 F23]. unfold same_but_testing_stats in *. split.
  - congruence.
  - intros Hoff. specialize (F12 Hoff). subst o2. now apply F23.
Qed.

Ltac keep_laws :=
  try exact predict_keep_refl; try exact predict_keep_trans.

Lemma deterministic_is_evaluation c : deterministic_call c -> evaluation_call c.
Proof. now destruct c. Qed.

Lemma respects_predict_body tr ex :
  respects (extends self calls evaluation_call predict_keep) (predict_body tr ex).
Proof.
  destruct ex as [[x cands] t]. unfold predict_body.
  apply respects_bind; keep_laws.
  { apply respects_infer; keep_laws. apply deterministic_is_evaluation. }
  intros [msg probs].
  apply respects_bind; keep_laws.
  { apply respects_listener_policy; keep_laws. now intros high. }
  intros i. apply respects_gets_bind. intros s r s' H.
  destruct (save_training_stats (self s)) eqn:Hsave.
  - assert (Hs : predict_keep (self s) (self s') /\ calls s' = calls s).
    { cbv beta iota delta
        [bind lift_result append_stats gets set_self modify raise ret] in H.
      destruct (getitem_nat cands i); [| injection H as _ <-; split;
                                          [apply predict_keep_refl | reflexivity]].
      destruct (testing_stats (self s)); injection H as _ <-; cbn.
      - split; [| reflexivity]. split; [reflexivity | congruence].
      - split; [apply predict_keep_refl | reflexivity]. }
    destruct Hs as [Hk Hc]. split; [exact Hk |].
    exists []. now rewrite app_nil_r.
  - injection H as _ <-.
    apply extends_refl. apply predict_keep_refl.
Qed.

Lemma same_but_testing_stats_trans o1 o2 o3 :
  same_but_testing_stats o1 o2 -> same_but_testing_stats o2 o3 ->
  same_but_testing_stats o1 o3.
Proof. unfold same_but_testing_stats. congruence. Qed.

Lemma respects_predict_loop data tr :
  respects (extends self calls evaluation_call predict_keep)
           (for_each predict_body data tr).
Proof.
  apply respects_for_each; keep_laws.
  intros acc ex. apply respects_predict_body.
Qed.

(** Whatever the dataset and however it ends, [predict] changes nothing
    of the object but [testing_stats], and makes evaluation calls only. *)
Lemma respects_predict data :
  respects (extends self calls evaluation_call same_but_testing_stats)
           (predict data).
Proof.
  intros s r s' H. unfold predict in H.
  set (s0 := mkWorld (set_testing_stats (Some []) (self s)) (np_random s) (calls s)).
  assert (Hloop : exists r0, for_each predict_body data 0%Z s0 = (r0, s')).
  { unfold bind, set_self, modify in H. fold s0 in H.
    destruct (for_each predict_body data 0%Z s0) as [[tr | e] s1] eqn:E.
    - unfold ret in H. injection H as _ <-. now eexists.
    - injection H as _ <-. now eexists. }
  destruct Hloop as [r0 Hloop].
  destruct (respects_predict_loop data 0%Z s0 r0 s' Hloop) as [[Hk _] Hcalls].
  split; [| exact Hcalls].
  eapply same_but_testing_stats_trans; [| exact Hk]. reflexivity.
Qed.

(** With [save_training_stats] off the loop of [predict] leaves the whole
    object alone. *)
Lemma predict_off data (w : world ifca) :
  save_training_stats (self w) = false ->
  self (snd (predict data w)) = set_testing_stats (Some []) (self w).
Proof.
  intros Hoff. unfold predict.
  set (s0 := mkWorld (set_testing_stats (Some []) (self w)) (np_random w) (calls w)).
  unfold bind at 1. unfold set_self at 1, modify. fold s0.
  destruct (for_each predict_body data 0%Z s0) as [r0 s'] eqn:E.
  destruct (respects_predict_loop data 0%Z s0 r0 s' E) as [[_ Hk] _].
  specialize (Hk Hoff).
  unfold bind. rewrite E. destruct r0; cbn; exact Hk.
Qed.

Lemma predict_body_ok tr ex (w : world ifca) ts :
  random_contract N -> argsort_contract N ->
  keras_contract K (alphabet_size (self w)) ->
  well_formed (speaker_dim (self w)) ex ->
  testing_stats (self w) = Some ts ->
  exists tr' record w',
    predict_body tr ex w = (Ok tr', w') /\
    self w' = (if save_training_stats (self w)
               then set_testing_stats (Some (ts ++ [record])) (self w)
               else self w).
Proof.
  intros Hr Hs Hk [Hx Hc] Hts. destruct ex as [[x cands] t].
  unfold input_of, candidates_of in *. cbn [fst snd] in *.
  destruct (infer_ok x w Hs Hk Hx) as (row & _ & _ & _ & Hrun).
  set (w1 := mkWorld (self w) (np_random w)
                     (calls w ++ [KerasPredict x; NpArgsort (divide row (sum row))])) in *.
  destruct (listener_policy_ok
              (join "#" (map str (rev (slice_last (max_message_length (self w))
                                                  (argsort (divide row (sum row)))))))
              cands w1 Hr Hc)
    as (i & Hi & Hlisten).
  assert (Hget : getitem_nat cands i = Ok (nth i cands [])).
  { unfold getitem_nat. now rewrite (nth_error_nth' cands [] Hi). }
  unfold predict_body.
  erewrite bind_ok by exact Hrun.
  cbn beta iota. erewrite bind_ok by exact Hlisten.
  erewrite bind_ok by reflexivity. simpl self.
  destruct (save_training_stats (self w)) eqn:Hsave.
  - unfold bind at 1. unfold bind at 1. unfold lift_result at 1. rewrite Hget.
    unfold append_stats. erewrite bind_ok by reflexivity.
    replace (testing_stats (self _)) with (Some ts) by (symmetry; exact Hts).
    eexists _, _, _. split; reflexivity.
  - eexists _, (mkStats 0 [] EmptyString []), _. split; reflexivity.
Qed.

Lemma predict_for_each_ok mml asz sd bs st se data :
  random_contract N -> argsort_contract N -> keras_contract K asz ->
  Forall (well_formed sd) data ->
  forall tr (w : world ifca) ts,
  config (self w) = (mml, asz, sd, bs, st, se) ->
  testing_stats (self w) = Some ts ->
  exists tr' w' ts',
    for_each predict_body data tr w = (Ok tr', w') /\
    testing_stats (self w') = Some (ts ++ ts') /\
    length ts' = (if st then length data else 0).
Proof.
  intros Hr Hs Hk Hdata. induction Hdata as [| ex data Hex Hdata IH];
    intros tr w ts Hcfg Hts.
  - exists tr, w, []. rewrite app_nil_r. repeat split; [exact Hts | now destruct st].
  - assert (Hf : alphabet_size (self w) = asz /\ speaker_dim (self w) = sd /\
                 save_training_stats (self w) = st).
    { unfold config in Hcfg. now inversion Hcfg. }
    destruct Hf as (Fasz & Fsd & Fst).
    destruct (predict_body_ok tr ex w ts Hr Hs ltac:(now rewrite Fasz)
                ltac:(now rewrite Fsd) Hts)
      as (tr1 & record & w1 & Hbody & Hself1).
    destruct (IH tr1 w1 (ts ++ (if st then [record] else [])))
      as (tr' & w' & ts' & Hrun & Hts' & Hlen').
    { rewrite Hself1. destruct (save_training_stats (self w)); exact Hcfg. }
    { rewrite Hself1, Fst. destruct st; cbn; [reflexivity | now rewrite app_nil_r]. }
    exists tr', w', ((if st then [record] else []) ++ ts'). repeat split.
    + cbn [for_each]. erewrite bind_ok by exact Hbody. exact Hrun.
    + rewrite Hts', app_assoc. reflexivity.
    + rewrite length_app, Hlen'. destruct st; cbn; lia.
Qed.

Lemma predict_ok (o : ifca) g cs data :
  random_contract N -> argsort_contract N -> keras_contract K (alphabet_size o) ->
  Forall (well_formed (speaker_dim o)) data ->
  exists w' ts,
    predict data (mkWorld o g cs) = (Ok tt, w') /\
    testing_stats (self w') = Some ts /\
    length ts = (if save_training_stats o then length data else 0).
Proof.
  intros Hr Hs Hk Hdata.
  destruct (predict_for_each_ok (max_message_length o) (alphabet_size o) (speaker_dim o)
              (batch_size o) (save_training_stats o) (save_testing_stats o)
              data Hr Hs Hk Hdata 0%Z
              (mkWorld (set_testing_stats (Some []) o) g cs) [] eq_refl eq_refl)
    as (tr' & w' & ts' & Hrun & Hts' & Hlen').
  exists w', ts'. repeat split; try assumption.
  unfold predict. erewrite bind_ok by reflexivity.
  erewrite bind_ok by exact Hrun. reflexivity.
Qed.

End PredictFacts.

(** ** The training loop of [BaseAgents] *)

Section AgentsFacts.
Import Py Agents.
Context {P : PolicyNetworks}.

Lemma getitem_in_range {A} (xs : list A) i :
  (0 <= i < Z.of_nat (length xs))%Z -> exists v, getitem xs i = Ok v.
Proof.
  intros Hi. unfold getitem.
  replace (i <? 0)%Z with false by (symmetry; apply Z.ltb_ge; lia).
  replace (i <? 0)%Z with false by (symmetry; apply Z.ltb_ge; lia).
  destruct (nth_error xs (Z.to_nat i)) as [v |] eqn:E; [now exists v |].
  apply nth_error_None in E. lia.
Qed.

Lemma calculate_reward_in_range chosen onehot :
  (0 <= chosen < Z.of_nat (length onehot))%Z ->
  exists r, calculate_reward chosen onehot = Ok r.
Proof.
  intros Hi. destruct (getitem_in_range onehot chosen Hi) as [v Hv].
  unfold calculate_reward. rewrite Hv. destruct (Qeq_bool v 1); eauto.
Qed.

Lemma sample_from_networks_on_batch_ok x cands onehot (w : world) t c :
  listener_contract P -> well_formed (x, cands, onehot) ->
  total_training_reward (self w) = Some t ->
  batch_counter (self w) = Some c ->
  exists w' reward record,
    sample_from_networks_on_batch x cands onehot w = (Ok tt, w') /\
    calls w' = calls w ++ episode_calls /\
    config (self w') = config (self w) /\
    batch_counter (self w') = Some (c + 1) /\
    total_training_reward (self w') = Some (t + reward)%Z /\
    training_stats (self w')
    = training_stats (self w)
        ++ (if save_training_stats (self w) then [record] else []) /\
    testing_stats (self w') = testing_stats (self w).
Proof.
  intros [Hl _] [Hne Hlen] Ht Hc. destruct w as [o cs]. cbn [self calls] in *.
  unfold sample_from_networks_on_batch, on_speaker, on_listener, attr.
  cbv beta iota delta [bind log gets set_self modify ret lift_result raise].
  cbn [self calls].
  destruct (sample_from_speaker_policy x (speaker_model o)) as [[m sp] s1] eqn:Es.
  cbn [self calls set_speaker_model listener_model].
  specialize (Hl m cands (listener_model o) Hne).
  destruct (sample_from_listener_policy m cands (listener_model o)) as [[a lp] l1] eqn:El.
  cbn [fst] in Hl.
  destruct (calculate_reward_in_range a onehot ltac:(lia)) as [reward Hrew].
  rewrite Hrew. cbn. rewrite Ht. cbn. rewrite Hc. cbn.
  destruct (save_training_stats o) eqn:Hsave.
  - eexists _, reward, _. split; [reflexivity |]. cbn.
    rewrite <- !app_assoc. repeat split.
  - eexists _, reward, (mkStats reward x m a). split; [reflexivity |]. cbn.
    rewrite <- !app_assoc, app_nil_r. repeat split.
Qed.

Lemma attr_ok {A} (sel : base_agents -> option A) (w : world) a :
  sel (self w) = Some a -> attr sel w = (Ok a, w).
Proof.
  intros H. unfold attr. erewrite bind_ok by reflexivity. now rewrite H.
Qed.

Lemma train_networks_on_batch_ok (w : world) :
  exists w',
    train_networks_on_batch w = (Ok tt, w') /\
    calls w' = calls w ++ train_step_calls /\
    config (self w') = config (self w) /\
    batch_counter (self w') = Some 0 /\
    total_training_reward (self w') = total_training_reward (self w) /\
    training_stats (self w') = training_stats (self w) /\
    testing_stats (self w') = testing_stats (self w).
Proof.
  destruct w as [o cs]. eexists. split; [reflexivity |]. cbn.
  rewrite <- app_assoc. repeat split.
Qed.

Lemma episodes_snoc {A} (pending : list A) ex :
  episodes (pending ++ [ex]) = episodes pending ++ episode_calls.
Proof. unfold episodes. rewrite flat_map_app. reflexivity. Qed.

(** The loop of [fit], started with [pending] episodes counted: the
    calls made are those of consecutive batches of [batch_size] episodes,
    each followed by one training step, and of a shorter rest. *)
Lemma agents_fit_for_each_ok bs st se data :
  listener_contract P -> Forall well_formed data ->
  forall (pending : list example) (w : world) t,
  config (self w) = (bs, st, se) ->
  total_training_reward (self w) = Some t ->
  batch_counter (self w) = Some (length pending) ->
  (bs = 0 \/ length pending < bs) ->
  exists w' chunks rest new ts' t',
    for_each fit_body data tt w = (Ok tt, w') /\
    pending ++ data = concat chunks ++ rest /\
    Forall (fun c => length c = bs) chunks /\
    (bs = 0 -> chunks = []) /\
    (bs = 0 \/ length rest < bs) /\
    batch_counter (self w') = Some (length rest) /\
    total_training_reward (self w') = Some t' /\
    calls w' = calls w ++ new /\
    episodes pending ++ new = batches chunks ++ episodes rest /\
    config (self w') = config (self w) /\
    training_stats (self w') = training_stats (self w) ++ ts' /\
    length ts' = (if st then length data else 0) /\
    testing_stats (self w') = testing_stats (self w).
Proof.
  intros Hl Hdata. induction Hdata as [| ex data Hex Hdata IH];
    intros pending w t Hcfg Ht Hbc Hlt.
  - exists w, [], pending, [], [], t. cbn [for_each concat app batches flat_map].
    rewrite !app_nil_r. repeat split; try assumption; try constructor.
    now destruct st.
  - destruct ex as [[x cands] onehot].
    assert (Hf : batch_size (self w) = bs /\ save_training_stats (self w) = st).
    { unfold config in Hcfg. now inversion Hcfg. }
    destruct Hf as [Fbs Fst].
    destruct (sample_from_networks_on_batch_ok x cands onehot w t (length pending)
                Hl Hex Ht Hbc)
      as (w1 & reward & record & Hep & Hcalls1 & Hcfg1 & Hbc1 & Ht1 & Hts1 & Hte1).
    assert (Hbs1 : batch_size (self w1) = bs).
    { rewrite Hcfg in Hcfg1. unfold config in Hcfg1. now inversion Hcfg1. }
    change (for_each fit_body ((x, cands, onehot) :: data) tt w)
      with (bind (fit_body tt (x, cands, onehot)) (for_each fit_body data) w).
    destruct (Nat.eq_dec (length pending + 1) bs) as [Hfull | Hnot].
    + destruct (train_networks_on_batch_ok w1)
        as (w2 & Htrain & Hcalls2 & Hcfg2 & Hbc2 & Ht2 & Hts2 & Hte2).
      destruct (IH [] w2 (t + reward)%Z)
        as (w' & chunks & rest & new & ts' & t' & Hrun & Hsplit & Hchunks & Hz & Hrest
            & Hbc' & Ht' & Hcalls' & Hnew & Hcfg' & Hts' & Hlen' & Hte').
      { now rewrite Hcfg2, Hcfg1. }
      { now rewrite Ht2. }
      { exact Hbc2. }
      { right. cbn. lia. }
      exists w', ((pending ++ [(x, cands, onehot)]) :: chunks), rest,
             (episode_calls ++ train_step_calls ++ new),
             ((if st then [record] else []) ++ ts'), t'.
      split.
      { erewrite bind_ok; [exact Hrun |]. unfold fit_body.
        erewrite bind_ok by exact Hep.
        erewrite bind_ok by (apply attr_ok; exact Hbc1).
        erewrite bind_ok by reflexivity.
        rewrite Hbs1. replace (length pending + 1 =? bs) with true
          by (symmetry; now apply Nat.eqb_eq).
        exact Htrain. }
      repeat split.
      * cbn [concat]. cbn [app] in Hsplit. rewrite <- !app_assoc.
        rewrite <- Hsplit. reflexivity.
      * constructor; [rewrite length_app; cbn; lia | exact Hchunks].
      * intros ->. lia.
      * exact Hrest.
      * exact Hbc'.
      * exact Ht'.
      * rewrite Hcalls', Hcalls2, Hcalls1. rewrite <- !app_assoc. reflexivity.
      * change (episodes [] ++ new) with new in Hnew.
        unfold batches at 1. cbn [flat_map]. fold (batches chunks).
        rewrite Hnew, episodes_snoc, <- !app_assoc. reflexivity.
      * rewrite Hcfg', Hcfg2. exact Hcfg1.
      * rewrite Hts', Hts2, Hts1, Fst, app_assoc. reflexivity.
      * rewrite length_app, Hlen'. destruct st; cbn; lia.
      * rewrite Hte', Hte2. exact Hte1.
    + destruct (IH (pending ++ [(x, cands, onehot)]) w1 (t + reward)%Z)
        as (w' & chunks & rest & new & ts' & t' & Hrun & Hsplit & Hchunks & Hz & Hrest
            & Hbc' & Ht' & Hcalls' & Hnew & Hcfg' & Hts' & Hlen' & Hte').
      { now rewrite Hcfg1. }
      { exact Ht1. }
      { rewrite length_app. exact Hbc1. }
      { rewrite length_app. cbn. destruct Hlt as [Hlt | Hlt]; [now left | right; lia]. }
      exists w', chunks, rest, (episode_calls ++ new),
             ((if st then [record] else []) ++ ts'), t'.
      split.
      { erewrite bind_ok; [exact Hrun |]. unfold fit_body.
        erewrite bind_ok by exact Hep.
        erewrite bind_ok by (apply attr_ok; exact Hbc1).
        erewrite bind_ok by reflexivity.
        rewrite Hbs1. replace (length pending + 1 =? bs) with false
          by (symmetry; now apply Nat.eqb_neq).
        reflexivity. }
      repeat split; try assumption.
      * rewrite <- Hsplit, <- app_assoc. reflexivity.
      * rewrite Hcalls', Hcalls1, <- app_assoc. reflexivity.
      * rewrite <- Hnew, episodes_snoc, <- app_assoc. reflexivity.
      * rewrite Hcfg'. exact Hcfg1.
      * rewrite Hts', Hts1, Fst, app_assoc. reflexivity.
      * rewrite length_app, Hlen'. destruct st; cbn; lia.
      * rewrite Hte'. exact Hte1.
Qed.

Lemma agents_fit_ok (o : base_agents) cs data :
  listener_contract P -> Forall well_formed data ->
  exists w' chunks rest ts,
    fit data (mkWorld o cs) = (Ok tt, w') /\
    data = concat chunks ++ rest /\
    Forall (fun c => length c = batch_size o) chunks /\
    length chunks = length data / batch_size o /\
    length rest = length data mod batch_size o /\
    batch_counter (self w') = Some (length rest) /\
    calls w' = cs ++ batches chunks ++ episodes rest /\
    config (self w') = config o /\
    training_stats (self w') = training_stats o ++ ts /\
    length ts = (if save_training_stats o then length data else 0) /\
    testing_stats (self w') = testing_stats o /\
    exists t, total_training_reward (self w') = Some t.
Proof.
  intros Hl Hdata.
  set (w0 := mkWorld (set_batch_counter (Some 0)
                        (set_total_training_reward (Some 0%Z) o)) cs).
  destruct (agents_fit_for_each_ok (batch_size o) (save_training_stats o)
              (save_testing_stats o) data Hl Hdata [] w0 0%Z)
    as (w' & chunks & rest & new & ts' & t' & Hrun & Hsplit & Hchunks & Hz & Hrest
        & Hbc' & Ht' & Hcalls' & Hnew & Hcfg' & Hts' & Hlen' & Hte');
    try reflexivity.
  { destruct (batch_size o); [now left | right; cbn; lia]. }
  cbn [app] in Hsplit.
  destruct (chunks_div_mod data chunks rest (batch_size o) Hsplit Hchunks Hz Hrest)
    as [Hq Hm].
  exists w', chunks, rest, ts'.
  split; [| repeat split; try assumption].
  - unfold fit. erewrite bind_ok by reflexivity.
    erewrite bind_ok by reflexivity. exact Hrun.
  - rewrite Hcalls'. change (episodes [] ++ new) with new in Hnew.
    now rewrite Hnew.
  - now exists t'.
Qed.

Lemma same_training_side_refl o : same_training_side o o.
Proof. now repeat split. Qed.

Lemma same_training_side_trans o1 o2 o3 :
  same_training_side o1 o2 -> same_training_side o2 o3 ->
  same_training_side o1 o3.
Proof.
  unfold same_training_side.
  intros (? & ? & ? & ?) (? & ? & ? & ?). repeat split; congruence.
Qed.

Lemma respects_on_speaker {A} c (f : speaker -> A * speaker) :
  infer_call c ->
  respects (extends self calls infer_call same_training_side) (on_speaker c f).
Proof.
  intros Hc s r s' H. unfold on_speaker in H.
  cbv beta iota delta [bind log gets set_self modify ret] in H. cbn [self calls] in H.
  destruct (f (speaker_model (self s))) as [a s1]. injection H as _ <-.
  split; [now repeat split |]. exists [c]. cbn. split; [reflexivity | now constructor].
Qed.

Lemma respects_on_listener {A} c (f : listener -> A * listener) :
  infer_call c ->
  respects (extends self calls infer_call same_training_side) (on_listener c f).
Proof.
  intros Hc s r s' H. unfold on_listener in H.
  cbv beta iota delta [bind log gets set_self modify ret] in H. cbn [self calls] in H.
  destruct (f (listener_model (self s))) as [a l1]. injection H as _ <-.
  split; [now repeat split |]. exists [c]. cbn. split; [reflexivity | now constructor].
Qed.

Lemma respects_set_testing_stats v :
  respects (extends self calls infer_call same_training_side)
           (set_self (set_testing_stats v)).
Proof.
  intros s r s' [= _ <-]. split; [now repeat split |].
  exists []. cbn. now rewrite app_nil_r.
Qed.

Ltac side_laws :=
  try exact same_training_side_refl; try exact same_training_side_trans.

Lemma respects_agents_predict_body tr ex :
  respects (extends self calls infer_call same_training_side) (predict_body tr ex).
Proof.
  destruct ex as [[x cands] onehot]. unfold predict_body.
  apply respects_bind; side_laws.
  { apply respects_on_speaker. now left. }
  intros [m mp].
  apply respects_bind; side_laws.
  { apply respects_on_listener. now right. }
  intros a.
  apply respects_bind; side_laws.
  { apply respects_lift_result; side_laws. }
  intros reward.
  apply respects_bind; side_laws.
  { apply respects_gets; side_laws. }
  intros o.
  apply respects_bind; side_laws.
  { destruct (save_testing_stats o).
    - apply respects_set_testing_stats.
    - apply respects_ret; side_laws. }
  intros _. apply respects_ret; side_laws.
Qed.

(** Whatever the dataset and however it ends, [predict] calls the greedy
    paths of the two networks only and leaves the training side of the
    object alone. *)
Lemma respects_agents_predict data :
  respects (extends self calls infer_call same_training_side) (predict data).
Proof.
  unfold predict.
  apply respects_bind; side_laws.
  { apply respects_set_testing_stats. }
  intros _. apply respects_bind; side_laws.
  { apply respects_for_each; side_laws.
    intros acc ex. apply respects_agents_predict_body. }
  intros _. apply respects_ret; side_laws.
Qed.

End AgentsFacts.

(** ** The concrete instances meet the contracts *)

Section DemoFacts.
Import Py Np.

Lemma demo_random_contract : random_contract Demo.numpy.
Proof.
  split.
  - intros g. pose proof (Nat.mod_upper_bound g 4 ltac:(lia)) as Hm.
    change (fst (random_sample g)) with (Z.of_nat (g mod 4) # 4).
    unfold Qle, Qlt. cbn [Qnum Qden]. lia.
  - intros high g Hh. change (fst (randint high g)) with (g mod high).
    apply Nat.mod_upper_bound. lia.
Qed.

Lemma insert_index_perm v i sorted :
  Permutation (Demo.insert_index v i sorted) (i :: sorted).
Proof.
  induction sorted as [| j js IH]; cbn [Demo.insert_index]; [reflexivity |].
  destruct (Qle_bool (nth i v 0%Q) (nth j v 0%Q)); [reflexivity |].
  rewrite IH. apply perm_swap.
Qed.

Lemma demo_argsort_contract : argsort_contract Demo.numpy.
Proof.
  intros v. cbn. unfold Demo.insertion_argsort.
  induction (seq 0 (length v)) as [| i l IH]; cbn [fold_right]; [reflexivity |].
  rewrite insert_index_perm. now constructor.
Qed.

Example insertion_argsort_sorts :
  Demo.insertion_argsort [3; 1; 2; 1]%Q = [1; 3; 2; 0].
Proof. reflexivity. Qed.

Lemma demo_keras_contract : keras_contract Demo.keras 5.
Proof.
  intros w x. exists [1 # 10; 2 # 10; 3 # 10; 2 # 10; 2 # 10]%Q. repeat split.
  repeat constructor; discriminate.
Qed.

Lemma demo_keras_unnormalized_contract : keras_contract Demo.keras_unnormalized 5.
Proof.
  intros w x. exists [1; 2; 3; 2; 2]%Q. repeat split.
  repeat constructor; discriminate.
Qed.

Lemma demo_keras_peaked_contract : keras_contract Demo.keras_peaked 5.
Proof.
  intros w x. exists [7 # 10; 1 # 10; 1 # 10; 1 # 20; 1 # 20]%Q. repeat split.
  repeat constructor; discriminate.
Qed.

Lemma demo_listener_contract : Agents.listener_contract Demo.networks.
Proof.
  split; intros m cands l Hne; cbn; (destruct cands; [congruence | cbn; lia]).
Qed.

Lemma demo_two_examples_well_formed :
  Forall (Networks.well_formed 2) Demo.two_examples.
Proof. repeat constructor; discriminate. Qed.

Lemma demo_onehot_examples_well_formed :
  Forall Agents.well_formed Demo.onehot_examples.
Proof. repeat constructor; discriminate. Qed.

End DemoFacts.

(* ================================================================= *)
(** * Properties of the agents *)

(** ** Reward *)

(** Out of the range of the one-hot vector there is no reward: the lookup
    raises [IndexError]. *)
Example calculate_reward_out_of_range :
  Agents.calculate_reward 3 [0; 1; 0]%Q = Py.Raise Py.IndexError /\
  Agents.calculate_reward (-4) [0; 1; 0]%Q = Py.Raise Py.IndexError.
Proof. split; reflexivity. Qed.

(** The scenario of the specification: ground truth [[0, 1, 0]], chosen
    index 1 is rewarded, chosen index 0 is not. *)
Example calculate_reward_scenario :
  Agents.calculate_reward 1 [0; 1; 0]%Q = Py.Ok 1%Z /\
  Agents.calculate_reward 0 [0; 1; 0]%Q = Py.Ok 0%Z.
Proof. split; reflexivity. Qed.

(** C1. [calculate_reward] returns 0 or 1, and 1 exactly when the chosen
    index matches the ground truth: under the bare-index encoding when the
    two indices are equal, under the one-hot encoding when the entry of
    the ground truth at the chosen index (a position of the vector)
    equals 1. *)
Theorem calculate_reward_is_match_indicator :
  (forall chosen target : Z,
      (Networks.calculate_reward chosen target = 0%Z \/
       Networks.calculate_reward chosen target = 1%Z) /\
      (Networks.calculate_reward chosen target = 1%Z <-> chosen = target)) /\
  (forall (chosen : Z) (onehot : list Q) (entry : Q),
      Py.getitem onehot chosen = Py.Ok entry ->
      exists r,
        Agents.calculate_reward chosen onehot = Py.Ok r /\
        (r = 0%Z \/ r = 1%Z) /\
        (r = 1%Z <-> (entry == 1)%Q)).
Proof.
  split.
  - intros chosen target. unfold Networks.calculate_reward.
    destruct (Z.eqb_spec chosen target) as [E | E].
    + split; [now right | split; [intros _; exact E | reflexivity]].
    + split; [now left | split; [discriminate | contradiction]].
  - intros chosen onehot entry Hget. unfold Agents.calculate_reward.
    rewrite Hget. destruct (Qeq_bool entry 1) eqn:E.
    + exists 1%Z. apply Qeq_bool_iff in E. repeat split; auto.
    + exists 0%Z. apply Qeq_bool_neq in E.
      repeat split; auto; [discriminate | contradiction].
Qed.

Lemma calculate_reward_is_match_indicator_witness :
  exists r,
    Agents.calculate_reward 1 [0; 1; 0]%Q = Py.Ok r /\
    (r = 0%Z \/ r = 1%Z) /\
    (r = 1%Z <-> (1 == 1)%Q).
Proof.
  exact (proj2 calculate_reward_is_match_indicator 1%Z [0; 1; 0]%Q 1%Q eq_refl).
Defined.

(** ** Messages *)

Section MessageFacts.
Import Py Np Networks.
Context {N : Numpy} {K : Keras}.

Lemma take_pure row idx :
  exists r, forall S (s : S), @take S row idx s = (r, s).
Proof.
  induction idx as [| i idx [r IH]].
  - now exists (Ok []).
  - destruct (getitem_nat row i) as [p | e] eqn:E.
    + destruct r as [ps | e].
      * exists (Ok (p :: ps)). intros S s. cbn [take].
        unfold bind at 1. unfold lift_result at 1. rewrite E.
        unfold bind at 1. now rewrite IH.
      * exists (Raise e). intros S s. cbn [take].
        unfold bind at 1. unfold lift_result at 1. rewrite E.
        unfold bind at 1. now rewrite IH.
    + exists (Raise e). intros S s. cbn [take].
      unfold bind at 1. unfold lift_result at 1. now rewrite E.
Qed.

(** The outcome of [infer_from_speaker_policy] is a function of the
    object and the input; the call leaves both the object and the
    generator as they were. *)
Lemma infer_pure (o : ifca) x :
  exists r, forall g cs,
    exists cs', infer_from_speaker_policy x (mkWorld o g cs) = (r, mkWorld o g cs').
Proof.
  unfold infer_from_speaker_policy.
  destruct (reshape x [1; speaker_dim o; 1]) as [x' | e] eqn:Ex.
  2:{ exists (Raise e). intros g cs. exists cs.
      erewrite bind_ok by reflexivity. cbn [self].
      unfold bind, lift_result. now rewrite Ex. }
  set (normalized := divide2 (Np.predict (speaker_model o) x')
                             (sum2 (Np.predict (speaker_model o) x'))).
  destruct (getitem_nat normalized 0) as [row | e] eqn:Er.
  2:{ exists (Raise e). intros g cs. exists (cs ++ [KerasPredict x']).
      erewrite bind_ok by reflexivity. cbn [self].
      erewrite bind_ok by (unfold lift_result; rewrite Ex; reflexivity).
      erewrite bind_ok by reflexivity. fold normalized.
      unfold bind, lift_result. now rewrite Er. }
  destruct (take_pure row (rev (slice_last (max_message_length o) (argsort row))))
    as [r Hr].
  exists (match r with
          | Ok ps => Ok (join "#" (map str (rev (slice_last (max_message_length o)
                                                           (argsort row)))), ps)
          | Raise e => Raise e
          end).
  intros g cs. exists ((cs ++ [KerasPredict x']) ++ [NpArgsort row]).
  erewrite bind_ok by reflexivity. cbn [self].
  erewrite bind_ok by (unfold lift_result; rewrite Ex; reflexivity).
  erewrite bind_ok by reflexivity. fold normalized.
  erewrite bind_ok by (unfold lift_result; rewrite Er; reflexivity).
  erewrite bind_ok by reflexivity.
  erewrite bind_ok by (unfold lift_result; rewrite Er; reflexivity).
  unfold bind. rewrite Hr. now destruct r.
Qed.

Lemma NoDup_slice_last {A} k (xs : list A) : NoDup xs -> NoDup (slice_last k xs).
Proof.
  destruct k as [| k]; cbn [slice_last]; [trivial |]. intros H.
  rewrite <- (firstn_skipn (length xs - S k) xs) in H.
  now apply NoDup_app_remove_l in H.
Qed.

Lemma NoDup_argsort v : argsort_contract N -> NoDup (argsort v).
Proof.
  intros Hs. apply (Permutation_NoDup (Permutation_sym (Hs v))). apply seq_NoDup.
Qed.

Lemma length_argsort v : argsort_contract N -> length (argsort v) = length v.
Proof.
  intros Hs. rewrite (Permutation_length (Hs v)). apply length_seq.
Qed.

End MessageFacts.

Section MessageClaims.
Import Py Np Networks.

(** With seven symbols asked of an alphabet of five, the greedy message
    has five symbols and five probabilities. *)
Lemma infer_message_shorter_than_max_message_length :
  exists message message_probs w',
    @infer_from_speaker_policy Demo.numpy Demo.keras [0; 1]%Q
      (Demo.start Demo.long_agent)
    = (Ok (message, message_probs), w') /\
    message_symbols message = Some [2; 4; 3; 1; 0] /\
    length message_probs = 5 /\
    max_message_length Demo.long_agent = 7.
Proof.
  remember (@infer_from_speaker_policy Demo.numpy Demo.keras [0; 1]%Q
              (Demo.start Demo.long_agent)) as run eqn:E.
  vm_compute in E. subst run.
  eexists _, _, _. split; [reflexivity |]. repeat split.
Qed.

(** With [max_message_length = 0] the slice [[-0:]] keeps every position:
    the greedy message lists the whole alphabet. *)
Example infer_message_of_length_zero :
  exists message_probs w',
    @infer_from_speaker_policy Demo.numpy Demo.keras [0; 1]%Q
      (Demo.start (@init Demo.keras 0 5 2 2 0 true true))
    = (Ok ("2#4#3#1#0"%string, message_probs), w').
Proof.
  remember (@infer_from_speaker_policy Demo.numpy Demo.keras [0; 1]%Q
              (Demo.start (@init Demo.keras 0 5 2 2 0 true true))) as run eqn:E.
  vm_compute in E. subst run. eexists _, _. reflexivity.
Qed.

(** C4, amended. Sampling returns a message of exactly
    [max_message_length] symbols with as many probabilities; greedy
    inference, for [max_message_length >= 1], returns
    [min max_message_length alphabet_size] symbols with as many
    probabilities; every symbol is in [[0, alphabet_size)]. *)
Theorem message_length_and_symbol_range :
  (forall (N : Numpy) (K : Keras) x (w : world ifca),
      random_contract N -> keras_contract K (alphabet_size (self w)) ->
      length x = speaker_dim (self w) ->
      exists message message_probs syms w',
        sample_speaker_policy_for_message x w = (Ok (message, message_probs), w') /\
        message_symbols message = Some syms /\
        length syms = max_message_length (self w) /\
        length message_probs = max_message_length (self w) /\
        Forall (fun s => s < alphabet_size (self w)) syms) /\
  (forall (N : Numpy) (K : Keras) x (w : world speaker_policy),
      random_contract N -> keras_contract K (sp_alphabet_size (self w)) ->
      length x = sp_speaker_dim (self w) ->
      exists message message_probs syms w',
        sample_speaker_policy x w = (Ok (message, message_probs), w') /\
        message_symbols message = Some syms /\
        length syms = sp_max_message_length (self w) /\
        length message_probs = sp_max_message_length (self w) /\
        Forall (fun s => s < sp_alphabet_size (self w)) syms) /\
  (forall (N : Numpy) (K : Keras) x (w : world ifca),
      argsort_contract N -> keras_contract K (alphabet_size (self w)) ->
      length x = speaker_dim (self w) ->
      0 < max_message_length (self w) ->
      exists message message_probs syms w',
        infer_from_speaker_policy x w = (Ok (message, message_probs), w') /\
        message_symbols message = Some syms /\
        length syms
        = Nat.min (max_message_length (self w)) (alphabet_size (self w)) /\
        length message_probs
        = Nat.min (max_message_length (self w)) (alphabet_size (self w)) /\
        Forall (fun s => s < alphabet_size (self w)) syms).
Proof.
  split; [| split].
  - intros N K x w Hr Hk Hx.
    destruct (sample_message_ok (speaker_model (self w)) (speaker_dim (self w))
                (max_message_length (self w)) (alphabet_size (self w)) x w Hr Hk Hx)
      as (row & syms & w' & _ & Hrun & Hlen & Hall & _).
    eexists _, _, syms, w'. split; [| repeat split].
    + unfold sample_speaker_policy_for_message.
      erewrite bind_ok by reflexivity. exact Hrun.
    + apply symbols_of_closed_message.
    + exact Hlen.
    + now rewrite length_map.
    + exact Hall.
  - intros N K x w Hr Hk Hx.
    destruct (sample_message_ok (sp_model (self w)) (sp_speaker_dim (self w))
                (sp_max_message_length (self w)) (sp_alphabet_size (self w)) x w
                Hr Hk Hx)
      as (row & syms & w' & _ & Hrun & Hlen & Hall & _).
    eexists _, _, syms, w'. split; [| repeat split].
    + unfold sample_speaker_policy.
      erewrite bind_ok by reflexivity. exact Hrun.
    + apply symbols_of_closed_message.
    + exact Hlen.
    + now rewrite length_map.
    + exact Hall.
  - intros N K x w Hs Hk Hx Hpos.
    destruct (infer_ok x w Hs Hk Hx) as (row & _ & Hrow & _ & Hrun).
    assert (Hlen : length (rev (slice_last (max_message_length (self w))
                                           (argsort (divide row (sum row)))))
                   = Nat.min (max_message_length (self w)) (alphabet_size (self w))).
    { rewrite length_rev, length_slice_last by exact Hpos.
      now rewrite length_argsort, length_divide, Hrow. }
    eexists _, _, _, _. split; [exact Hrun |]. repeat split.
    + apply symbols_of_joined_message.
    + exact Hlen.
    + now rewrite length_map.
    + apply Forall_forall. intros i Hi. apply in_rev in Hi.
      apply incl_slice_last in Hi. rewrite <- Hrow, <- (length_divide row (sum row)).
      now apply argsort_in_range.
Qed.

Lemma message_length_and_symbol_range_witness :
  (exists message message_probs syms w',
      @sample_speaker_policy_for_message Demo.numpy Demo.keras [0; 1]%Q
        (Demo.start (Demo.agent true true))
      = (Ok (message, message_probs), w') /\
      message_symbols message = Some syms /\
      length syms = 3 /\ length message_probs = 3 /\
      Forall (fun s => s < 5) syms) /\
  (exists message message_probs syms w',
      @sample_speaker_policy Demo.numpy Demo.keras [0; 1]%Q
        (@mkWorld Demo.numpy _ Demo.policy 0 [])
      = (Ok (message, message_probs), w') /\
      message_symbols message = Some syms /\
      length syms = 3 /\ length message_probs = 3 /\
      Forall (fun s => s < 5) syms) /\
  (exists message message_probs syms w',
      @infer_from_speaker_policy Demo.numpy Demo.keras [0; 1]%Q
        (Demo.start (Demo.agent true true))
      = (Ok (message, message_probs), w') /\
      message_symbols message = Some syms /\
      length syms = 3 /\ length message_probs = 3 /\
      Forall (fun s => s < 5) syms).
Proof.
  destruct message_length_and_symbol_range as (Hsample & Hpolicy & Hinfer).
  split; [| split].
  - exact (Hsample Demo.numpy Demo.keras [0; 1]%Q (Demo.start (Demo.agent true true))
             demo_random_contract demo_keras_contract eq_refl).
  - exact (Hpolicy Demo.numpy Demo.keras [0; 1]%Q (@mkWorld Demo.numpy _ Demo.policy 0 [])
             demo_random_contract demo_keras_contract eq_refl).
  - exact (Hinfer Demo.numpy Demo.keras [0; 1]%Q (Demo.start (Demo.agent true true))
             demo_argsort_contract demo_keras_contract eq_refl ltac:(cbn; lia)).
Defined.

End MessageClaims.

Section GreedyClaims.
Import Py Np Networks.

(** C5. [infer_from_speaker_policy] is deterministic: its outcome (the
    message and the probability sequence, or the exception) is the same
    from any two states that hold the same object, whatever the random
    generator and the calls made before; a call leaves the object and
    the generator as they were, so a second call on the same input
    returns what the first returned. *)
Theorem infer_is_deterministic :
  forall (N : Numpy) (K : Keras) x (w : world ifca),
    (forall g cs,
        fst (infer_from_speaker_policy x (mkWorld (self w) g cs))
        = fst (infer_from_speaker_policy x w)) /\
    self (snd (infer_from_speaker_policy x w)) = self w /\
    np_random (snd (infer_from_speaker_policy x w)) = np_random w /\
    fst (infer_from_speaker_policy x (snd (infer_from_speaker_policy x w)))
    = fst (infer_from_speaker_policy x w).
Proof.
  intros N K x [o g0 cs0]. cbn [self np_random].
  destruct (infer_pure o x) as [r Hr].
  destruct (Hr g0 cs0) as [cs1 H1]. rewrite H1. cbn [fst snd self np_random].
  repeat split.
  - intros g cs. destruct (Hr g cs) as [cs' H]. now rewrite H.
  - destruct (Hr g0 cs1) as [cs2 H2]. now rewrite H2.
Qed.

(** A raw output that sums to ten. *)
Example demo_raw_output_not_normalized :
  (sum2 Demo.unnormalized_output == 10)%Q.
Proof. reflexivity. Qed.


(** The same rows in numbers: the float32 sum of the renormalised row is
    [1 - 2^-24], and so is, for the flat row, its exact sum. *)
Example renormalized_float32_row_sums :
  Float32.sum2 (Float32.normalize Float32.flat_output)
  = SpecFloat.S754_finite false 16777215 (-24) /\
  (sum (map Float32.to_Q (concat (Float32.normalize Float32.flat_output)))
   == 16777215 # 16777216)%Q /\
  Float32.sum2 (Float32.normalize Float32.softmax_output)
  = SpecFloat.S754_finite false 16777215 (-24).
Proof. repeat split. Qed.



(** C10. The message [infer_from_speaker_policy] returns lists the last
    [max_message_length] positions of the [argsort] of the normalised
    output, last first.  Its symbols are positions [argsort] lists, each
    taken at most once: they are pairwise distinct, below
    [alphabet_size], and, for a positive [max_message_length], as many as
    the smaller of [max_message_length] and [alphabet_size].  A message
    returned by [sample_speaker_policy_for_message] can repeat a symbol,
    also when the alphabet is larger than the message: over five symbols
    a sampled message of three can be [0#0#0#], where the greedy message
    for the same input is [0#2#1]. *)
Theorem infer_symbols_distinct_sample_may_repeat :
  (forall (N : Numpy) (K : Keras) x (w : world ifca),
      argsort_contract N -> keras_contract K (alphabet_size (self w)) ->
      length x = speaker_dim (self w) ->
      exists row message message_probs syms w',
        Np.predict (speaker_model (self w)) x = [row] /\
        infer_from_speaker_policy x w = (Ok (message, message_probs), w') /\
        syms = rev (slice_last (max_message_length (self w))
                               (argsort (divide row (sum row)))) /\
        message = join "#" (map str syms) /\
        message_symbols message = Some syms /\
        message_probs = map (fun s => nth s (divide row (sum row)) 0%Q) syms /\
        NoDup syms /\
        incl syms (argsort (divide row (sum row))) /\
        Forall (fun s => s < alphabet_size (self w)) syms /\
        (0 < max_message_length (self w) ->
         length syms = Nat.min (max_message_length (self w))
                               (alphabet_size (self w)))) /\
  (exists (N : Numpy) (K : Keras) x (w : world ifca) message message_probs w'
          greedy greedy_probs w'',
      random_contract N /\ argsort_contract N /\
      keras_contract K (alphabet_size (self w)) /\
      max_message_length (self w) = 3 /\ alphabet_size (self w) = 5 /\
      length x = speaker_dim (self w) /\
      sample_speaker_policy_for_message x w = (Ok (message, message_probs), w') /\
      message = closed_message [0; 0; 0] /\
      message_symbols message = Some [0; 0; 0] /\
      ~ NoDup [0; 0; 0] /\
      infer_from_speaker_policy x w = (Ok (greedy, greedy_probs), w'') /\
      message_symbols greedy = Some [0; 2; 1]).
Proof.
  split.
  - intros N K x w Hs Hk Hx.
    destruct (infer_ok x w Hs Hk Hx) as (row & Hrow & Hlen & _ & Hrun).
    exists row. eexists _, _, _, _. split; [exact Hrow |]. split; [exact Hrun |].
    split; [reflexivity |]. split; [reflexivity |].
    split; [apply symbols_of_joined_message |]. split; [reflexivity |].
    split; [apply NoDup_rev, NoDup_slice_last, NoDup_argsort, Hs |].
    split.
    { intros s Hin. apply in_rev in Hin. now apply incl_slice_last in Hin. }
    split.
    { apply Forall_forall. intros s Hin. apply in_rev in Hin.
      apply incl_slice_last in Hin.
      apply (argsort_in_range _ _ Hs) in Hin.
      now rewrite length_divide, Hlen in Hin. }
    intros Hpos. rewrite length_rev, length_slice_last by exact Hpos.
    now rewrite (length_argsort _ Hs), length_divide, Hlen.
  - exists Demo.numpy, Demo.keras_peaked, [0; 1]%Q,
      (@mkWorld Demo.numpy _ Demo.peaked_agent 0 []).
    remember (@sample_speaker_policy_for_message Demo.numpy Demo.keras_peaked [0; 1]%Q
                (@mkWorld Demo.numpy _ Demo.peaked_agent 0 [])) as run eqn:E.
    vm_compute in E. subst run.
    remember (@infer_from_speaker_policy Demo.numpy Demo.keras_peaked [0; 1]%Q
                (@mkWorld Demo.numpy _ Demo.peaked_agent 0 [])) as run eqn:E.
    vm_compute in E. subst run.
    eexists _, _, _, _, _, _.
    split; [exact demo_random_contract |].
    split; [exact demo_argsort_contract |].
    split; [exact demo_keras_peaked_contract |].
    split; [reflexivity |]. split; [reflexivity |]. split; [reflexivity |].
    split; [reflexivity |]. split; [reflexivity |]. split; [reflexivity |].
    split.
    { intros Hnd. inversion Hnd as [| ? ? Hnotin _]; subst.
      apply Hnotin. cbn. tauto. }
    split; reflexivity.
Qed.

Lemma infer_symbols_distinct_sample_may_repeat_witness :
  exists row message message_probs syms w',
    @Np.predict Demo.keras 0 [0; 1]%Q = [row] /\
    @infer_from_speaker_policy Demo.numpy Demo.keras [0; 1]%Q
      (Demo.start (Demo.agent true true))
    = (Ok (message, message_probs), w') /\
    syms = rev (slice_last 3 (@argsort Demo.numpy (divide row (sum row)))) /\
    message = join "#" (map str syms) /\
    message_symbols message = Some syms /\
    message_probs = map (fun s => nth s (divide row (sum row)) 0%Q) syms /\
    NoDup syms /\
    incl syms (@argsort Demo.numpy (divide row (sum row))) /\
    Forall (fun s => s < 5) syms /\
    (0 < 3 -> length syms = Nat.min 3 5).
Proof.
  exact (proj1 infer_symbols_distinct_sample_may_repeat Demo.numpy Demo.keras
           [0; 1]%Q (Demo.start (Demo.agent true true))
           demo_argsort_contract demo_keras_contract eq_refl).
Defined.

End GreedyClaims.

(** ** One turn of the loop of [BaseAgents.fit] *)

Section AgentsIteration.
Import Py Agents.
Context {P : PolicyNetworks}.

Lemma agents_fit_snoc pre ex post (w w1 w3 : world) :
  fit pre w = (Ok tt, w1) ->
  fit_body tt ex w1 = (Ok tt, w3) ->
  fit (pre ++ ex :: post) w = for_each fit_body post tt w3.
Proof.
  unfold fit. intros Hpre Hbody.
  apply bind_ok_inv in Hpre. destruct Hpre as ([] & wa & Hset1 & Hpre).
  apply bind_ok_inv in Hpre. destruct Hpre as ([] & wb & Hset2 & Hpre).
  erewrite bind_ok by exact Hset1. erewrite bind_ok by exact Hset2.
  rewrite for_each_app. erewrite bind_ok by exact Hpre. cbn [for_each].
  erewrite bind_ok by exact Hbody. reflexivity.
Qed.

(** One turn of the loop of [BaseAgents.fit], anywhere in a run: the
    counter before the batch test and after it. *)
Lemma agents_fit_iteration_ok (o : base_agents) cs pre x cands onehot post :
  listener_contract P ->
  Forall well_formed (pre ++ (x, cands, onehot) :: post) ->
  exists w1 w2 c w3,
    fit pre (mkWorld o cs) = (Ok tt, w1) /\
    sample_from_networks_on_batch x cands onehot w1 = (Ok tt, w2) /\
    fit_body tt (x, cands, onehot) w1 = (Ok tt, w3) /\
    fit (pre ++ (x, cands, onehot) :: post) (mkWorld o cs)
    = for_each fit_body post tt w3 /\
    batch_counter (self w2) = Some c /\
    batch_size (self w2) = batch_size o /\
    (0 < batch_size o -> c <= batch_size o) /\
    (c = batch_size o ->
     batch_counter (self w3) = Some 0 /\
     calls w3 = calls w2 ++ train_step_calls) /\
    (c <> batch_size o -> w3 = w2).
Proof.
  intros Hl Hall. apply Forall_app in Hall. destruct Hall as [Hpre Hrest].
  inversion Hrest as [| ? ? Hex Hpost]; subst.
  destruct (agents_fit_ok o cs pre Hl Hpre)
    as (w1 & chunks & rest & ts & Hrun & Hsplit & Hchunks & Hq & Hm & Hbc
        & Hcalls & Hcfg & Hts & Hlen & Hte & t & Ht).
  destruct (sample_from_networks_on_batch_ok x cands onehot w1 t (length rest)
              Hl Hex Ht Hbc)
    as (w2 & reward & record & Hep & Hcalls2 & Hcfg2 & Hbc2 & _).
  assert (Fbs2 : batch_size (self w2) = batch_size o).
  { rewrite Hcfg in Hcfg2. unfold config in Hcfg2. now inversion Hcfg2. }
  assert (Hle : 0 < batch_size o -> length rest + 1 <= batch_size o).
  { intros Hpos. rewrite Hm, Nat.add_1_r.
    apply Nat.mod_upper_bound. intros E. rewrite E in Hpos. inversion Hpos. }
  destruct (Nat.eq_dec (length rest + 1) (batch_size o)) as [Hfull | Hnot].
  - destruct (train_networks_on_batch_ok w2) as (w3 & Htrain & Hcalls3 & _ & Hbc3 & _).
    assert (Hbody : fit_body tt (x, cands, onehot) w1 = (Ok tt, w3)).
    { unfold fit_body. erewrite bind_ok by exact Hep.
      erewrite bind_ok by (apply attr_ok; exact Hbc2).
      erewrite bind_ok by reflexivity. rewrite Fbs2, Hfull, Nat.eqb_refl.
      exact Htrain. }
    exists w1, w2, (length rest + 1), w3.
    repeat split; try assumption; try contradiction.
    now apply agents_fit_snoc with (w1 := w1).
  - assert (Hbody : fit_body tt (x, cands, onehot) w1 = (Ok tt, w2)).
    { unfold fit_body. erewrite bind_ok by exact Hep.
      erewrite bind_ok by (apply attr_ok; exact Hbc2).
      erewrite bind_ok by reflexivity. rewrite Fbs2.
      apply Nat.eqb_neq in Hnot. now rewrite Hnot. }
    exists w1, w2, (length rest + 1), w2.
    repeat split; try assumption; try contradiction.
    now apply agents_fit_snoc with (w1 := w1).
Qed.

End AgentsIteration.

(** ** Statistics and evaluation *)

Section StatisticsClaims.
Import Py Np Networks.

(** C9. In [IndependentFullyConnectedAgents.predict] the testing log is
    filled under [save_training_stats], whatever [save_testing_stats]
    says: with [save_training_stats] off, [testing_stats] is the empty
    list after [predict] on any dataset; with it on, the log gets one
    record per example, also when [save_testing_stats] is off. *)
Theorem testing_log_follows_save_training_stats :
  (forall (N : Numpy) (K : Keras) data (w : world ifca),
      save_training_stats (self w) = false ->
      testing_stats (self (snd (predict data w))) = Some []) /\
  (forall (N : Numpy) (K : Keras) (o : ifca) g cs data,
      random_contract N -> argsort_contract N ->
      keras_contract K (alphabet_size o) ->
      Forall (well_formed (speaker_dim o)) data ->
      save_training_stats o = true ->
      exists w' ts,
        predict data (mkWorld o g cs) = (Ok tt, w') /\
        testing_stats (self w') = Some ts /\
        length ts = length data).
Proof.
  split.
  - intros N K data w Hoff. now rewrite predict_off.
  - intros N K o g cs data Hr Hs Hk Hdata Hon.
    destruct (predict_ok o g cs data Hr Hs Hk Hdata) as (w' & ts & Hrun & Hts & Hlen).
    exists w', ts. rewrite Hon in Hlen. now repeat split.
Qed.

Lemma testing_log_follows_save_training_stats_witness :
  testing_stats
    (self (snd (@predict Demo.numpy Demo.keras Demo.two_examples
                  (Demo.start (Demo.agent false true))))) = Some [] /\
  (exists w' ts,
      @predict Demo.numpy Demo.keras Demo.two_examples
        (Demo.start (Demo.agent true false)) = (Ok tt, w') /\
      testing_stats (self w') = Some ts /\
      length ts = length Demo.two_examples).
Proof.
  split.
  - exact (proj1 testing_log_follows_save_training_stats Demo.numpy Demo.keras
             Demo.two_examples (Demo.start (Demo.agent false true)) eq_refl).
  - exact (proj2 testing_log_follows_save_training_stats Demo.numpy Demo.keras
             (Demo.agent true false) 0 [] Demo.two_examples
             demo_random_contract demo_argsort_contract demo_keras_contract
             demo_two_examples_well_formed eq_refl).
Defined.

End StatisticsClaims.

Section PredictRun.
Import Py Np Networks.
Context {N : Numpy} {K : Keras}.

Lemma set_testing_stats_same (o : ifca) ts :
  testing_stats o = Some ts -> set_testing_stats (Some ts) o = o.
Proof. destruct o. cbn. now intros ->. Qed.

(** One turn of [predict], in full: the message is the greedy one, the
    generator gives the listener's pick and nothing else. *)
Lemma predict_body_run tr ex (w : world ifca) ts :
  random_contract N -> argsort_contract N ->
  keras_contract K (alphabet_size (self w)) ->
  well_formed (speaker_dim (self w)) ex ->
  testing_stats (self w) = Some ts ->
  let i := fst (randint (length (candidates_of ex)) (np_random w)) in
  let rec := mkStats (calculate_reward (Z.of_nat i) (snd ex)) (input_of ex)
                     (greedy_message (speaker_model (self w))
                                     (max_message_length (self w)) (input_of ex))
                     (nth i (candidates_of ex) []) in
  predict_body tr ex w
  = (Ok (tr + reward rec)%Z,
     mkWorld (if save_training_stats (self w)
              then set_testing_stats (Some (ts ++ [rec])) (self w)
              else self w)
             (snd (randint (length (candidates_of ex)) (np_random w)))
             (calls w ++ evaluation_calls (speaker_model (self w)) ex)).
Proof.
  intros Hr Hs Hk [Hx Hc] Hts. destruct ex as [[x cands] t].
  unfold evaluation_calls, greedy_message, input_of, candidates_of in *.
  cbn [fst snd] in *.
  destruct (infer_ok x w Hs Hk Hx) as (row & Hrow & _ & _ & Hrun).
  rewrite Hrow. cbn [hd].
  set (msg := join "#" (map str (rev (slice_last (max_message_length (self w))
                                                 (argsort (divide row (sum row))))))) in *.
  set (w1 := mkWorld (self w) (np_random w)
                     (calls w ++ [KerasPredict x; NpArgsort (divide row (sum row))])) in *.
  destruct (listener_policy_ok msg cands w1 Hr Hc) as (i & Hi & Hlisten).
  assert (Hi' : i = fst (randint (length cands) (np_random w))).
  { unfold listener_policy, random_randint, log, draw, modify, bind in Hlisten.
    cbn [self np_random calls w1] in Hlisten.
    destruct (length cands =? 0); [discriminate |].
    cbn [self np_random calls] in Hlisten.
    destruct (randint (length cands) _) as [j g]. now injection Hlisten as <-. }
  rewrite <- Hi'. cbv zeta. cbn [reward].
  assert (Hget : getitem_nat cands i = Ok (nth i cands [])).
  { unfold getitem_nat. now rewrite (nth_error_nth' cands [] Hi). }
  unfold predict_body.
  erewrite bind_ok by exact Hrun.
  cbn beta iota. erewrite bind_ok by exact Hlisten.
  erewrite bind_ok by reflexivity. subst w1. cbn [self np_random calls].
  destruct (save_training_stats (self w)) eqn:Hsave.
  - unfold bind at 1. unfold bind at 1. unfold lift_result at 1. rewrite Hget.
    unfold append_stats. erewrite bind_ok by reflexivity.
    cbn [self]. rewrite Hts.
    cbv beta iota zeta delta [bind set_self modify ret].
    cbn [self np_random calls]. now rewrite <- app_assoc.
  - cbv beta iota zeta delta [bind set_self modify ret].
    cbn [self np_random calls]. now rewrite <- app_assoc.
Qed.

Lemma predict_for_each_run mml asz sd bs st se model data :
  random_contract N -> argsort_contract N -> keras_contract K asz ->
  Forall (well_formed sd) data ->
  forall tr (w : world ifca) ts,
  config (self w) = (mml, asz, sd, bs, st, se) ->
  speaker_model (self w) = model ->
  testing_stats (self w) = Some ts ->
  exists tr' recs,
    for_each predict_body data tr w
    = (Ok tr',
       mkWorld (set_testing_stats (Some (ts ++ if st then recs else [])) (self w))
               (snd (listener_outcomes 0 data (np_random w)))
               (calls w ++ flat_map (evaluation_calls model) data)) /\
    map input recs = map input_of data /\
    map message recs = map (fun ex => greedy_message model mml (input_of ex)) data /\
    map (fun rec => (reward rec, chosen_target rec)) recs
    = fst (listener_outcomes 0 data (np_random w)).
Proof.
  intros Hr Hs Hk Hdata. induction Hdata as [| ex data Hex _ IH];
    intros tr w ts Hcfg Hmodel Hts.
  - exists tr, []. cbn [for_each flat_map listener_outcomes fst snd map].
    rewrite !app_nil_r.
    replace (ts ++ (if st then [] else [])) with ts by (destruct st; now rewrite app_nil_r).
    rewrite (set_testing_stats_same _ _ Hts). destruct w. now repeat split.
  - assert (Hf : max_message_length (self w) = mml /\ alphabet_size (self w) = asz /\
                 speaker_dim (self w) = sd /\ save_training_stats (self w) = st).
    { unfold config in Hcfg. now inversion Hcfg. }
    destruct Hf as (Fmml & Fasz & Fsd & Fst).
    pose proof (predict_body_run tr ex w ts Hr Hs ltac:(now rewrite Fasz)
                  ltac:(now rewrite Fsd) Hts) as Hbody.
    cbv zeta in Hbody. rewrite Fst, Fmml, Hmodel in Hbody.
    cbn [listener_outcomes]. change (draws 0 (np_random w)) with (np_random w).
    destruct (randint (length (candidates_of ex)) (np_random w)) as [i g1] eqn:Ei.
    cbn [fst snd] in Hbody.
    set (rec := mkStats (calculate_reward (Z.of_nat i) (snd ex)) (input_of ex)
                        (greedy_message model mml (input_of ex))
                        (nth i (candidates_of ex) [])) in *.
    set (o1 := if st then set_testing_stats (Some (ts ++ [rec])) (self w) else self w)
      in *.
    assert (Ho1 : config o1 = config (self w) /\ speaker_model o1 = model /\
                  testing_stats o1 = Some (ts ++ if st then [rec] else [])).
    { subst o1. destruct st; cbn; repeat split; try assumption.
      now rewrite app_nil_r. }
    destruct Ho1 as (Hcfg1 & Hmodel1 & Hts1).
    destruct (IH (tr + reward rec)%Z
                 (mkWorld o1 g1 (calls w ++ evaluation_calls model ex)) _
                 ltac:(cbn [self]; congruence) Hmodel1 Hts1)
      as (tr' & recs & Hrun & Hins & Hmsgs & Hout).
    cbn [self np_random calls] in Hrun, Hout.
    destruct (listener_outcomes 0 data g1) as [outs g2] eqn:Eo. cbn [fst snd] in *.
    exists tr', (rec :: recs). split; [| repeat split].
    + cbn [for_each flat_map]. erewrite bind_ok by exact Hbody. rewrite Hrun.
      assert (Hself : set_testing_stats
                        (Some ((ts ++ (if st then [rec] else []))
                               ++ (if st then recs else []))) o1
                      = set_testing_stats
                          (Some (ts ++ (if st then rec :: recs else []))) (self w)).
      { subst o1. destruct st.
        - cbn [app]. rewrite <- app_assoc. reflexivity.
        - rewrite !app_nil_r. reflexivity. }
      rewrite Hself.
      pose proof (app_assoc (calls w) (evaluation_calls model ex)
                    (flat_map (evaluation_calls model) data)) as Hc.
      rewrite <- Hc. reflexivity.
    + cbn [map]. now rewrite Hins.
    + cbn [map]. now rewrite Hmsgs.
    + cbn [map]. now rewrite Hout.
Qed.

(** [predict] on well-formed data, in full. *)
Lemma predict_run (o : ifca) g cs data :
  random_contract N -> argsort_contract N -> keras_contract K (alphabet_size o) ->
  Forall (well_formed (speaker_dim o)) data ->
  exists recs,
    predict data (mkWorld o g cs)
    = (Ok tt,
       mkWorld (set_testing_stats (Some (if save_training_stats o then recs else [])) o)
               (snd (listener_outcomes 0 data g))
               (cs ++ flat_map (evaluation_calls (speaker_model o)) data)) /\
    map input recs = map input_of data /\
    map message recs
    = map (fun ex => greedy_message (speaker_model o) (max_message_length o)
                                    (input_of ex)) data /\
    map (fun rec => (reward rec, chosen_target rec)) recs
    = fst (listener_outcomes 0 data g).
Proof.
  intros Hr Hs Hk Hdata.
  destruct (predict_for_each_run
              (max_message_length o) (alphabet_size o) (speaker_dim o) (batch_size o)
              (save_training_stats o) (save_testing_stats o) (speaker_model o)
              data Hr Hs Hk Hdata 0%Z
              (mkWorld (set_testing_stats (Some []) o) g cs) []
              eq_refl eq_refl eq_refl)
    as (tr' & recs & Hrun & Hrest).
  exists recs. split; [| exact Hrest].
  unfold predict. erewrite bind_ok by reflexivity.
  erewrite bind_ok by exact Hrun. reflexivity.
Qed.

(** The greedy message is the message of the [infer] path. *)
Lemma greedy_message_is_inferred (o : ifca) g cs x :
  argsort_contract N -> keras_contract K (alphabet_size o) ->
  length x = speaker_dim o ->
  exists probs w1,
    infer_from_speaker_policy x (mkWorld o g cs)
    = (Ok (greedy_message (speaker_model o) (max_message_length o) x, probs), w1).
Proof.
  intros Hs Hk Hx.
  destruct (infer_ok x (mkWorld o g cs) Hs Hk Hx) as (row & Hrow & _ & _ & Hrun).
  cbn [self] in *. unfold greedy_message. rewrite Hrow. cbn [hd].
  eexists _, _. exact Hrun.
Qed.

End PredictRun.

Section AgentsPredictRun.
Import Py Agents.
Context {P : PolicyNetworks}.

(** What [predict] leaves alone when the greedy paths of the networks
    leave the networks alone: everything but [testing_stats]. *)
Let same_but_log (o o' : base_agents) : Prop :=
  speaker_model o' = speaker_model o /\
  listener_model o' = listener_model o /\
  same_training_side o o'.

Let R : world -> world -> Prop := extends self calls infer_call same_but_log.

Lemma same_but_log_refl o : same_but_log o o.
Proof. now repeat split. Qed.

Lemma same_but_log_trans o1 o2 o3 :
  same_but_log o1 o2 -> same_but_log o2 o3 -> same_but_log o1 o3.
Proof.
  intros (? & ? & ?) (? & ? & ?). repeat split; try congruence.
  all: eapply same_training_side_trans; eassumption.
Qed.

Ltac log_laws := try exact same_but_log_refl; try exact same_but_log_trans.

Hypothesis pure : inference_is_pure P.

Lemma pure_agents_predict_body tr ex : respects R (predict_body tr ex).
Proof.
  destruct pure as [Hspeaker Hlistener].
  destruct ex as [[x cands] onehot]. unfold predict_body.
  apply respects_bind; log_laws.
  { intros s r s' H. unfold on_speaker in H.
    cbv beta iota delta [bind log gets set_self modify ret] in H. cbn [self calls] in H.
    specialize (Hspeaker x (speaker_model (self s))).
    destruct (infer_from_speaker_policy x (speaker_model (self s))) as [a s1].
    cbn [snd] in Hspeaker. subst s1. injection H as _ <-.
    split; [now repeat split |].
    exists [SpeakerInfer]. cbn. split; [reflexivity |]. constructor; [now left | constructor]. }
  intros [m mp].
  apply respects_bind; log_laws.
  { intros s r s' H. unfold on_listener in H.
    cbv beta iota delta [bind log gets set_self modify ret] in H. cbn [self calls] in H.
    specialize (Hlistener m cands (listener_model (self s))).
    destruct (infer_from_listener_policy m cands (listener_model (self s))) as [a l1].
    cbn [snd] in Hlistener. subst l1. injection H as _ <-.
    split; [now repeat split |].
    exists [ListenerInfer]. cbn. split; [reflexivity |].
    constructor; [now right | constructor]. }
  intros a.
  apply respects_bind; log_laws.
  { apply respects_lift_result; log_laws. }
  intros reward.
  apply respects_bind; log_laws.
  { apply respects_gets; log_laws. }
  intros o.
  apply respects_bind; log_laws.
  { destruct (save_testing_stats o).
    - intros s r s' [= _ <-]. split; [now repeat split |].
      exists []. cbn. now rewrite app_nil_r.
    - apply respects_ret; log_laws. }
  intros _. apply respects_ret; log_laws.
Qed.

Lemma pure_agents_predict data : respects R (predict data).
Proof.
  unfold predict.
  apply respects_bind; log_laws.
  { intros s r s' [= _ <-]. split; [now repeat split |].
    exists []. cbn. now rewrite app_nil_r. }
  intros _. apply respects_bind; log_laws.
  { apply respects_for_each; log_laws.
    intros acc ex. apply pure_agents_predict_body. }
  intros _. apply respects_ret; log_laws.
Qed.

Lemma agents_predict_networks data (w : world) :
  speaker_model (self (snd (predict data w))) = speaker_model (self w) /\
  listener_model (self (snd (predict data w))) = listener_model (self w).
Proof.
  destruct (predict data w) as [r w'] eqn:E. cbn [snd].
  destruct (pure_agents_predict data w r w' E) as [(Hs & Hl & _) _]. now split.
Qed.

End AgentsPredictRun.

Section AgentsPredictOk.
Import Py Agents.
Context {P : PolicyNetworks}.

Lemma agents_predict_for_each_ok st data :
  listener_contract P -> Forall well_formed data ->
  forall tr (w : world),
  save_testing_stats (self w) = st ->
  exists tr' w' recs,
    for_each predict_body data tr w = (Ok tr', w') /\
    calls w' = calls w ++ inference_calls data /\
    testing_stats (self w') = testing_stats (self w) ++ (if st then recs else []) /\
    length recs = length data /\
    map input recs = map (fun ex => fst (fst ex)) data.
Proof.
  intros [_ Hl] Hdata. induction Hdata as [| ex data Hex _ IH]; intros tr w Hst.
  - exists tr, w, []. unfold inference_calls. cbn [for_each flat_map length map].
    rewrite app_nil_r. repeat split. destruct st; now rewrite app_nil_r.
  - destruct ex as [[x cands] onehot]. destruct Hex as [Hne Hlen].
    destruct w as [o cs]. cbn [self calls] in *.
    cbn [for_each]. unfold predict_body at 1, on_speaker, on_listener.
    cbv beta iota delta [bind log gets set_self modify ret lift_result raise].
    cbn [self calls].
    destruct (infer_from_speaker_policy x (speaker_model o)) as [[m sp] s1] eqn:Es.
    cbn [self calls set_speaker_model listener_model].
    specialize (Hl m cands (listener_model o) Hne).
    destruct (infer_from_listener_policy m cands (listener_model o)) as [a l1] eqn:El.
    cbn [fst] in Hl.
    destruct (calculate_reward_in_range a onehot ltac:(lia)) as [reward Hrew].
    rewrite Hrew. cbn [self calls set_listener_model set_speaker_model
                      save_testing_stats testing_stats].
    rewrite Hst.
    set (rec := mkStats reward x m a).
    destruct st.
    + cbn [self calls].
      match goal with
      | |- exists _ _ _, for_each predict_body data ?tr1 ?w1 = _ /\ _ =>
          destruct (IH tr1 w1 Hst) as (tr' & w' & recs & Hrun & Hcalls & Hts & Hn & Hin)
      end.
      exists tr', w', (rec :: recs). cbn [self calls testing_stats] in *.
      split; [exact Hrun |]. split.
      { rewrite Hcalls. unfold inference_calls. cbn [flat_map app].
        rewrite <- !app_assoc. reflexivity. }
      split; [rewrite Hts; cbn [testing_stats set_testing_stats];
              rewrite <- app_assoc; reflexivity |].
      split; [cbn; now rewrite Hn | cbn; now rewrite Hin].
    + cbn [self calls].
      match goal with
      | |- exists _ _ _, for_each predict_body data ?tr1 ?w1 = _ /\ _ =>
          destruct (IH tr1 w1 Hst) as (tr' & w' & recs & Hrun & Hcalls & Hts & Hn & Hin)
      end.
      exists tr', w', (rec :: recs). cbn [self calls testing_stats] in *.
      split; [exact Hrun |]. split.
      { rewrite Hcalls. unfold inference_calls. cbn [flat_map app].
        rewrite <- !app_assoc. reflexivity. }
      split; [exact Hts |].
      split; [cbn; now rewrite Hn | cbn; now rewrite Hin].
Qed.

(** [BaseAgents.predict] on well-formed data: two calls per example and,
    with [save_testing_stats] on, one record per example. *)
Lemma agents_predict_ok (o : base_agents) cs data :
  listener_contract P -> Forall well_formed data ->
  exists w' recs,
    predict data (mkWorld o cs) = (Ok tt, w') /\
    calls w' = cs ++ inference_calls data /\
    testing_stats (self w') = (if save_testing_stats o then recs else []) /\
    length recs = length data /\
    map input recs = map (fun ex => fst (fst ex)) data.
Proof.
  intros Hl Hdata.
  destruct (agents_predict_for_each_ok (save_testing_stats o) data Hl Hdata 0%Z
              (mkWorld (set_testing_stats [] o) cs) eq_refl)
    as (tr' & w' & recs & Hrun & Hcalls & Hts & Hn & Hin).
  exists w', recs. split; [| repeat split; assumption].
  unfold predict. erewrite bind_ok by reflexivity.
  erewrite bind_ok by exact Hrun. reflexivity.
Qed.

End AgentsPredictOk.

Section EvaluationClaims.
Import Py Np Networks.



Lemma demo_inference_is_pure : Agents.inference_is_pure Demo.networks.
Proof. split; reflexivity. Qed.


End EvaluationClaims.

(* ================================================================= *)
(** * Runs of [fit] and [predict], and further properties *)

(** ** The two reward encodings *)

Section RewardEncodings.
Import Py.

Lemma getitem_of_nat {A} (xs : list A) i d :
  i < length xs -> getitem xs (Z.of_nat i) = Ok (nth i xs d).
Proof.
  intros Hi. unfold getitem.
  replace (Z.of_nat i <? 0)%Z with false by (symmetry; apply Z.ltb_ge; lia).
  replace (Z.of_nat i <? 0)%Z with false by (symmetry; apply Z.ltb_ge; lia).
  rewrite Nat2Z.id. now rewrite (nth_error_nth' xs d Hi).
Qed.

(** X1. On a one-hot ground truth, that is a vector whose entry is 1 at
    the target position and nowhere else, the one-hot reward of
    [BaseAgents] is the bare-index reward of
    [IndependentFullyConnectedAgents] for the same chosen position. *)
Theorem reward_encodings_agree :
  forall (chosen target : nat) (onehot : list Q),
    chosen < length onehot ->
    (forall i, i < length onehot -> ((nth i onehot 0 == 1)%Q <-> i = target)) ->
    Agents.calculate_reward (Z.of_nat chosen) onehot
    = Ok (Networks.calculate_reward (Z.of_nat chosen) (Z.of_nat target)).
Proof.
  intros chosen target onehot Hc Hone.
  unfold Agents.calculate_reward, Networks.calculate_reward.
  rewrite (getitem_of_nat onehot chosen 0%Q Hc).
  specialize (Hone chosen Hc).
  destruct (Qeq_bool (nth chosen onehot 0%Q) 1) eqn:E.
  - apply Qeq_bool_iff in E. apply Hone in E. subst target.
    now rewrite Z.eqb_refl.
  - apply Qeq_bool_neq in E.
    destruct (Z.eqb_spec (Z.of_nat chosen) (Z.of_nat target)) as [H | H];
      [| reflexivity].
    apply Nat2Z.inj in H. apply Hone in H. contradiction.
Qed.

Lemma reward_encodings_agree_witness :
  Agents.calculate_reward (Z.of_nat 2) [0; 0; 1; 0]%Q
  = Ok (Networks.calculate_reward (Z.of_nat 2) (Z.of_nat 2)).
Proof.
  apply (reward_encodings_agree 2 2 [0; 0; 1; 0]%Q); [cbn; lia |].
  intros i Hi. cbn in Hi.
  destruct i as [| [| [| [| i]]]]; cbn; try lia;
    (split; [intros H; try reflexivity; inversion H | intros H; try reflexivity; lia]).
Defined.

(** The negative indices of Python reach the same entries: chosen index
    [i - len] is rewarded as chosen index [i]. *)
Lemma getitem_negative {A} (xs : list A) i :
  i < length xs ->
  getitem xs (Z.of_nat i - Z.of_nat (length xs)) = getitem xs (Z.of_nat i).
Proof.
  intros Hi. unfold getitem. cbv zeta.
  assert (H1 : (Z.of_nat i - Z.of_nat (length xs) <? 0)%Z = true)
    by (apply Z.ltb_lt; lia).
  assert (H2 : (Z.of_nat i <? 0)%Z = false) by (apply Z.ltb_ge; lia).
  rewrite H1, H2.
  replace (Z.of_nat (length xs) + (Z.of_nat i - Z.of_nat (length xs)))%Z
    with (Z.of_nat i) by lia.
  now rewrite H2.
Qed.

End RewardEncodings.

(** ** The two message formats *)

Section MessageFormats.
Import Py Np Networks.

Lemma split_closed_message syms :
  split "#" (closed_message syms) = map str syms ++ [EmptyString].
Proof.
  unfold closed_message.
  induction syms as [| n syms IH]; cbn [fold_right map app]; [reflexivity |].
  rewrite split_token by apply str_free_of_hash. now rewrite IH.
Qed.

Lemma closed_message_injective s1 s2 :
  closed_message s1 = closed_message s2 -> s1 = s2.
Proof.
  intros H. apply (f_equal message_symbols) in H.
  rewrite !symbols_of_closed_message in H. now injection H.
Qed.

(** X2. A sampled message closes every symbol with ['#'], a greedy
    message only separates them: [message.split('#')] gives
    [max_message_length + 1] tokens for a sampled message, the last one
    empty, and, for [max_message_length >= 1],
    [min max_message_length alphabet_size] tokens, none empty, for a
    greedy one. *)
Theorem message_tokens :
  (forall (N : Numpy) (K : Keras) x (w : world ifca),
      random_contract N -> keras_contract K (alphabet_size (self w)) ->
      length x = speaker_dim (self w) ->
      exists message message_probs syms w',
        sample_speaker_policy_for_message x w = (Ok (message, message_probs), w') /\
        split "#" message = map str syms ++ [EmptyString] /\
        length (split "#" message) = max_message_length (self w) + 1) /\
  (forall (N : Numpy) (K : Keras) x (w : world ifca),
      argsort_contract N -> keras_contract K (alphabet_size (self w)) ->
      length x = speaker_dim (self w) ->
      0 < max_message_length (self w) ->
      exists message message_probs syms w',
        infer_from_speaker_policy x w = (Ok (message, message_probs), w') /\
        split "#" message = map str syms /\
        Forall (fun t => t <> EmptyString) (split "#" message) /\
        length (split "#" message)
        = Nat.min (max_message_length (self w)) (alphabet_size (self w))).
Proof.
  split.
  - intros N K x w Hr Hk Hx.
    destruct (sample_message_ok (speaker_model (self w)) (speaker_dim (self w))
                (max_message_length (self w)) (alphabet_size (self w)) x w Hr Hk Hx)
      as (row & syms & w' & _ & Hrun & Hlen & _).
    eexists _, _, syms, w'. split; [| split].
    + unfold sample_speaker_policy_for_message.
      erewrite bind_ok by reflexivity. exact Hrun.
    + apply split_closed_message.
    + rewrite split_closed_message, length_app, length_map, Hlen. reflexivity.
  - intros N K x w Hs Hk Hx Hpos.
    destruct (infer_ok x w Hs Hk Hx) as (row & _ & Hrow & _ & Hrun).
    set (syms := rev (slice_last (max_message_length (self w))
                                 (argsort (divide row (sum row))))) in *.
    assert (Hlen : length syms
                   = Nat.min (max_message_length (self w)) (alphabet_size (self w))).
    { subst syms. rewrite length_rev, length_slice_last by exact Hpos.
      now rewrite length_argsort, length_divide, Hrow. }
    assert (Hne : syms <> []).
    { intros E. rewrite E in Hlen. cbn in Hlen.
      destruct (softmax_normalized _ _ (Hk (speaker_model (self w)) x))
        as (row' & _ & Hlen' & Hpos' & _).
      assert (0 < alphabet_size (self w)).
      { destruct row'; [cbn in Hpos'; lra | cbn in Hlen'; lia]. }
      lia. }
    eexists _, _, syms, _. split; [exact Hrun |].
    rewrite (split_join syms Hne). repeat split.
    + apply Forall_map. apply Forall_forall. intros n _. apply str_nonempty.
    + now rewrite length_map.
Qed.

Lemma message_tokens_witness :
  (exists message message_probs syms w',
      @sample_speaker_policy_for_message Demo.numpy Demo.keras [0; 1]%Q
        (Demo.start (Demo.agent true true))
      = (Ok (message, message_probs), w') /\
      split "#" message = map str syms ++ [EmptyString] /\
      length (split "#" message) = 3 + 1) /\
  (exists message message_probs syms w',
      @infer_from_speaker_policy Demo.numpy Demo.keras [0; 1]%Q
        (Demo.start (Demo.agent true true))
      = (Ok (message, message_probs), w') /\
      split "#" message = map str syms /\
      Forall (fun t => t <> EmptyString) (split "#" message) /\
      length (split "#" message) = Nat.min 3 5).
Proof.
  split.
  - exact (proj1 message_tokens Demo.numpy Demo.keras [0; 1]%Q
             (Demo.start (Demo.agent true true))
             demo_random_contract demo_keras_contract eq_refl).
  - exact (proj2 message_tokens Demo.numpy Demo.keras [0; 1]%Q
             (Demo.start (Demo.agent true true))
             demo_argsort_contract demo_keras_contract eq_refl ltac:(cbn; lia)).
Defined.

(** X3. The message determines the probabilities: two sampling runs on
    the same object and input, from whatever generator states, that
    return the same message string return the same probability
    sequence. *)
Theorem sampled_message_determines_probabilities :
  forall (N : Numpy) (K : Keras) (o : ifca) x g1 cs1 g2 cs2 m1 p1 w1 m2 p2 w2,
    random_contract N -> keras_contract K (alphabet_size o) ->
    length x = speaker_dim o ->
    sample_speaker_policy_for_message x (mkWorld o g1 cs1) = (Ok (m1, p1), w1) ->
    sample_speaker_policy_for_message x (mkWorld o g2 cs2) = (Ok (m2, p2), w2) ->
    m1 = m2 -> p1 = p2.
Proof.
  intros N K o x g1 cs1 g2 cs2 m1 p1 w1 m2 p2 w2 Hr Hk Hx H1 H2 Hm.
  destruct (sample_message_ok (speaker_model o) (speaker_dim o)
              (max_message_length o) (alphabet_size o) x (mkWorld o g1 cs1) Hr Hk Hx)
    as (row & syms & w' & Hrow & Hrun & _).
  destruct (sample_message_ok (speaker_model o) (speaker_dim o)
              (max_message_length o) (alphabet_size o) x (mkWorld o g2 cs2) Hr Hk Hx)
    as (row' & syms' & w'' & Hrow' & Hrun' & _).
  unfold sample_speaker_policy_for_message in H1, H2.
  erewrite bind_ok in H1 by reflexivity. erewrite bind_ok in H2 by reflexivity.
  cbn [self] in H1, H2. rewrite Hrun in H1. rewrite Hrun' in H2.
  injection H1 as <- <- _. injection H2 as <- <- _.
  apply closed_message_injective in Hm. subst syms'.
  rewrite Hrow in Hrow'. now injection Hrow' as <-.
Qed.

Lemma sampled_message_determines_probabilities_witness :
  exists m p1 w1 p2 w2,
    @sample_speaker_policy_for_message Demo.numpy Demo.keras [0; 1]%Q
      (@mkWorld Demo.numpy _ (Demo.agent true true) 0 []) = (Ok (m, p1), w1) /\
    @sample_speaker_policy_for_message Demo.numpy Demo.keras [0; 1]%Q
      (@mkWorld Demo.numpy _ (Demo.agent true true) 4 [NpRandomRandint 4])
    = (Ok (m, p2), w2) /\
    p1 = p2.
Proof.
  destruct (@sample_speaker_policy_for_message Demo.numpy Demo.keras [0; 1]%Q
              (@mkWorld Demo.numpy _ (Demo.agent true true) 0 []))
    as [[[m1 p1] | e] w1] eqn:E1; [| vm_compute in E1; discriminate].
  destruct (@sample_speaker_policy_for_message Demo.numpy Demo.keras [0; 1]%Q
              (@mkWorld Demo.numpy _ (Demo.agent true true) 4 [NpRandomRandint 4]))
    as [[[m2 p2] | e] w2] eqn:E2; [| vm_compute in E2; discriminate].
  assert (Hm : m1 = m2).
  { pose proof E1 as C1. pose proof E2 as C2. vm_compute in C1, C2.
    injection C1 as <- _ _. injection C2 as <- _ _. reflexivity. }
  subst m2. exists m1, p1, w1, p2, w2.
  split; [reflexivity |]. split; [reflexivity |].
  exact (sampled_message_determines_probabilities Demo.numpy Demo.keras
           (Demo.agent true true) [0; 1]%Q 0 [] 4 [NpRandomRandint 4]
           m1 p1 w1 m1 p2 w2
           demo_random_contract demo_keras_contract eq_refl E1 E2 eq_refl).
Defined.

End MessageFormats.

(** ** Episodes and runs of [fit] *)

Section EpisodeEdges.
Import Py Agents.

(** X4. [sample_from_networks_on_batch] on an object that [fit] has not
    initialised raises [AttributeError] at the reward total, after the
    two networks have sampled and have been told to remember the
    episode; the batch counter stays unassigned and nothing is logged. *)
Theorem episode_before_fit_raises :
  forall (P : PolicyNetworks) batch_size s l st se cs x cands onehot,
    listener_contract P -> well_formed (x, cands, onehot) ->
    exists w' m sp s1 a lp l1 reward,
      sample_from_networks_on_batch x cands onehot
        (mkWorld (init batch_size s l st se) cs)
      = (Raise AttributeError, w') /\
      sample_from_speaker_policy x s = ((m, sp), s1) /\
      sample_from_listener_policy m cands l = ((a, lp), l1) /\
      calculate_reward a onehot = Ok reward /\
      calls w' = cs ++ episode_calls /\
      speaker_model (self w')
      = remember_speaker_training_details x m sp reward s1 /\
      listener_model (self w')
      = remember_listener_training_details m a lp cands reward l1 /\
      training_stats (self w') = [] /\
      total_training_reward (self w') = None /\
      batch_counter (self w') = None.
Proof.
  intros P bs s l st se cs x cands onehot [Hl _] [Hne Hlen].
  destruct (sample_from_speaker_policy x s) as [[m sp] s1] eqn:Es.
  specialize (Hl m cands l Hne).
  destruct (sample_from_listener_policy m cands l) as [[a lp] l1] eqn:El.
  cbn [fst] in Hl.
  destruct (calculate_reward_in_range a onehot ltac:(lia)) as [reward Hrew].
  eexists _, m, sp, s1, a, lp, l1, reward.
  split.
  { unfold sample_from_networks_on_batch, on_speaker, on_listener, attr.
    cbv beta iota delta [bind log gets set_self modify ret lift_result raise init].
    cbn [self calls speaker_model]. rewrite Es.
    cbn [self calls set_speaker_model listener_model]. rewrite El.
    rewrite Hrew. cbn. rewrite <- !app_assoc. reflexivity. }
  repeat split; try reflexivity; assumption.
Qed.

Lemma episode_before_fit_raises_witness :
  exists w' m sp s1 a lp l1 reward,
    @sample_from_networks_on_batch Demo.networks [0; 1]%Q Demo.candidates4
      [1; 0; 0; 0]%Q (@mkWorld Demo.networks (@init Demo.networks 2 0 0 true true) [])
    = (Raise AttributeError, w') /\
    @sample_from_speaker_policy Demo.networks [0; 1]%Q 0 = ((m, sp), s1) /\
    @sample_from_listener_policy Demo.networks m Demo.candidates4 0 = ((a, lp), l1) /\
    calculate_reward a [1; 0; 0; 0]%Q = Ok reward /\
    calls w' = [] ++ episode_calls /\
    speaker_model (self w')
    = @remember_speaker_training_details Demo.networks [0; 1]%Q m sp reward s1 /\
    listener_model (self w')
    = @remember_listener_training_details Demo.networks m a lp Demo.candidates4
        reward l1 /\
    training_stats (self w') = [] /\
    total_training_reward (self w') = None /\
    batch_counter (self w') = None.
Proof.
  apply (episode_before_fit_raises Demo.networks 2 0 0 true true []
           [0; 1]%Q Demo.candidates4 [1; 0; 0; 0]%Q demo_listener_contract).
  split; [discriminate | reflexivity].
Defined.

End EpisodeEdges.

(** ** What [fit] leaves alone *)

Section FitFrame.
Import Py Np Networks.
Context {N : Numpy} {K : Keras}.
Context (P : call -> Prop) (keep : ifca -> ifca -> Prop).
Hypothesis keep_refl : forall o, keep o o.
Hypothesis keep_trans : forall o1 o2 o3, keep o1 o2 -> keep o2 o3 -> keep o1 o3.

Let R : world ifca -> world ifca -> Prop := extends self calls P keep.

Lemma respects_random_choice a p :
  P (NpRandomChoice a p) -> respects R (@random_choice N ifca a p).
Proof.
  intros Hc. unfold random_choice.
  apply respects_bind; try assumption; [now apply respects_log |].
  intros _.
  destruct (a =? 0); [now apply respects_raise |].
  destruct (negb (length p =? a)); [now apply respects_raise |].
  destruct (existsb _ p); [now apply respects_raise |].
  destruct (negb (Qeq_bool (sum p) 1)); [now apply respects_raise |].
  apply respects_bind; try assumption; [now apply respects_draw |].
  intros u. now apply respects_ret.
Qed.

Lemma respects_sample_message model sd mml asz x :
  (forall y, P (KerasPredict y)) -> (forall a p, P (NpRandomChoice a p)) ->
  respects R (@sample_message N K ifca model sd mml asz x).
Proof.
  intros Hp Hc. unfold sample_message.
  apply respects_bind; try assumption; [now apply respects_lift_result |]. intros x'.
  apply respects_bind; try assumption; [now apply respects_log |]. intros _.
  apply respects_for_each; try assumption.
  intros [message probs] i. unfold sample_step.
  apply respects_bind; try assumption; [now apply respects_lift_result |]. intros row.
  apply respects_bind; try assumption; [now apply respects_random_choice |]. intros s.
  apply respects_bind; try assumption; [now apply respects_lift_result |]. intros row'.
  apply respects_bind; try assumption; [now apply respects_lift_result |]. intros q.
  now apply respects_ret.
Qed.

Hypothesis keep_arrays : forall f o, keep o (set_arrays f o).
Hypothesis keep_model : forall v o, keep o (set_speaker_model v o).

Lemma respects_train_speaker_policy_on_batch inputs mps rs :
  (forall X_ Y, P (KerasTrainOnBatch X_ Y)) ->
  respects R (train_speaker_policy_on_batch inputs mps rs).
Proof.
  intros Ht. unfold train_speaker_policy_on_batch.
  apply respects_bind; try assumption; [now apply respects_lift_result |]. intros m.
  apply respects_bind; try assumption; [now apply respects_set_self |]. intros _.
  apply respects_bind; try assumption; [now apply respects_lift_result |]. intros rs'.
  apply respects_bind; try assumption; [now apply respects_set_self |]. intros _.
  apply respects_bind; try assumption; [now apply respects_lift_result |]. intros xs.
  apply respects_bind; try assumption; [now apply respects_set_self |]. intros _.
  apply respects_bind; try assumption; [now apply respects_lift_result |]. intros ys.
  apply respects_bind; try assumption; [now apply respects_set_self |]. intros _.
  apply respects_bind; try assumption; [now apply respects_gets |]. intros o.
  apply respects_bind; try assumption; [now apply respects_lift_result |]. intros xs_.
  apply respects_bind; try assumption; [now apply respects_set_self |]. intros _.
  apply respects_bind; try assumption; [now apply respects_log |]. intros _.
  apply respects_bind; try assumption; [now apply respects_gets |]. intros o1.
  apply respects_bind; try assumption; [now apply respects_lift_result |].
  intros trained.
  apply respects_set_self; try assumption. intros o'. apply keep_model.
Qed.

Lemma respects_fit_train_if_full l :
  (forall X_ Y, P (KerasTrainOnBatch X_ Y)) ->
  respects R (fit_train_if_full l).
Proof.
  intros Ht. unfold fit_train_if_full.
  apply respects_bind; try assumption; [now apply respects_gets |]. intros o.
  destruct (batch_counter l =? batch_size o).
  - apply respects_bind; try assumption.
    + now apply respects_train_speaker_policy_on_batch.
    + intros _. now apply respects_ret.
  - now apply respects_ret.
Qed.

Hypothesis keep_training_stats : forall v o, keep o (set_training_stats v o).

Lemma respects_fit_episode l ex :
  (forall c, fit_call c -> P c) ->
  respects R (fit_episode l ex).
Proof.
  intros HP. destruct ex as [[x cands] t]. unfold fit_episode.
  apply respects_bind; try assumption.
  { unfold sample_speaker_policy_for_message.
    apply respects_bind; try assumption; [now apply respects_gets |]. intros o.
    apply respects_sample_message; intros; now apply HP. }
  intros [message probs].
  apply respects_bind; try assumption.
  { apply respects_listener_policy; try assumption. intros high. now apply HP. }
  intros i.
  apply respects_bind; try assumption; [now apply respects_gets |]. intros o.
  apply respects_bind; try assumption; [| intros _; now apply respects_ret].
  destruct (save_training_stats o); [| now apply respects_ret].
  apply respects_bind; try assumption; [now apply respects_lift_result |]. intros c.
  unfold append_stats.
  apply respects_bind; try assumption; [now apply respects_gets |]. intros o'.
  destruct (training_stats o'); [| now apply respects_raise].
  now apply respects_set_self.
Qed.

Lemma respects_fit_loop data :
  (forall c, fit_call c -> P c) ->
  respects R (fit_loop data).
Proof.
  intros HP. unfold fit_loop.
  apply respects_bind; try assumption; [now apply respects_set_self |]. intros _.
  apply respects_for_each; try assumption. intros l ex. unfold fit_body.
  apply respects_bind; try assumption; [now apply respects_fit_episode |].
  intros l'. apply respects_fit_train_if_full. intros; now apply HP.
Qed.

End FitFrame.

Section AgentsFitFrame.
Import Py Agents.
Context {P : PolicyNetworks}.

Lemma agents_fit_keep_refl o : fit_keep o o.
Proof. now split. Qed.

Lemma agents_fit_keep_trans o1 o2 o3 : fit_keep o1 o2 -> fit_keep o2 o3 -> fit_keep o1 o3.
Proof. unfold fit_keep. intros [? ?] [? ?]. split; congruence. Qed.

Let R : world -> world -> Prop := extends self calls training_call fit_keep.

Lemma respects_training_on_speaker {A} c (f : speaker -> A * speaker) :
  training_call c -> respects R (on_speaker c f).
Proof.
  intros Hc s r s' H. unfold on_speaker in H.
  cbv beta iota delta [bind log gets set_self modify ret] in H. cbn [self calls] in H.
  destruct (f (speaker_model (self s))) as [a s1]. injection H as _ <-.
  split; [now split |]. exists [c]. cbn. split; [reflexivity | now constructor].
Qed.

Lemma respects_training_on_listener {A} c (f : listener -> A * listener) :
  training_call c -> respects R (on_listener c f).
Proof.
  intros Hc s r s' H. unfold on_listener in H.
  cbv beta iota delta [bind log gets set_self modify ret] in H. cbn [self calls] in H.
  destruct (f (listener_model (self s))) as [a l1]. injection H as _ <-.
  split; [now split |]. exists [c]. cbn. split; [reflexivity | now constructor].
Qed.

Lemma respects_training_set_self f :
  (forall o, fit_keep o (f o)) -> respects R (set_self f).
Proof.
  intros Hf s r s' [= _ <-]. split; [apply Hf |].
  exists []. cbn. now rewrite app_nil_r.
Qed.

Lemma respects_attr {A} (sel : base_agents -> option A) : respects R (attr sel).
Proof.
  intros s r s' H. unfold attr in H.
  cbv beta iota delta [bind gets] in H.
  destruct (sel (self s)); injection H as _ <-;
    apply extends_refl; exact agents_fit_keep_refl.
Qed.

Ltac fit_laws :=
  try exact agents_fit_keep_refl; try exact agents_fit_keep_trans.

Lemma respects_sample_from_networks_on_batch x cands onehot :
  respects R (sample_from_networks_on_batch x cands onehot).
Proof.
  unfold sample_from_networks_on_batch.
  apply respects_bind; fit_laws; [now apply respects_training_on_speaker |].
  intros [m sp].
  apply respects_bind; fit_laws; [now apply respects_training_on_listener |].
  intros [a lp].
  apply respects_bind; fit_laws; [apply respects_lift_result; fit_laws |].
  intros reward.
  apply respects_bind; fit_laws; [now apply respects_training_on_speaker |].
  intros _.
  apply respects_bind; fit_laws; [now apply respects_training_on_listener |].
  intros _.
  apply respects_bind; fit_laws; [apply respects_attr |]. intros t.
  apply respects_bind; fit_laws; [now apply respects_training_set_self |]. intros _.
  apply respects_bind; fit_laws; [apply respects_attr |]. intros c.
  apply respects_bind; fit_laws; [now apply respects_training_set_self |]. intros _.
  apply respects_bind; fit_laws; [apply respects_gets; fit_laws |]. intros o.
  destruct (save_training_stats o).
  - now apply respects_training_set_self.
  - apply respects_ret; fit_laws.
Qed.

Lemma respects_train_networks_on_batch : respects R train_networks_on_batch.
Proof.
  unfold train_networks_on_batch.
  apply respects_bind; fit_laws; [now apply respects_training_on_speaker |].
  intros _.
  apply respects_bind; fit_laws; [now apply respects_training_on_listener |].
  intros _. now apply respects_training_set_self.
Qed.

Lemma respects_agents_fit_body u ex : respects R (fit_body u ex).
Proof.
  destruct ex as [[x cands] onehot]. unfold fit_body.
  apply respects_bind; fit_laws; [apply respects_sample_from_networks_on_batch |].
  intros _.
  apply respects_bind; fit_laws; [apply respects_attr |]. intros c.
  apply respects_bind; fit_laws; [apply respects_gets; fit_laws |]. intros o.
  destruct (c =? batch_size o).
  - apply respects_train_networks_on_batch.
  - apply respects_ret; fit_laws.
Qed.

Lemma respects_agents_fit data : respects R (fit data).
Proof.
  unfold fit.
  apply respects_bind; fit_laws; [now apply respects_training_set_self |]. intros _.
  apply respects_bind; fit_laws; [now apply respects_training_set_self |]. intros _.
  apply respects_for_each; fit_laws. intros u ex. apply respects_agents_fit_body.
Qed.

End AgentsFitFrame.

Section FitFrameClaims.
Import Py Np Networks.

Lemma fit_keep_refl {K : Keras} (o : ifca) : fit_keep o o.
Proof. now split. Qed.

Lemma fit_keep_trans {K : Keras} (o1 o2 o3 : ifca) :
  fit_keep o1 o2 -> fit_keep o2 o3 -> fit_keep o1 o3.
Proof. unfold fit_keep. intros [? ?] [? ?]. split; congruence. Qed.

(** X6. [fit] never takes the greedy path and never touches the testing
    side: whatever the dataset and however the run ends,
    [IndependentFullyConnectedAgents.fit] makes no sort, [BaseAgents.fit]
    calls no [infer] method of the two networks, and the configuration
    and the testing log are what they were. *)
Theorem fit_leaves_testing_state :
  (forall (N : Numpy) (K : Keras) data (w : world ifca),
      config (self (snd (fit data w))) = config (self w) /\
      testing_stats (self (snd (fit data w))) = testing_stats (self w) /\
      exists new,
        calls (snd (fit data w)) = calls w ++ new /\
        Forall fit_call new) /\
  (forall (P : Agents.PolicyNetworks) data (w : Agents.world),
      Agents.config (Agents.self (snd (Agents.fit data w)))
      = Agents.config (Agents.self w) /\
      Agents.testing_stats (Agents.self (snd (Agents.fit data w)))
      = Agents.testing_stats (Agents.self w) /\
      exists new,
        Agents.calls (snd (Agents.fit data w)) = Agents.calls w ++ new /\
        Forall Agents.training_call new).
Proof.
  split.
  - intros N K data w.
    assert (H : respects (extends self calls fit_call fit_keep) (fit data)).
    { unfold fit.
      apply respects_bind; try exact fit_keep_refl; try exact fit_keep_trans.
      - apply respects_fit_loop;
          try exact fit_keep_refl; try exact fit_keep_trans;
          intros; (assumption || now split).
      - intros _. apply respects_ret. exact fit_keep_refl. }
    destruct (fit data w) as [r w'] eqn:E. cbn [snd].
    destruct (H w r w' E) as [[Hc Ht] Hcalls]. now repeat split.
  - intros P data w.
    destruct (Agents.fit data w) as [r w'] eqn:E. cbn [snd].
    destruct (respects_agents_fit data w r w' E) as [[Hc Ht] Hcalls].
    now repeat split.
Qed.

End FitFrameClaims.

(** ** Episodes in detail *)

Section EpisodeDetail.
Import Py Np Networks.
Context {N : Numpy} {K : Keras}.

Lemma draws_succ k g : draws (S k) g = draws k (snd (random_sample g)).
Proof. unfold draws. now rewrite Nat.iter_succ_r. Qed.

Lemma sample_loop_detail {Self} alphabet_size nrow k :
  random_contract N ->
  0 < alphabet_size -> length nrow = alphabet_size ->
  Forall (fun p => (0 <= p)%Q) nrow -> (sum nrow == 1)%Q ->
  forall start message message_probs (w : world Self),
  exists syms,
    for_each (sample_step alphabet_size [nrow]) (seq start k)
             (message, message_probs) w
    = (Ok (String.append message (closed_message syms),
           message_probs ++ map (fun i => nth i nrow 0%Q) syms),
       mkWorld (self w) (draws k (np_random w))
               (calls w ++ repeat (NpRandomChoice alphabet_size nrow) k)) /\
    length syms = k /\
    Forall (fun s => s < alphabet_size) syms.
Proof.
  intros Hr Ha Hlen Hnn Hsum.
  induction k as [| k IH]; intros start message message_probs w.
  - exists []. cbn. rewrite append_empty_r, !app_nil_r. destruct w. now repeat split.
  - destruct (random_choice_ok alphabet_size nrow w Hr Ha Hlen Hnn Hsum)
      as (sym & Hsym & Hchoice).
    assert (Hnth : nth_error nrow sym = Some (nth sym nrow 0%Q)).
    { apply nth_error_nth'. lia. }
    set (w1 := mkWorld (self w) (snd (random_sample (np_random w)))
                       (calls w ++ [NpRandomChoice alphabet_size nrow])) in *.
    destruct (IH (S start)
                 (String.append message (String.append (str sym) "#"))
                 (message_probs ++ [nth sym nrow 0%Q]) w1)
      as (syms & Hrun & Hk & Hall).
    exists (sym :: syms).
    split; [| split].
    + cbn [seq for_each]. unfold bind at 1.
      unfold sample_step at 1. unfold bind at 1. unfold lift_result at 1.
      cbn [getitem_nat nth_error]. unfold bind at 1. rewrite Hchoice.
      unfold bind at 1. unfold lift_result at 1.
      cbn [getitem_nat nth_error]. unfold bind at 1. unfold lift_result at 1.
      unfold getitem_nat. rewrite Hnth. unfold ret at 1.
      rewrite Hrun. unfold closed_message. cbn [fold_right map].
      rewrite !append_assoc, <- !app_assoc. subst w1.
      cbn [self np_random calls repeat app].
      rewrite draws_succ, <- app_assoc. reflexivity.
    + cbn. now rewrite Hk.
    + now constructor.
Qed.

Lemma sample_message_detail {Self} model sd mml asz x (w : world Self) :
  random_contract N -> keras_contract K asz -> length x = sd ->
  exists row syms,
    Np.predict model x = [row] /\
    length row = asz /\
    sample_message model sd mml asz x w
    = (Ok (closed_message syms,
           map (fun i => nth i (divide row (sum row)) 0%Q) syms),
       mkWorld (self w) (draws mml (np_random w))
               (calls w ++ KerasPredict x
                  :: repeat (NpRandomChoice asz (divide row (sum row))) mml)) /\
    length syms = mml /\
    Forall (fun s => s < asz) syms /\
    Forall (fun p => (0 <= p)%Q) (divide row (sum row)) /\
    (sum (divide row (sum row)) == 1)%Q.
Proof.
  intros Hr Hk Hx.
  destruct (softmax_normalized _ _ (Hk model x))
    as (row & Hrow & Hlen & Hpos & Hnorm & Hnn & Hone).
  assert (Ha : 0 < asz).
  { destruct row; [| cbn in Hlen; lia]. cbn in Hpos. lra. }
  set (w0 := mkWorld (self w) (np_random w) (calls w ++ [KerasPredict x])).
  destruct (sample_loop_detail asz (divide row (sum row)) mml Hr Ha
              ltac:(now rewrite length_divide) Hnn Hone 0 EmptyString [] w0)
    as (syms & Hrun & Hlen' & Hall).
  exists row, syms. split; [exact Hrow |]. split; [exact Hlen |].
  split; [| repeat split; try assumption].
  unfold sample_message. unfold bind at 1. unfold lift_result at 1.
  rewrite (reshape_input _ _ Hx). unfold bind at 1. unfold log, modify.
  fold w0. rewrite Hnorm. rewrite Hrun. subst w0. simpl.
  now rewrite <- app_assoc.
Qed.

(** One episode of [fit], in full. *)
Lemma fit_episode_detail l ex (w : world ifca) ts :
  random_contract N -> keras_contract K (alphabet_size (self w)) ->
  well_formed (speaker_dim (self w)) ex ->
  training_stats (self w) = Some ts ->
  exists row syms i c,
    Np.predict (speaker_model (self w)) (input_of ex) = [row] /\
    length syms = max_message_length (self w) /\
    Forall (fun s => s < alphabet_size (self w)) syms /\
    Forall (fun p => (0 <= p)%Q) (divide row (sum row)) /\
    (sum (divide row (sum row)) == 1)%Q /\
    i < length (candidates_of ex) /\
    c = nth i (candidates_of ex) [] /\
    i = fst (randint (length (candidates_of ex))
                     (draws (max_message_length (self w)) (np_random w))) /\
    let probs := map (fun s => nth s (divide row (sum row)) 0%Q) syms in
    let reward := calculate_reward (Z.of_nat i) (snd ex) in
    fit_episode l ex w
    = (Ok (mkFitLocals (message_probs_storage l ++ [probs])
                       (rewards_storage l ++ [reward])
                       (total_reward l + reward)%Z
                       (batch_counter l + 1)
                       (batch_training_inputs l ++ [input_of ex])),
       mkWorld (if save_training_stats (self w)
                then set_training_stats
                       (Some (ts ++ [mkStats reward (input_of ex)
                                             (closed_message syms) c]))
                       (self w)
                else self w)
               (snd (randint (length (candidates_of ex))
                             (draws (max_message_length (self w)) (np_random w))))
               (calls w
                ++ KerasPredict (input_of ex)
                   :: repeat (NpRandomChoice (alphabet_size (self w))
                                             (divide row (sum row)))
                             (max_message_length (self w))
                ++ [NpRandomRandint (length (candidates_of ex))])).
Proof.
  intros Hr Hk [Hx Hc] Hts. destruct ex as [[x cands] t].
  unfold input_of, candidates_of in *. cbn [fst snd] in *.
  destruct (sample_message_detail (speaker_model (self w)) (speaker_dim (self w))
              (max_message_length (self w)) (alphabet_size (self w)) x w Hr Hk Hx)
    as (row & syms & Hrow & _ & Hrun & Hlen & Hall & Hnn & Hone).
  set (w1 := mkWorld (self w) (draws (max_message_length (self w)) (np_random w))
                     (calls w ++ KerasPredict x
                        :: repeat (NpRandomChoice (alphabet_size (self w))
                                                  (divide row (sum row)))
                                  (max_message_length (self w)))) in *.
  destruct (listener_policy_ok (closed_message syms) cands w1 Hr Hc)
    as (i & Hi & Hlisten).
  assert (Hi' : i = fst (randint (length cands)
                           (draws (max_message_length (self w)) (np_random w)))).
  { unfold listener_policy, random_randint, log, draw, modify, bind in Hlisten.
    cbn [self np_random calls w1] in Hlisten.
    destruct (length cands =? 0); [discriminate |].
    cbn [self np_random calls] in Hlisten.
    destruct (randint (length cands) _) as [j g]. now injection Hlisten as <-. }
  assert (Hget : nth_error cands i = Some (nth i cands [])).
  { now apply nth_error_nth'. }
  exists row, syms, i, (nth i cands []).
  repeat (split; [assumption || reflexivity |]). cbv zeta.
  unfold fit_episode.
  erewrite bind_ok; cycle 1.
  { unfold sample_speaker_policy_for_message.
    erewrite bind_ok by reflexivity. exact Hrun. }
  cbn beta iota. erewrite bind_ok by exact Hlisten.
  erewrite bind_ok by reflexivity. simpl self.
  destruct (save_training_stats (self w)) eqn:Hsave.
  - unfold bind at 1. unfold bind at 1. unfold lift_result at 1.
    unfold getitem_nat. rewrite Hget.
    unfold append_stats. erewrite bind_ok by reflexivity.
    replace (training_stats (self _)) with (Some ts) by (symmetry; exact Hts).
    subst w1. cbv beta iota zeta delta [bind set_self modify ret].
    cbn [self np_random calls]. rewrite <- !app_assoc. reflexivity.
  - subst w1. cbv beta iota zeta delta [bind set_self modify ret].
    cbn [self np_random calls]. rewrite <- !app_assoc. reflexivity.
Qed.

End EpisodeDetail.

(** ** Training steps in detail *)

Section TrainingDetail.
Import Py Np Networks.
Context {N : Numpy} {K : Keras}.

Lemma vstack_inv {A} (rows m : list (list A)) : vstack rows = Ok m -> m = rows.
Proof.
  unfold vstack. destruct rows as [| r rs]; [discriminate |].
  destruct (forallb _ rs); [now intros [= <-] | discriminate].
Qed.

Lemma length_targets rs mps :
  length rs = length mps -> length (targets rs mps) = length rs.
Proof.
  intros H. unfold targets, sum_axis1.
  rewrite length_map, length_combine, !length_map. lia.
Qed.

(** The model [initialize_speaker_model] builds refuses a target of one
    number per sample unless its last layer has one unit. *)
Lemma model_refuses_targets units (w : weights) X_ Y :
  units <> 1 -> model_train_on_batch units w X_ Y = Raise ValueError.
Proof.
  intros H. unfold model_train_on_batch. apply Nat.eqb_neq in H. now rewrite H.
Qed.

(** A training step on a batch of the right shape, up to the answer of
    the model: the five arrays are left on the object, the call is made,
    and the weights change only if the model accepts the targets. *)
Lemma train_step_run inputs mps rs m (w : world ifca) :
  inputs <> [] ->
  length inputs = batch_size (self w) ->
  length mps = length inputs -> length rs = length inputs ->
  Forall (fun x => length x = speaker_dim (self w)) inputs ->
  Forall (fun p => length p = m) mps ->
  train_speaker_policy_on_batch inputs mps rs w
  = let o1 := set_arrays
                (fun _ => mkBatchArrays (Some mps) (Some rs) (Some inputs)
                                        (Some (targets rs mps))
                                        (Some (concat inputs)))
                (self w) in
    let cs1 := calls w ++ [KerasTrainOnBatch (concat inputs) (targets rs mps)] in
    match model_train_on_batch (alphabet_size (self w)) (speaker_model (self w))
                               (concat inputs) (targets rs mps) with
    | Ok trained => (Ok tt, mkWorld (set_speaker_model trained o1) (np_random w) cs1)
    | Raise e => (Raise e, mkWorld o1 (np_random w) cs1)
    end.
Proof.
  intros Hne Hb Hmps Hrs Hin Hm.
  assert (Hmps' : mps <> []) by (destruct mps, inputs; cbn in *; congruence).
  assert (Hrs' : rs <> []) by (destruct rs, inputs; cbn in *; congruence).
  assert (Hmul : multiply (map inject_Z rs) (sum_axis1 mps) = Ok (targets rs mps)).
  { unfold targets. apply multiply_ok. unfold sum_axis1. rewrite !length_map. lia. }
  destruct w as [o g cs]. cbn [self np_random calls] in *.
  unfold train_speaker_policy_on_batch.
  rewrite (vstack_ok mps m Hmps' Hm), (vstack_scalars_ok rs Hrs'),
    (vstack_ok inputs _ Hne Hin).
  do 2 (erewrite bind_ok by reflexivity).
  do 2 (erewrite bind_ok by reflexivity).
  do 2 (erewrite bind_ok by reflexivity).
  unfold bind at 1. unfold lift_result at 1. rewrite Hmul.
  do 2 (erewrite bind_ok by reflexivity).
  unfold bind at 1. unfold lift_result at 1. simpl.
  rewrite (reshape_batch inputs _ _ Hb Hin).
  cbv beta iota zeta delta [bind set_self modify gets log lift_result ret].
  cbn [self np_random calls alphabet_size speaker_model set_arrays].
  destruct (model_train_on_batch _ _ _ _); reflexivity.
Qed.

Lemma sum_bounds probs :
  Forall (fun q => (0 <= q)%Q /\ (q <= 1)%Q) probs ->
  (0 <= sum probs)%Q /\ (sum probs <= inject_Z (Z.of_nat (length probs)))%Q.
Proof.
  induction 1 as [| q probs [Hq0 Hq1] _ [IH0 IH1]].
  - cbn. split; apply Qle_refl.
  - rewrite sum_cons. cbn [length].
    rewrite Nat2Z.inj_succ. unfold Z.succ. rewrite inject_Z_plus.
    change (inject_Z 1) with 1%Q. split; lra.
Qed.

Lemma targets_bounded m rs mps :
  Forall (fun r => r = 0%Z \/ r = 1%Z) rs ->
  Forall (fun probs => length probs = m /\
                       Forall (fun q => (0 <= q)%Q /\ (q <= 1)%Q) probs) mps ->
  Forall (fun y => (0 <= y)%Q /\ (y <= inject_Z (Z.of_nat m))%Q) (targets rs mps).
Proof.
  intros Hrs. revert mps. induction Hrs as [| r rs Hr _ IH]; intros mps Hmps.
  - constructor.
  - destruct Hmps as [| probs mps [Hlen Hp] Hmps]; [constructor |].
    unfold targets, sum_axis1. cbn [map combine]. constructor.
    + cbn [fst snd]. destruct (sum_bounds probs Hp) as [H0 H1]. rewrite Hlen in H1.
      destruct Hr as [-> | ->].
      * change (inject_Z 0) with 0%Q.
        assert (Hm : (0 <= inject_Z (Z.of_nat m))%Q) by lra. split; lra.
      * change (inject_Z 1) with 1%Q. split; lra.
    + apply IH, Hmps.
Qed.

Lemma targets_zero rs mps j :
  nth j rs 1%Z = 0%Z -> (nth j (targets rs mps) 0 == 0)%Q.
Proof.
  revert mps j. induction rs as [| r rs IH]; intros mps j Hj.
  - destruct j; discriminate.
  - destruct mps as [| probs mps]; [destruct j; reflexivity |].
    destruct j as [| j].
    + cbn in Hj. subst r. unfold targets, sum_axis1. cbn [map combine nth fst snd].
      change (inject_Z 0) with 0%Q. ring.
    + apply (IH mps j Hj).
Qed.

Lemma targets_nth rs mps j :
  length rs = length mps ->
  (nth j (targets rs mps) 0 == inject_Z (nth j rs 0%Z) * sum (nth j mps []))%Q.
Proof.
  intros Hlen. unfold targets, sum_axis1.
  destruct (Nat.lt_ge_cases j (length rs)) as [Hj | Hj].
  - rewrite (nth_indep _ 0%Q (inject_Z 0 * sum [])%Q)
      by (rewrite length_map, length_combine, !length_map; lia).
    rewrite (map_nth (fun xy => (fst xy * snd xy)%Q)
                     (combine (map inject_Z rs) (map sum mps))
                     (inject_Z 0, sum [])).
    rewrite combine_nth by (rewrite !length_map; congruence).
    cbn [fst snd].
    rewrite (map_nth inject_Z rs 0%Z), (map_nth sum mps []). reflexivity.
  - rewrite !nth_overflow;
      [ cbn; ring | lia | lia
      | rewrite length_map, length_combine, !length_map; lia ].
Qed.

Lemma nth_le_sum v i :
  Forall (fun p => (0 <= p)%Q) v -> (nth i v 0 <= sum v)%Q.
Proof.
  intros Hv. revert i. induction Hv as [| a v Ha Hv IH]; intros i.
  - destruct i; apply Qle_refl.
  - rewrite sum_cons. pose proof (sum_nonneg v Hv) as Hs. destruct i as [| i]; cbn [nth].
    + lra.
    + specialize (IH i). lra.
Qed.

Lemma nth_nonneg v i :
  Forall (fun p => (0 <= p)%Q) v -> (0 <= nth i v 0)%Q.
Proof.
  intros Hv. destruct (Nat.lt_ge_cases i (length v)) as [Hi | Hi].
  - rewrite Forall_forall in Hv. apply Hv, nth_In, Hi.
  - rewrite nth_overflow by exact Hi. apply Qle_refl.
Qed.

Lemma message_probs_bounded nrow syms :
  Forall (fun p => (0 <= p)%Q) nrow -> (sum nrow == 1)%Q ->
  Forall (fun q => (0 <= q)%Q /\ (q <= 1)%Q) (map (fun s => nth s nrow 0%Q) syms).
Proof.
  intros Hnn Hone. apply Forall_map, Forall_forall. intros s _. split.
  - now apply nth_nonneg.
  - rewrite <- Hone. now apply nth_le_sum.
Qed.

Lemma train_calls_episode x a p k high :
  train_calls (KerasPredict x :: repeat (NpRandomChoice a p) k ++ [NpRandomRandint high])
  = [].
Proof.
  cbn [train_calls flat_map app].
  change (flat_map _ ?cs) with (train_calls cs).
  now rewrite train_calls_app, train_calls_repeat_choice.
Qed.

(** X7. A training step on a batch of [batch_size] episodes, with
    rewards 0 or 1 and message probabilities between 0 and 1, hands the
    model the inputs of the batch and one target per episode: the reward
    times the summed probabilities of the message, so zero for an episode
    without reward and never above the message length; the targets are
    left on [self.Y].  The model of [initialize_speaker_model] has
    [alphabet_size] outputs per sample under a categorical cross-entropy,
    so with an alphabet of other than one symbol it refuses these targets:
    the step raises [ValueError] and the weights are what they were. *)
Theorem training_targets :
  forall inputs mps rs m (w : world ifca),
    inputs <> [] ->
    length inputs = batch_size (self w) ->
    length mps = length inputs -> length rs = length inputs ->
    Forall (fun x => length x = speaker_dim (self w)) inputs ->
    Forall (fun probs => length probs = m /\
                         Forall (fun q => (0 <= q)%Q /\ (q <= 1)%Q) probs) mps ->
    Forall (fun r => r = 0%Z \/ r = 1%Z) rs ->
    alphabet_size (self w) <> 1 ->
    exists ys w',
      train_speaker_policy_on_batch inputs mps rs w = (Raise ValueError, w') /\
      calls w' = calls w ++ [KerasTrainOnBatch (concat inputs) ys] /\
      speaker_model (self w') = speaker_model (self w) /\
      Y (arrays (self w')) = Some ys /\
      length ys = batch_size (self w) /\
      (forall j, (nth j ys 0 == inject_Z (nth j rs 0%Z) * sum (nth j mps []))%Q) /\
      (forall j, nth j rs 1%Z = 0%Z -> (nth j ys 0 == 0)%Q) /\
      Forall (fun y => (0 <= y)%Q /\ (y <= inject_Z (Z.of_nat m))%Q) ys.
Proof.
  intros inputs mps rs m w Hne Hbs Hmps Hrs Hin Hp Hr Hasz.
  pose proof (train_step_run inputs mps rs m w Hne Hbs Hmps Hrs Hin) as Hrun.
  cbv zeta in Hrun. rewrite (model_refuses_targets _ _ _ _ Hasz) in Hrun.
  eexists (targets rs mps), _. split.
  { apply Hrun. eapply Forall_impl; [| exact Hp]. now intros probs [H _]. }
  cbn [self calls]. repeat split.
  - rewrite length_targets; congruence.
  - intros j. apply targets_nth. congruence.
  - intros j. apply targets_zero.
  - now apply targets_bounded.
Qed.

End TrainingDetail.

Section TrainingExample.
Import Py Np Networks.

Lemma training_targets_witness :
  exists ys w',
    @train_speaker_policy_on_batch Demo.numpy Demo.keras
      [[0; 1]; [1; 0]]%Q [[1 # 2; 1 # 4; 1 # 4]; [1 # 5; 1 # 5; 1 # 2]]%Q [0; 1]%Z
      (Demo.start (Demo.agent true true)) = (Raise ValueError, w') /\
    calls w' = [] ++ [KerasTrainOnBatch (concat [[0; 1]; [1; 0]]%Q) ys] /\
    speaker_model (self w') = 0 /\
    Y (arrays (self w')) = Some ys /\
    length ys = 2 /\
    (forall j, (nth j ys 0
                == inject_Z (nth j [0; 1]%Z 0%Z)
                   * sum (nth j [[1 # 2; 1 # 4; 1 # 4]; [1 # 5; 1 # 5; 1 # 2]]%Q []))%Q) /\
    (forall j, nth j [0; 1]%Z 1%Z = 0%Z -> (nth j ys 0 == 0)%Q) /\
    Forall (fun y => (0 <= y)%Q /\ (y <= inject_Z (Z.of_nat 3))%Q) ys.
Proof.
  apply (@training_targets Demo.numpy Demo.keras
           [[0; 1]; [1; 0]]%Q [[1 # 2; 1 # 4; 1 # 4]; [1 # 5; 1 # 5; 1 # 2]]%Q
           [0; 1]%Z 3 (Demo.start (Demo.agent true true))).
  - discriminate.
  - reflexivity.
  - reflexivity.
  - reflexivity.
  - repeat constructor.
  - repeat constructor; cbn; discriminate.
  - constructor; [now left | constructor; [now right | constructor]].
  - discriminate.
Defined.

End TrainingExample.


(** ** The loop of [fit] in detail *)

Section FitDetail.
Import Py Np Networks.
Context {N : Numpy} {K : Keras}.

Let probs_ok (mml : nat) (probs : list Q) : Prop :=
  length probs = mml /\ Forall (fun q => (0 <= q)%Q /\ (q <= 1)%Q) probs.

Lemma calculate_reward_01 a b : calculate_reward a b = 0%Z \/ calculate_reward a b = 1%Z.
Proof. unfold calculate_reward. destruct (a =? b)%Z; auto. Qed.

Lemma listener_outcomes_app mml d1 d2 g :
  listener_outcomes mml (d1 ++ d2) g
  = (fst (listener_outcomes mml d1 g)
       ++ fst (listener_outcomes mml d2 (snd (listener_outcomes mml d1 g))),
     snd (listener_outcomes mml d2 (snd (listener_outcomes mml d1 g)))).
Proof.
  revert g. induction d1 as [| ex d1 IH]; intros g.
  - cbn. now destruct (listener_outcomes mml d2 g).
  - cbn [app listener_outcomes].
    destruct (randint (length (candidates_of ex)) (draws mml g)) as [i g1].
    rewrite IH. destruct (listener_outcomes mml d1 g1) as [o1 g2]. cbn [fst snd].
    now destruct (listener_outcomes mml d2 g2).
Qed.

(** One episode of [fit], read off the configuration. *)
Lemma fit_episode_run mml asz sd bs st se l ex (w : world ifca) ts :
  random_contract N -> keras_contract K asz -> well_formed sd ex ->
  config (self w) = (mml, asz, sd, bs, st, se) ->
  training_stats (self w) = Some ts ->
  exists probs rec ep w',
    fit_episode l ex w
    = (Ok (mkFitLocals (message_probs_storage l ++ [probs])
                       (rewards_storage l ++ [reward rec])
                       (total_reward l + reward rec)%Z
                       (batch_counter l + 1)
                       (batch_training_inputs l ++ [input_of ex])), w') /\
    episode_record mml asz ex rec /\
    (let i := fst (randint (length (candidates_of ex)) (draws mml (np_random w))) in
     reward rec = calculate_reward (Z.of_nat i) (snd ex) /\
     chosen_target rec = nth i (candidates_of ex) []) /\
    probs_ok mml probs /\
    np_random w' = snd (randint (length (candidates_of ex)) (draws mml (np_random w))) /\
    training_stats (self w') = Some (ts ++ if st then [rec] else []) /\
    config (self w') = config (self w) /\
    speaker_model (self w') = speaker_model (self w) /\
    arrays (self w') = arrays (self w) /\
    testing_stats (self w') = testing_stats (self w) /\
    calls w' = calls w ++ ep /\
    train_calls ep = [].
Proof.
  intros Hr Hk Hex Hcfg Hts.
  assert (Hf : max_message_length (self w) = mml /\ alphabet_size (self w) = asz /\
               speaker_dim (self w) = sd /\ save_training_stats (self w) = st).
  { unfold config in Hcfg. now inversion Hcfg. }
  destruct Hf as (Fmml & Fasz & Fsd & Fst).
  destruct (fit_episode_detail l ex w ts Hr ltac:(now rewrite Fasz)
              ltac:(now rewrite Fsd) Hts)
    as (row & syms & i & c & Hrow & Hsyms & Hall & Hnn & Hone & Hi & Hc & Hi' & Hep).
  cbv zeta in Hep. rewrite Fmml, Fasz, Fst in *.
  set (probs := map (fun s => nth s (divide row (sum row)) 0%Q) syms) in *.
  set (rw := calculate_reward (Z.of_nat i) (snd ex)) in *.
  set (rec := mkStats rw (input_of ex) (closed_message syms) c) in *.
  set (ep := KerasPredict (input_of ex)
               :: repeat (NpRandomChoice asz (divide row (sum row))) mml
               ++ [NpRandomRandint (length (candidates_of ex))]) in *.
  exists probs, rec, ep. eexists. split; [exact Hep |].
  cbn [self np_random calls].
  split.
  { split; [reflexivity |]. split.
    - exists syms. now repeat split.
    - exists i. split; [| reflexivity]. cbn [chosen_target rec]. subst c.
      now apply nth_error_nth'. }
  split; [cbv zeta; rewrite <- Hi'; split; [reflexivity | exact Hc] |].
  split.
  { split; [subst probs; now rewrite length_map | now apply message_probs_bounded]. }
  split; [reflexivity |].
  split; [destruct st; cbn; [reflexivity | now rewrite app_nil_r] |].
  split; [now destruct st |]. split; [now destruct st |].
  split; [now destruct st |]. split; [now destruct st |].
  split; [reflexivity |]. subst ep. apply train_calls_episode.
Qed.

(** The loop of [fit] on examples that do not fill the batch: every
    example gets its episode, the accumulators grow by one element each,
    and no training step is made. *)
Lemma fit_for_each_below mml asz sd bs st se data :
  random_contract N -> keras_contract K asz ->
  Forall (well_formed sd) data ->
  forall l (w : world ifca) ts,
  config (self w) = (mml, asz, sd, bs, st, se) ->
  training_stats (self w) = Some ts ->
  (bs = 0 \/ batch_counter l + length data < bs) ->
  exists mps recs new l' w',
    for_each fit_body data l w = (Ok l', w') /\
    (message_probs_storage l' = message_probs_storage l ++ mps /\
     rewards_storage l' = rewards_storage l ++ map reward recs /\
     batch_counter l' = batch_counter l + length data /\
     batch_training_inputs l' = batch_training_inputs l ++ map input_of data) /\
    Forall2 (episode_record mml asz) data recs /\
    map (fun rec => (reward rec, chosen_target rec)) recs
    = fst (listener_outcomes mml data (np_random w)) /\
    length mps = length data /\
    Forall (probs_ok mml) mps /\
    np_random w' = snd (listener_outcomes mml data (np_random w)) /\
    training_stats (self w') = Some (ts ++ if st then recs else []) /\
    config (self w') = config (self w) /\
    speaker_model (self w') = speaker_model (self w) /\
    arrays (self w') = arrays (self w) /\
    testing_stats (self w') = testing_stats (self w) /\
    calls w' = calls w ++ new /\
    train_calls new = [].
Proof.
  intros Hr Hk Hdata. induction Hdata as [| ex data Hex Hdata IH];
    intros l w ts Hcfg Hts Hlt.
  - exists [], [], [], l, w. cbn [for_each map length listener_outcomes fst snd].
    rewrite !app_nil_r, Nat.add_0_r.
    repeat split; try reflexivity; try constructor.
    rewrite Hts. destruct st; now rewrite app_nil_r.
  - destruct (fit_episode_run mml asz sd bs st se l ex w ts Hr Hk Hex Hcfg Hts)
      as (probs & rec & ep & w1 & Hep & Hrec & (Hrw & Hct) & Hprobs & Hg1 & Hts1
          & Hcfg1 & Hm1 & Ha1 & Hte1 & Hcalls1 & Hep_calls).
    set (l1 := mkFitLocals (message_probs_storage l ++ [probs])
                           (rewards_storage l ++ [reward rec])
                           (total_reward l + reward rec)%Z
                           (batch_counter l + 1)
                           (batch_training_inputs l ++ [input_of ex])) in *.
    assert (Hbs1 : batch_size (self w1) = bs).
    { rewrite Hcfg in Hcfg1. unfold config in Hcfg1. now inversion Hcfg1. }
    assert (Hbody : fit_body l ex w = (Ok l1, w1)).
    { unfold fit_body. erewrite bind_ok by exact Hep.
      apply fit_train_if_full_not. rewrite Hbs1. cbn [batch_counter l1].
      cbn [length] in Hlt. lia. }
    destruct (IH l1 w1 (ts ++ if st then [rec] else []))
      as (mps & recs & new & l' & w' & Hrun & (Hmps' & Hrs' & Hbc' & Hbti') & Hrecs
          & Hout & Hlen & Hok & Hg' & Hts' & Hcfg' & Hm' & Ha' & Hte' & Hcalls' & Hnew).
    { now rewrite Hcfg1. }
    { exact Hts1. }
    { cbn [batch_counter l1]. cbn [length] in Hlt. lia. }
    exists (probs :: mps), (rec :: recs), (ep ++ new), l', w'.
    cbn [for_each listener_outcomes map length].
    destruct (randint (length (candidates_of ex)) (draws mml (np_random w)))
      as [i g1] eqn:Ei. cbn [fst snd] in *. rewrite <- Hg1.
    destruct (listener_outcomes mml data (np_random w1)) as [outs g2] eqn:Eo.
    cbn [fst snd] in *.
    split; [erewrite bind_ok by exact Hbody; exact Hrun |].
    split.
    { cbn [message_probs_storage rewards_storage batch_counter batch_training_inputs l1]
        in *.
      rewrite Hmps', Hrs', Hbc', Hbti', <- !app_assoc. repeat split. lia. }
    split; [now constructor |].
    split; [now rewrite Hrw, Hct, Hout |].
    split; [now rewrite Hlen |].
    split; [now constructor |].
    split; [exact Hg' |].
    split; [rewrite Hts', <- app_assoc; now destruct st |].
    split; [congruence |]. split; [congruence |].
    split; [congruence |]. split; [congruence |].
    split; [now rewrite Hcalls', Hcalls1, app_assoc |].
    now rewrite train_calls_app, Hep_calls, Hnew.
Qed.

(** The turn of the loop that fills the batch: the episode is made, the
    training step hands the batch to the model, and the model refuses the
    targets.  The accumulators hold the batch when the exception leaves
    the loop; the arrays of the batch stay on the object. *)
Lemma fit_body_full mml asz sd bs st se l ex (w : world ifca) ts :
  random_contract N -> keras_contract K asz -> well_formed sd ex ->
  config (self w) = (mml, asz, sd, bs, st, se) ->
  training_stats (self w) = Some ts ->
  asz <> 1 ->
  batch_counter l + 1 = bs ->
  length (batch_training_inputs l) = batch_counter l ->
  length (message_probs_storage l) = batch_counter l ->
  length (rewards_storage l) = batch_counter l ->
  Forall (fun x => length x = sd) (batch_training_inputs l) ->
  Forall (probs_ok mml) (message_probs_storage l) ->
  exists probs rec ep w1 w',
    let l1 := mkFitLocals (message_probs_storage l ++ [probs])
                          (rewards_storage l ++ [reward rec])
                          (total_reward l + reward rec)%Z
                          (batch_counter l + 1)
                          (batch_training_inputs l ++ [input_of ex]) in
    fit_episode l ex w = (Ok l1, w1) /\
    fit_train_if_full l1 w1 = (Raise ValueError, w') /\
    fit_body l ex w = (Raise ValueError, w') /\
    episode_record mml asz ex rec /\
    (let i := fst (randint (length (candidates_of ex)) (draws mml (np_random w))) in
     reward rec = calculate_reward (Z.of_nat i) (snd ex) /\
     chosen_target rec = nth i (candidates_of ex) []) /\
    probs_ok mml probs /\
    np_random w' = snd (randint (length (candidates_of ex)) (draws mml (np_random w))) /\
    training_stats (self w') = Some (ts ++ if st then [rec] else []) /\
    config (self w') = config (self w) /\
    speaker_model (self w') = speaker_model (self w) /\
    arrays (self w')
    = mkBatchArrays (Some (message_probs_storage l1)) (Some (rewards_storage l1))
                    (Some (batch_training_inputs l1))
                    (Some (targets (rewards_storage l1) (message_probs_storage l1)))
                    (Some (concat (batch_training_inputs l1))) /\
    testing_stats (self w') = testing_stats (self w) /\
    calls w1 = calls w ++ ep /\
    train_calls ep = [] /\
    calls w' = calls w1
               ++ [KerasTrainOnBatch
                     (concat (batch_training_inputs l1))
                     (targets (rewards_storage l1) (message_probs_storage l1))].
Proof.
  intros Hr Hk Hex Hcfg Hts Hasz Hfull Hbti Hmps Hrs Hin Hok.
  destruct (fit_episode_run mml asz sd bs st se l ex w ts Hr Hk Hex Hcfg Hts)
    as (probs & rec & ep & w1 & Hep & Hrec & Hout & Hprobs & Hg1 & Hts1
        & Hcfg1 & Hm1 & Ha1 & Hte1 & Hcalls1 & Hep_calls).
  exists probs, rec, ep, w1. cbv zeta.
  set (l1 := mkFitLocals (message_probs_storage l ++ [probs])
                         (rewards_storage l ++ [reward rec])
                         (total_reward l + reward rec)%Z
                         (batch_counter l + 1)
                         (batch_training_inputs l ++ [input_of ex])) in *.
  assert (Hf1 : alphabet_size (self w1) = asz /\ speaker_dim (self w1) = sd /\
                batch_size (self w1) = bs).
  { rewrite Hcfg in Hcfg1. unfold config in Hcfg1. now inversion Hcfg1. }
  destruct Hf1 as (Fasz & Fsd & Fbs).
  pose proof (train_step_run (batch_training_inputs l1) (message_probs_storage l1)
                (rewards_storage l1) mml w1) as Htrain.
  specialize (Htrain
    ltac:(cbn; destruct (batch_training_inputs l); discriminate)
    ltac:(cbn; rewrite length_app, Hbti, Fbs; cbn; lia)
    ltac:(cbn; rewrite !length_app, Hbti, Hmps; reflexivity)
    ltac:(cbn; rewrite !length_app, Hbti, Hrs; reflexivity)).
  specialize (Htrain
    ltac:(cbn; rewrite Fsd; apply Forall_app; split;
          [exact Hin | constructor; [apply Hex | constructor]])
    ltac:(cbn; apply Forall_app; split;
          [eapply Forall_impl; [| exact Hok]; now intros p [H _]
          | constructor; [apply Hprobs | constructor]])).
  cbv zeta in Htrain.
  assert (Hasz1 : alphabet_size (self w1) <> 1) by now rewrite Fasz.
  rewrite (model_refuses_targets _ _ _ _ Hasz1) in Htrain.
  match type of Htrain with _ = (_, ?w3) => exists w3 end.
  assert (Hif : fit_train_if_full l1 w1
                = (Raise ValueError, snd (train_speaker_policy_on_batch
                                            (batch_training_inputs l1)
                                            (message_probs_storage l1)
                                            (rewards_storage l1) w1))).
  { unfold fit_train_if_full. erewrite bind_ok by reflexivity.
    replace (batch_counter l1 =? batch_size (self w1)) with true
      by (symmetry; apply Nat.eqb_eq; cbn; lia).
    erewrite bind_raise; [reflexivity |]. now rewrite Htrain. }
  rewrite Htrain in Hif. cbn [snd] in Hif.
  split; [exact Hep |]. split; [exact Hif |].
  split; [unfold fit_body; erewrite bind_ok by exact Hep; exact Hif |].
  cbn [self np_random calls].
  split; [exact Hrec |]. split; [exact Hout |]. split; [exact Hprobs |].
  split; [exact Hg1 |].
  split; [exact Hts1 |]. split; [exact Hcfg1 |]. split; [exact Hm1 |].
  split; [reflexivity |]. split; [exact Hte1 |].
  split; [exact Hcalls1 |]. split; [exact Hep_calls | reflexivity].
Qed.

(** [fit] on a dataset that fills no batch. *)
Lemma fit_below (o : ifca) g cs data :
  random_contract N -> keras_contract K (alphabet_size o) ->
  Forall (well_formed (speaker_dim o)) data ->
  (batch_size o = 0 \/ length data < batch_size o) ->
  exists mps recs new l' w',
    fit_loop data (mkWorld o g cs) = (Ok l', w') /\
    fit data (mkWorld o g cs) = (Ok tt, w') /\
    (message_probs_storage l' = mps /\
     rewards_storage l' = map reward recs /\
     batch_counter l' = length data /\
     batch_training_inputs l' = map input_of data) /\
    Forall2 (episode_record (max_message_length o) (alphabet_size o)) data recs /\
    map (fun rec => (reward rec, chosen_target rec)) recs
    = fst (listener_outcomes (max_message_length o) data g) /\
    length mps = length data /\
    Forall (probs_ok (max_message_length o)) mps /\
    np_random w' = snd (listener_outcomes (max_message_length o) data g) /\
    training_stats (self w') = Some (if save_training_stats o then recs else []) /\
    config (self w') = config o /\
    speaker_model (self w') = speaker_model o /\
    arrays (self w') = arrays o /\
    testing_stats (self w') = testing_stats o /\
    calls w' = cs ++ new /\
    train_calls new = [].
Proof.
  intros Hr Hk Hdata Hlt.
  destruct (fit_for_each_below
              (max_message_length o) (alphabet_size o) (speaker_dim o) (batch_size o)
              (save_training_stats o) (save_testing_stats o) data Hr Hk Hdata
              fit_locals_init (mkWorld (set_training_stats (Some []) o) g cs) []
              eq_refl eq_refl Hlt)
    as (mps & recs & new & l' & w' & Hrun & (Hmps & Hrs & Hbc & Hbti) & Hrest).
  exists mps, recs, new, l', w'.
  assert (Hloop : fit_loop data (mkWorld o g cs) = (Ok l', w')).
  { unfold fit_loop. erewrite bind_ok by reflexivity. exact Hrun. }
  split; [exact Hloop |].
  split; [unfold fit; erewrite bind_ok by exact Hloop; reflexivity |].
  split; [repeat split; assumption |]. exact Hrest.
Qed.

(** [fit] on a dataset that fills a batch: the run ends in the training
    step on the first [batch_size] examples; what follows them is never
    looked at. *)
Lemma fit_full (o : ifca) g cs pre ex post :
  random_contract N -> keras_contract K (alphabet_size o) ->
  Forall (well_formed (speaker_dim o)) (pre ++ [ex]) ->
  alphabet_size o <> 1 ->
  length pre + 1 = batch_size o ->
  exists mps recs new l w1 l1 w2 w3,
    fit_loop pre (mkWorld o g cs) = (Ok l, w1) /\
    fit_episode l ex w1 = (Ok l1, w2) /\
    fit_train_if_full l1 w2 = (Raise ValueError, w3) /\
    fit_loop (pre ++ ex :: post) (mkWorld o g cs) = (Raise ValueError, w3) /\
    fit (pre ++ ex :: post) (mkWorld o g cs) = (Raise ValueError, w3) /\
    (message_probs_storage l1 = mps /\
     rewards_storage l1 = map reward recs /\
     batch_counter l1 = batch_size o /\
     batch_training_inputs l1 = map input_of (pre ++ [ex])) /\
    Forall2 (episode_record (max_message_length o) (alphabet_size o))
            (pre ++ [ex]) recs /\
    map (fun rec => (reward rec, chosen_target rec)) recs
    = fst (listener_outcomes (max_message_length o) (pre ++ [ex]) g) /\
    length mps = batch_size o /\
    Forall (probs_ok (max_message_length o)) mps /\
    np_random w3 = snd (listener_outcomes (max_message_length o) (pre ++ [ex]) g) /\
    training_stats (self w3) = Some (if save_training_stats o then recs else []) /\
    config (self w3) = config o /\
    speaker_model (self w3) = speaker_model o /\
    arrays (self w3)
    = mkBatchArrays (Some mps) (Some (map reward recs))
                    (Some (map input_of (pre ++ [ex])))
                    (Some (targets (map reward recs) mps))
                    (Some (concat (map input_of (pre ++ [ex])))) /\
    testing_stats (self w3) = testing_stats o /\
    calls w2 = cs ++ new /\
    train_calls new = [] /\
    calls w3 = calls w2
               ++ [KerasTrainOnBatch (concat (map input_of (pre ++ [ex])))
                                     (targets (map reward recs) mps)].
Proof.
  intros Hr Hk Hall Hasz Hbs.
  apply Forall_app in Hall. destruct Hall as [Hpre Hex].
  inversion Hex as [| ? ? Hex' _]; subst. clear Hex.
  destruct (fit_for_each_below
              (max_message_length o) (alphabet_size o) (speaker_dim o) (batch_size o)
              (save_training_stats o) (save_testing_stats o) pre Hr Hk Hpre
              fit_locals_init (mkWorld (set_training_stats (Some []) o) g cs) []
              eq_refl eq_refl ltac:(right; cbn; lia))
    as (mps & recs & new & l & w1 & Hrun & (Hmps & Hrs & Hbc & Hbti) & Hrecs & Hout
        & Hlen & Hok & Hg1 & Hts1 & Hcfg1 & Hm1 & Ha1 & Hte1 & Hcalls1 & Hnew).
  cbn [fit_locals_init message_probs_storage rewards_storage batch_counter
       batch_training_inputs app self np_random calls] in *.
  change (config (set_training_stats (Some []) o)) with (config o) in Hcfg1.
  change (speaker_model (set_training_stats (Some []) o)) with (speaker_model o) in Hm1.
  change (testing_stats (set_training_stats (Some []) o)) with (testing_stats o) in Hte1.
  destruct (fit_body_full
              (max_message_length o) (alphabet_size o) (speaker_dim o) (batch_size o)
              (save_training_stats o) (save_testing_stats o) l ex w1 _
              Hr Hk Hex' Hcfg1 Hts1 Hasz)
    as (probs & rec & ep & w2 & w3 & Hep & Hif & Hbody & Hrec & (Hrw & Hct) & Hprobs
        & Hg3 & Hts3 & Hcfg3 & Hm3 & Ha3 & Hte3 & Hcalls2 & Hep_calls & Hcalls3).
  { rewrite Hbc. cbn. exact Hbs. }
  { now rewrite Hbti, length_map, Hbc. }
  { now rewrite Hmps, Hlen, Hbc. }
  { rewrite Hrs, length_map, Hbc. cbn.
    apply Forall2_length in Hrecs. now rewrite <- Hrecs. }
  { rewrite Hbti. apply Forall_map. eapply Forall_impl; [| exact Hpre].
    intros e He. apply He. }
  { now rewrite Hmps. }
  cbv zeta in *.
  rewrite Hmps, Hrs, Hbc, Hbti in *. cbn [Nat.add] in *.
  assert (Hloop : fit_loop pre (mkWorld o g cs) = (Ok l, w1)).
  { unfold fit_loop. erewrite bind_ok by reflexivity. exact Hrun. }
  assert (Hstop : fit_loop (pre ++ ex :: post) (mkWorld o g cs)
                  = (Raise ValueError, w3)).
  { unfold fit_loop. erewrite bind_ok by reflexivity. rewrite for_each_app.
    erewrite bind_ok by exact Hrun. cbn [for_each].
    erewrite bind_raise; [reflexivity | exact Hbody]. }
  exists (mps ++ [probs]), (recs ++ [rec]), (new ++ ep), l, w1.
  eexists _, w2, w3.
  rewrite !map_app. cbn [map].
  rewrite listener_outcomes_app. cbn [fst snd listener_outcomes].
  rewrite <- Hg1.
  destruct (randint (length (candidates_of ex))
                    (draws (max_message_length o) (np_random w1))) as [i g3] eqn:Ei.
  cbn [fst snd] in *.
  split; [exact Hloop |]. split; [exact Hep |]. split; [exact Hif |].
  split; [exact Hstop |].
  split; [unfold fit; erewrite bind_raise; [reflexivity | exact Hstop] |].
  cbn [message_probs_storage rewards_storage batch_counter batch_training_inputs].
  split; [repeat split; lia |].
  split; [apply Forall2_app; [exact Hrecs | now constructor] |].
  split; [now rewrite Hout, Hrw, Hct |].
  split; [rewrite length_app, Hlen; cbn; lia |].
  split; [apply Forall_app; split; [exact Hok | now constructor] |].
  split; [exact Hg3 |].
  split; [rewrite Hts3; destruct (save_training_stats o); reflexivity |].
  split; [congruence |]. split; [congruence |].
  split; [exact Ha3 |]. split; [congruence |].
  split; [now rewrite Hcalls2, Hcalls1, app_assoc |].
  split; [now rewrite train_calls_app, Hnew, Hep_calls |].
  exact Hcalls3.
Qed.

(** A dataset of at least [bs] examples, for a positive [bs], splits at
    the example that fills the first batch. *)
Lemma split_at_batch {A} (data : list A) bs :
  0 < bs -> bs <= length data ->
  exists pre ex post,
    data = pre ++ ex :: post /\ length pre + 1 = bs /\ firstn bs data = pre ++ [ex].
Proof.
  intros Hpos Hle.
  destruct (skipn (bs - 1) data) as [| ex post] eqn:E.
  - apply (f_equal (@length A)) in E. rewrite length_skipn in E. cbn in E. lia.
  - exists (firstn (bs - 1) data), ex, post.
    assert (Hdata : data = firstn (bs - 1) data ++ ex :: post).
    { rewrite <- E. symmetry. apply firstn_skipn. }
    assert (Hlen : length (firstn (bs - 1) data) + 1 = bs).
    { rewrite length_firstn. lia. }
    split; [exact Hdata |]. split; [exact Hlen |].
    rewrite Hdata at 1. rewrite firstn_app.
    replace (bs - length (firstn (bs - 1) data)) with 1 by lia.
    rewrite firstn_all2 by lia. reflexivity.
Qed.

End FitDetail.

(** ** What a run of [fit] leaves behind *)

Section FitOutcome.
Import Py Np Networks.

(** The scenario of the specification: an alphabet of five symbols,
    messages of three, batches of two, two examples with four candidates
    each.  The second example fills the batch; the training step is
    reached once and the model refuses its targets, so the run ends in
    [ValueError] with the weights as they were and the batch still on the
    object. *)
Example fit_scenario :
  exists w',
    @fit Demo.numpy Demo.keras Demo.two_examples (Demo.start (Demo.agent true true))
    = (Raise ValueError, w') /\
    length (train_calls (calls w')) = 1 /\
    speaker_model (self w') = 0 /\
    X (arrays (self w')) = Some (map input_of Demo.two_examples) /\
    option_map (@length _) (r (arrays (self w'))) = Some 2 /\
    option_map (@length _) (training_stats (self w')) = Some 2.
Proof.
  remember (@fit Demo.numpy Demo.keras Demo.two_examples
              (Demo.start (Demo.agent true true))) as run eqn:E.
  vm_compute in E. subst run. eexists. split; [reflexivity |].
  repeat split.
Qed.

(** C2. The training steps of [fit].  In
    [IndependentFullyConnectedAgents] a dataset that fills no batch is
    never trained on and ends in the accumulators.  A dataset that fills
    one reaches the training step when exactly [batch_size] examples are
    accumulated, and that step ends the run: the model refuses the
    targets with [ValueError], so one training call is made, on the first
    [batch_size] examples, no weight changes, the accumulators hold the
    batch when the exception leaves the loop, and the examples after the
    batch are never looked at.  In [BaseAgents] the training step is
    invoked [n / batch_size] times, the k-th time after the k-th chunk of
    [batch_size] examples, and the counter ends at [n mod batch_size]. *)
Theorem fit_training_steps :
  (forall (N : Numpy) (K : Keras) (o : ifca) g cs data,
      random_contract N -> keras_contract K (alphabet_size o) ->
      Forall (well_formed (speaker_dim o)) data ->
      (batch_size o = 0 \/ length data < batch_size o) ->
      exists l' w' new,
        fit_loop data (mkWorld o g cs) = (Ok l', w') /\
        fit data (mkWorld o g cs) = (Ok tt, w') /\
        calls w' = cs ++ new /\
        train_calls new = [] /\
        speaker_model (self w') = speaker_model o /\
        batch_training_inputs l' = map input_of data /\
        length (message_probs_storage l') = length data /\
        length (rewards_storage l') = length data /\
        batch_counter l' = length data) /\
  (forall (N : Numpy) (K : Keras) (o : ifca) g cs pre ex post,
      random_contract N -> keras_contract K (alphabet_size o) ->
      Forall (well_formed (speaker_dim o)) (pre ++ [ex]) ->
      alphabet_size o <> 1 ->
      length pre + 1 = batch_size o ->
      exists l w1 l1 w2 w3 new Y,
        fit_loop pre (mkWorld o g cs) = (Ok l, w1) /\
        fit_episode l ex w1 = (Ok l1, w2) /\
        fit_train_if_full l1 w2 = (Raise ValueError, w3) /\
        fit (pre ++ ex :: post) (mkWorld o g cs) = (Raise ValueError, w3) /\
        calls w3 = cs ++ new /\
        train_calls new = [(concat (map input_of (pre ++ [ex])), Y)] /\
        length Y = batch_size o /\
        speaker_model (self w3) = speaker_model o /\
        batch_training_inputs l1 = map input_of (pre ++ [ex]) /\
        length (message_probs_storage l1) = batch_size o /\
        length (rewards_storage l1) = batch_size o /\
        batch_counter l1 = batch_size o /\
        X (arrays (self w3)) = Some (map input_of (pre ++ [ex]))) /\
  (forall (P : Agents.PolicyNetworks) (o : Agents.base_agents) cs data,
      Agents.listener_contract P -> Forall Agents.well_formed data ->
      exists w' chunks rest,
        Agents.fit data (Agents.mkWorld o cs) = (Ok tt, w') /\
        data = concat chunks ++ rest /\
        Forall (fun c => length c = Agents.batch_size o) chunks /\
        length chunks = length data / Agents.batch_size o /\
        length rest = length data mod Agents.batch_size o /\
        Agents.calls w' = cs ++ Agents.batches chunks ++ Agents.episodes rest /\
        Agents.batch_counter (Agents.self w') = Some (length rest)).
Proof.
  split; [| split].
  - intros N K o g cs data Hr Hk Hdata Hlt.
    destruct (fit_below o g cs data Hr Hk Hdata Hlt)
      as (mps & recs & new & l' & w' & Hloop & Hfit & (Hmps & Hrs & Hbc & Hbti) & Hrecs
          & _ & Hlen & _ & _ & _ & _ & Hm & _ & _ & Hcalls & Hnew).
    exists l', w', new. repeat split; try assumption.
    + now rewrite Hmps.
    + rewrite Hrs, length_map. symmetry. exact (Forall2_length Hrecs).
  - intros N K o g cs pre ex post Hr Hk Hall Hasz Hbs.
    destruct (fit_full o g cs pre ex post Hr Hk Hall Hasz Hbs)
      as (mps & recs & new & l & w1 & l1 & w2 & w3 & Hloop & Hep & Hif & _ & Hfit
          & (Hmps & Hrs & Hbc & Hbti) & Hrecs & _ & Hlen & _ & _ & _ & _ & Hm & Ha & _
          & Hcalls2 & Hnew & Hcalls3).
    assert (Hn : length recs = batch_size o).
    { rewrite <- (Forall2_length Hrecs), length_app. cbn. exact Hbs. }
    exists l, w1, l1, w2, w3,
      (new ++ [KerasTrainOnBatch (concat (map input_of (pre ++ [ex])))
                                 (targets (map reward recs) mps)]),
      (targets (map reward recs) mps).
    repeat split; try assumption.
    + now rewrite Hcalls3, Hcalls2, app_assoc.
    + now rewrite train_calls_app, Hnew.
    + rewrite length_targets; rewrite length_map; congruence.
    + now rewrite Hmps.
    + now rewrite Hrs, length_map.
    + now rewrite Ha.
  - intros P o cs data Hl Hdata.
    destruct (agents_fit_ok o cs data Hl Hdata)
      as (w' & chunks & rest & ts & Hrun & Hsplit & Hchunks & Hq & Hm & Hbc
          & Hcalls & _).
    exists w', chunks, rest. repeat split; assumption.
Qed.

Lemma fit_training_steps_witness :
  (exists l' w' new,
      @fit_loop Demo.numpy Demo.keras [hd ([], [], 0%Z) Demo.two_examples]
        (Demo.start (Demo.agent true true)) = (Ok l', w') /\
      @fit Demo.numpy Demo.keras [hd ([], [], 0%Z) Demo.two_examples]
        (Demo.start (Demo.agent true true)) = (Ok tt, w') /\
      calls w' = [] ++ new /\
      train_calls new = [] /\
      speaker_model (self w') = 0 /\
      batch_training_inputs l' = map input_of [hd ([], [], 0%Z) Demo.two_examples] /\
      length (message_probs_storage l') = 1 /\
      length (rewards_storage l') = 1 /\
      batch_counter l' = 1) /\
  (exists l w1 l1 w2 w3 new Y,
      @fit_loop Demo.numpy Demo.keras [hd ([], [], 0%Z) Demo.two_examples]
        (Demo.start (Demo.agent true true)) = (Ok l, w1) /\
      fit_episode l (nth 1 Demo.two_examples ([], [], 0%Z)) w1 = (Ok l1, w2) /\
      fit_train_if_full l1 w2 = (Raise ValueError, w3) /\
      @fit Demo.numpy Demo.keras Demo.two_examples (Demo.start (Demo.agent true true))
      = (Raise ValueError, w3) /\
      calls w3 = [] ++ new /\
      train_calls new = [(concat (map input_of Demo.two_examples), Y)] /\
      length Y = 2 /\
      speaker_model (self w3) = 0 /\
      batch_training_inputs l1 = map input_of Demo.two_examples /\
      length (message_probs_storage l1) = 2 /\
      length (rewards_storage l1) = 2 /\
      batch_counter l1 = 2 /\
      X (arrays (self w3)) = Some (map input_of Demo.two_examples)) /\
  (exists w' chunks rest,
      @Agents.fit Demo.networks Demo.onehot_examples
        (Demo.base_start (Demo.base_agent true true)) = (Ok tt, w') /\
      Demo.onehot_examples = concat chunks ++ rest /\
      Forall (fun c => length c = 2) chunks /\
      length chunks = 2 / 2 /\
      length rest = 2 mod 2 /\
      Agents.calls w' = [] ++ Agents.batches chunks ++ Agents.episodes rest /\
      Agents.batch_counter (Agents.self w') = Some (length rest)).
Proof.
  destruct fit_training_steps as (Hbelow & Hfull & Hagents).
  split; [| split].
  - apply (Hbelow Demo.numpy Demo.keras (Demo.agent true true) 0 []
             [hd ([], [], 0%Z) Demo.two_examples]
             demo_random_contract demo_keras_contract).
    + repeat constructor; discriminate.
    + right. cbn. lia.
  - apply (Hfull Demo.numpy Demo.keras (Demo.agent true true) 0 []
             [hd ([], [], 0%Z) Demo.two_examples]
             (nth 1 Demo.two_examples ([], [], 0%Z)) []
             demo_random_contract demo_keras_contract demo_two_examples_well_formed).
    + discriminate.
    + reflexivity.
  - exact (Hagents Demo.networks (Demo.base_agent true true) [] Demo.onehot_examples
             demo_listener_contract demo_onehot_examples_well_formed).
Defined.



(** With [save_training_stats] off, [fit] on one example returns and
    leaves an empty training log. *)
Lemma fit_without_saving_logs_nothing :
  exists w',
    @fit Demo.numpy Demo.keras [hd ([], [], 0%Z) Demo.two_examples]
      (Demo.start (Demo.agent false true)) = (Ok tt, w') /\
    training_stats (self w') = Some [] /\
    length [hd ([], [], 0%Z) Demo.two_examples] = 1.
Proof.
  remember (@fit Demo.numpy Demo.keras [hd ([], [], 0%Z) Demo.two_examples]
              (Demo.start (Demo.agent false true))) as run eqn:E.
  vm_compute in E. subst run. eexists. repeat split.
Qed.

(** C7, amended. With the statistics flags on (as they are by default),
    [fit] of [IndependentFullyConnectedAgents] on [n] examples that fill
    no batch leaves a training log of [n] records, [fit] of [BaseAgents]
    on [n] examples adds [n] records to its training log, which it does
    not reset, and [predict] on [n] examples leaves a testing log of [n]
    records. *)
Theorem statistics_log_lengths :
  (forall (N : Numpy) (K : Keras) (o : ifca) g cs data,
      random_contract N -> keras_contract K (alphabet_size o) ->
      Forall (well_formed (speaker_dim o)) data ->
      save_training_stats o = true ->
      (batch_size o = 0 \/ length data < batch_size o) ->
      exists w' ts,
        fit data (mkWorld o g cs) = (Ok tt, w') /\
        training_stats (self w') = Some ts /\
        length ts = length data) /\
  (forall (N : Numpy) (K : Keras) (o : ifca) g cs data,
      random_contract N -> argsort_contract N ->
      keras_contract K (alphabet_size o) ->
      Forall (well_formed (speaker_dim o)) data ->
      save_training_stats o = true -> save_testing_stats o = true ->
      exists w' ts,
        predict data (mkWorld o g cs) = (Ok tt, w') /\
        testing_stats (self w') = Some ts /\
        length ts = length data) /\
  (forall (P : Agents.PolicyNetworks) (o : Agents.base_agents) cs data,
      Agents.listener_contract P -> Forall Agents.well_formed data ->
      Agents.save_training_stats o = true ->
      exists w' ts,
        Agents.fit data (Agents.mkWorld o cs) = (Ok tt, w') /\
        Agents.training_stats (Agents.self w') = Agents.training_stats o ++ ts /\
        length ts = length data).
Proof.
  split; [| split].
  - intros N K o g cs data Hr Hk Hdata Hon Hlt.
    destruct (fit_below o g cs data Hr Hk Hdata Hlt)
      as (mps & recs & new & l' & w' & _ & Hfit & _ & Hrecs & _ & _ & _ & _ & Hts & _).
    exists w', recs. rewrite Hon in Hts. repeat split; try assumption.
    symmetry. exact (Forall2_length Hrecs).
  - intros N K o g cs data Hr Hs Hk Hdata Hon _.
    destruct (predict_ok o g cs data Hr Hs Hk Hdata) as (w' & ts & Hrun & Hts & Hlen).
    exists w', ts. rewrite Hon in Hlen. now repeat split.
  - intros P o cs data Hl Hdata Hon.
    destruct (agents_fit_ok o cs data Hl Hdata)
      as (w' & chunks & rest & ts & Hrun & _ & _ & _ & _ & _ & _ & _ & Hts & Hlen & _).
    exists w', ts. rewrite Hon in Hlen. now repeat split.
Qed.

Lemma statistics_log_lengths_witness :
  (exists w' ts,
      @fit Demo.numpy Demo.keras [hd ([], [], 0%Z) Demo.two_examples]
        (Demo.start (Demo.agent true true)) = (Ok tt, w') /\
      training_stats (self w') = Some ts /\
      length ts = length [hd ([], [], 0%Z) Demo.two_examples]) /\
  (exists w' ts,
      @predict Demo.numpy Demo.keras Demo.two_examples
        (Demo.start (Demo.agent true true)) = (Ok tt, w') /\
      testing_stats (self w') = Some ts /\
      length ts = length Demo.two_examples) /\
  (exists w' ts,
      @Agents.fit Demo.networks Demo.onehot_examples
        (Demo.base_start (Demo.base_agent true true)) = (Ok tt, w') /\
      Agents.training_stats (Agents.self w') = [] ++ ts /\
      length ts = length Demo.onehot_examples).
Proof.
  destruct statistics_log_lengths as (Hfit & Hpredict & Hagents).
  split; [| split].
  - apply (Hfit Demo.numpy Demo.keras (Demo.agent true true) 0 []
             [hd ([], [], 0%Z) Demo.two_examples]
             demo_random_contract demo_keras_contract).
    + repeat constructor; discriminate.
    + reflexivity.
    + right. cbn. lia.
  - exact (Hpredict Demo.numpy Demo.keras (Demo.agent true true) 0 []
             Demo.two_examples
             demo_random_contract demo_argsort_contract demo_keras_contract
             demo_two_examples_well_formed eq_refl eq_refl).
  - exact (Hagents Demo.networks (Demo.base_agent true true) [] Demo.onehot_examples
             demo_listener_contract demo_onehot_examples_well_formed eq_refl).
Defined.

End FitOutcome.

(** ** The training log and the rewards of [fit] *)

Section FitLog.
Import Py Np Networks.

Lemma episode_record_reward mml asz ex rec :
  episode_record mml asz ex rec ->
  (reward rec = 0%Z \/ reward rec = 1%Z) /\
  (reward rec = 1%Z ->
   nth_error (candidates_of ex) (Z.to_nat (snd ex)) = Some (chosen_target rec)).
Proof.
  intros (_ & _ & i & Hi & Hrw). rewrite Hrw. split.
  - unfold calculate_reward. destruct (_ =? _)%Z; auto.
  - unfold calculate_reward. destruct (Z.eqb_spec (Z.of_nat i) (snd ex)) as [<- |];
      [| discriminate].
    intros _. now rewrite Nat2Z.id.
Qed.

(** X8. With [save_training_stats] on, the training log [fit] leaves is
    the list of the episodes it made, in the order of the dataset: one
    for every example when the dataset fills no batch, one for each of
    the first [batch_size] examples when [fit] ends in the training step
    on them.  The record of an example holds its input, a message of
    [max_message_length] symbols below [alphabet_size], each closed by
    ['#'], one of its candidates as the chosen target and a reward of 0
    or 1; a reward of 1 goes with the candidate at the ground-truth
    index. *)
Theorem training_log_records :
  (forall (N : Numpy) (K : Keras) (o : ifca) g cs data,
      random_contract N -> keras_contract K (alphabet_size o) ->
      Forall (well_formed (speaker_dim o)) data ->
      save_training_stats o = true ->
      (batch_size o = 0 \/ length data < batch_size o) ->
      exists w' ts,
        fit data (mkWorld o g cs) = (Ok tt, w') /\
        training_stats (self w') = Some ts /\
        Forall2 (fun ex rec =>
                   episode_record (max_message_length o) (alphabet_size o) ex rec /\
                   (reward rec = 0%Z \/ reward rec = 1%Z) /\
                   (reward rec = 1%Z ->
                    nth_error (candidates_of ex) (Z.to_nat (snd ex))
                    = Some (chosen_target rec)))
                data ts) /\
  (forall (N : Numpy) (K : Keras) (o : ifca) g cs data,
      random_contract N -> keras_contract K (alphabet_size o) ->
      Forall (well_formed (speaker_dim o)) (firstn (batch_size o) data) ->
      save_training_stats o = true ->
      alphabet_size o <> 1 ->
      0 < batch_size o <= length data ->
      exists w' ts,
        fit data (mkWorld o g cs) = (Raise ValueError, w') /\
        training_stats (self w') = Some ts /\
        Forall2 (fun ex rec =>
                   episode_record (max_message_length o) (alphabet_size o) ex rec /\
                   (reward rec = 0%Z \/ reward rec = 1%Z) /\
                   (reward rec = 1%Z ->
                    nth_error (candidates_of ex) (Z.to_nat (snd ex))
                    = Some (chosen_target rec)))
                (firstn (batch_size o) data) ts).
Proof.
  split.
  - intros N K o g cs data Hr Hk Hdata Hsave Hlt.
    destruct (fit_below o g cs data Hr Hk Hdata Hlt)
      as (mps & recs & new & l' & w' & _ & Hfit & _ & Hrecs & _ & _ & _ & _ & Hts & _).
    exists w', recs. rewrite Hsave in Hts. split; [exact Hfit |]. split; [exact Hts |].
    eapply Forall2_impl; [| exact Hrecs]. cbn beta.
    intros ex rec Hrec. split; [exact Hrec |]. exact (episode_record_reward _ _ _ _ Hrec).
  - intros N K o g cs data Hr Hk Hdata Hsave Hasz [Hpos Hle].
    destruct (split_at_batch data (batch_size o) Hpos Hle)
      as (pre & ex & post & Hsplit & Hlen & Hfirst).
    rewrite Hfirst in *. rewrite Hsplit.
    destruct (fit_full o g cs pre ex post Hr Hk Hdata Hasz Hlen)
      as (mps & recs & new & l & w1 & l1 & w2 & w3 & _ & _ & _ & _ & Hfit & _ & Hrecs
          & _ & _ & _ & _ & Hts & _).
    exists w3, recs. rewrite Hsave in Hts. split; [exact Hfit |]. split; [exact Hts |].
    eapply Forall2_impl; [| exact Hrecs]. cbn beta.
    intros e rec Hrec. split; [exact Hrec |]. exact (episode_record_reward _ _ _ _ Hrec).
Qed.

Lemma training_log_records_witness :
  (exists w' ts,
      @fit Demo.numpy Demo.keras [hd ([], [], 0%Z) Demo.two_examples]
        (Demo.start (Demo.agent true true)) = (Ok tt, w') /\
      training_stats (self w') = Some ts /\
      Forall2 (fun ex rec =>
                 episode_record 3 5 ex rec /\
                 (reward rec = 0%Z \/ reward rec = 1%Z) /\
                 (reward rec = 1%Z ->
                  nth_error (candidates_of ex) (Z.to_nat (snd ex))
                  = Some (chosen_target rec)))
              [hd ([], [], 0%Z) Demo.two_examples] ts) /\
  (exists w' ts,
      @fit Demo.numpy Demo.keras Demo.two_examples (Demo.start (Demo.agent true true))
      = (Raise ValueError, w') /\
      training_stats (self w') = Some ts /\
      Forall2 (fun ex rec =>
                 episode_record 3 5 ex rec /\
                 (reward rec = 0%Z \/ reward rec = 1%Z) /\
                 (reward rec = 1%Z ->
                  nth_error (candidates_of ex) (Z.to_nat (snd ex))
                  = Some (chosen_target rec)))
              (firstn 2 Demo.two_examples) ts).
Proof.
  destruct training_log_records as (Hbelow & Hfull).
  split.
  - apply (Hbelow Demo.numpy Demo.keras (Demo.agent true true) 0 []
             [hd ([], [], 0%Z) Demo.two_examples]
             demo_random_contract demo_keras_contract).
    + repeat constructor; discriminate.
    + reflexivity.
    + right. cbn. lia.
  - apply (Hfull Demo.numpy Demo.keras (Demo.agent true true) 0 []
             Demo.two_examples demo_random_contract demo_keras_contract
             demo_two_examples_well_formed eq_refl).
    + discriminate.
    + cbn. lia.
Defined.





End FitLog.

(** ** Malformed examples *)

Section MalformedExamples.
Import Py Np Networks.

Lemma reshape_input_mismatch x d :
  length x <> d -> reshape x [1; d; 1] = Raise ValueError.
Proof.
  intros H. unfold reshape. cbn [fold_right].
  replace (1 * (d * (1 * 1))) with d by lia.
  now apply Nat.eqb_neq in H as ->.
Qed.

Lemma fit_raise {N : Numpy} {K : Keras} good bad rest e
    (w w1 w2 : world ifca) l1 :
  fit_loop good w = (Ok l1, w1) ->
  fit_episode l1 bad w1 = (Raise e, w2) ->
  fit (good ++ bad :: rest) w = (Raise e, w2).
Proof.
  intros Hgood Hbad. unfold fit, fit_loop in *.
  apply bind_ok_inv in Hgood as ([] & w0 & Hset & Hloop).
  erewrite bind_raise; [reflexivity |].
  erewrite bind_ok by exact Hset. rewrite for_each_app.
  erewrite bind_ok by exact Hloop. cbn [for_each].
  erewrite bind_raise; [reflexivity |].
  unfold fit_body. erewrite bind_raise; [reflexivity | exact Hbad].
Qed.

(** X11. [fit] stops at the first example it cannot process and keeps
    what the examples before it have done (here: examples that fill no
    batch).  An input that has not [speaker_dim] features raises
    [ValueError] before any call is made for the example: the object, the
    generator and the calls are those [fit] leaves on the examples before
    it.  An empty candidate list raises [ValueError] at the listener's
    pick, after the message has been sampled: the forward pass, the
    symbol draws and the pick are made, the generator is
    [max_message_length] uniform draws further, and no record is logged
    for the example. *)
Theorem fit_stops_at_malformed_example :
  (forall (N : Numpy) (K : Keras) (o : ifca) g cs good bad rest,
      random_contract N -> keras_contract K (alphabet_size o) ->
      Forall (well_formed (speaker_dim o)) good ->
      (batch_size o = 0 \/ length good < batch_size o) ->
      length (input_of bad) <> speaker_dim o ->
      exists w1,
        fit good (mkWorld o g cs) = (Ok tt, w1) /\
        fit (good ++ bad :: rest) (mkWorld o g cs) = (Raise ValueError, w1)) /\
  (forall (N : Numpy) (K : Keras) (o : ifca) g cs good bad rest,
      random_contract N -> keras_contract K (alphabet_size o) ->
      Forall (well_formed (speaker_dim o)) good ->
      (batch_size o = 0 \/ length good < batch_size o) ->
      length (input_of bad) = speaker_dim o -> candidates_of bad = [] ->
      exists w1 row,
        fit good (mkWorld o g cs) = (Ok tt, w1) /\
        Np.predict (speaker_model (self w1)) (input_of bad) = [row] /\
        fit (good ++ bad :: rest) (mkWorld o g cs)
        = (Raise ValueError,
           mkWorld (self w1)
                   (draws (max_message_length o) (np_random w1))
                   (calls w1
                    ++ KerasPredict (input_of bad)
                       :: repeat (NpRandomChoice (alphabet_size o)
                                                 (divide row (sum row)))
                                 (max_message_length o)
                    ++ [NpRandomRandint 0]))).
Proof.
  split.
  - intros N K o g cs good bad rest Hr Hk Hgood Hlt Hx.
    destruct (fit_below o g cs good Hr Hk Hgood Hlt)
      as (mps & recs & new & l1 & w1 & Hrun & Hfit & _ & _ & _ & _ & _ & _ & _ & Hcfg & _).
    assert (Fsd : speaker_dim (self w1) = speaker_dim o).
    { unfold config in Hcfg. now inversion Hcfg. }
    exists w1. split; [exact Hfit |].
    apply (fit_raise good bad rest ValueError _ w1 w1 l1 Hrun).
    destruct bad as [[x cands] t]. unfold input_of in Hx. cbn [fst] in Hx.
    unfold fit_episode. erewrite bind_raise; [reflexivity |].
    unfold sample_speaker_policy_for_message.
    erewrite bind_ok by reflexivity. unfold sample_message.
    erewrite bind_raise; [reflexivity |]. unfold lift_result.
    rewrite reshape_input_mismatch; [reflexivity | now rewrite Fsd].
  - intros N K o g cs good bad rest Hr Hk Hgood Hlt Hx Hc.
    destruct (fit_below o g cs good Hr Hk Hgood Hlt)
      as (mps & recs & new & l1 & w1 & Hrun & Hfit & _ & _ & _ & _ & _ & _ & _ & Hcfg & _).
    assert (Hf : max_message_length (self w1) = max_message_length o /\
                 alphabet_size (self w1) = alphabet_size o /\
                 speaker_dim (self w1) = speaker_dim o).
    { unfold config in Hcfg. now inversion Hcfg. }
    destruct Hf as (Fmml & Fasz & Fsd).
    destruct bad as [[x cands] t].
    unfold input_of, candidates_of in *. cbn [fst snd] in *. subst cands.
    destruct (sample_message_detail (speaker_model (self w1)) (speaker_dim (self w1))
                (max_message_length (self w1)) (alphabet_size (self w1)) x w1
                Hr ltac:(now rewrite Fasz) ltac:(now rewrite Fsd))
      as (row & syms & Hrow & _ & Hsample & _).
    exists w1, row. split; [exact Hfit |]. split; [exact Hrow |].
    apply (fit_raise good (x, [], t) rest ValueError _ w1 _ l1 Hrun).
    unfold fit_episode. erewrite bind_ok; cycle 1.
    { unfold sample_speaker_policy_for_message.
      erewrite bind_ok by reflexivity. exact Hsample. }
    cbn beta iota. erewrite bind_raise; [reflexivity |].
    unfold listener_policy. cbn [length]. rewrite random_randint_empty.
    cbn [self np_random calls]. rewrite Fmml, Fasz, <- app_assoc. reflexivity.
Qed.

Lemma fit_stops_at_malformed_example_witness :
  (exists w1,
      @fit Demo.numpy Demo.keras (firstn 1 Demo.two_examples)
        (Demo.start (Demo.agent true true)) = (Ok tt, w1) /\
      @fit Demo.numpy Demo.keras
        (firstn 1 Demo.two_examples ++ ([0; 1; 1]%Q, Demo.candidates4, 0%Z) :: [])
        (Demo.start (Demo.agent true true)) = (Raise ValueError, w1)) /\
  (exists w1 row,
      @fit Demo.numpy Demo.keras (firstn 1 Demo.two_examples)
        (Demo.start (Demo.agent true true)) = (Ok tt, w1) /\
      @Np.predict Demo.keras (speaker_model (self w1)) (input_of ([0; 1]%Q, [], 0%Z))
      = [row] /\
      @fit Demo.numpy Demo.keras
        (firstn 1 Demo.two_examples ++ ([0; 1]%Q, [], 0%Z) :: [])
        (Demo.start (Demo.agent true true))
      = (Raise ValueError,
         mkWorld (self w1) (draws 3 (np_random w1))
                 (calls w1
                  ++ KerasPredict (input_of ([0; 1]%Q, [], 0%Z))
                     :: repeat (NpRandomChoice 5 (divide row (sum row))) 3
                  ++ [NpRandomRandint 0]))).
Proof.
  destruct fit_stops_at_malformed_example as (Hdim & Hempty).
  split.
  - apply (Hdim Demo.numpy Demo.keras (Demo.agent true true) 0 []
             (firstn 1 Demo.two_examples) ([0; 1; 1]%Q, Demo.candidates4, 0%Z) []
             demo_random_contract demo_keras_contract).
    + repeat constructor; discriminate.
    + right. cbn. lia.
    + cbn. discriminate.
  - apply (Hempty Demo.numpy Demo.keras (Demo.agent true true) 0 []
             (firstn 1 Demo.two_examples) ([0; 1]%Q, [], 0%Z) []
             demo_random_contract demo_keras_contract).
    + repeat constructor; discriminate.
    + right. cbn. lia.
    + reflexivity.
    + reflexivity.
Defined.

End MalformedExamples.

(** ** The greedy message *)

Section SortedFacts.
Context {A : Type} (R : A -> A -> Prop).

Lemma StronglySorted_app_inv l1 l2 :
  StronglySorted R (l1 ++ l2) ->
  StronglySorted R l2 /\ (forall a b, In a l1 -> In b l2 -> R a b).
Proof.
  induction l1 as [| x l1 IH]; cbn [app]; intros H.
  - split; [exact H | intros a b []].
  - apply StronglySorted_inv in H as [Hs Hx]. destruct (IH Hs) as [H2 H12].
    split; [exact H2 |]. intros a b [<- | Ha] Hb.
    + rewrite Forall_forall in Hx. apply Hx, in_or_app. now right.
    + now apply H12.
Qed.

Lemma StronglySorted_snoc l a :
  StronglySorted (fun x y => R y x) l -> (forall x, In x l -> R a x) ->
  StronglySorted (fun x y => R y x) (l ++ [a]).
Proof.
  induction l as [| x l IH]; cbn [app]; intros Hs Ha.
  - repeat constructor.
  - apply StronglySorted_inv in Hs as [Hs Hx]. constructor.
    + apply IH; [exact Hs |]. intros y Hy. apply Ha. now right.
    + apply Forall_app. split; [exact Hx |]. constructor; [| constructor].
      apply Ha. now left.
Qed.

Lemma StronglySorted_rev l :
  StronglySorted R l -> StronglySorted (fun x y => R y x) (rev l).
Proof.
  induction l as [| x l IH]; cbn [rev]; intros Hs; [constructor |].
  apply StronglySorted_inv in Hs as [Hs Hx].
  apply StronglySorted_snoc; [now apply IH |].
  intros y Hy. apply in_rev in Hy. rewrite Forall_forall in Hx. now apply Hx.
Qed.

End SortedFacts.

Section MapSorted.
Context {A B : Type} (f : A -> B) (R : B -> B -> Prop).

Lemma StronglySorted_map l :
  StronglySorted (fun x y => R (f x) (f y)) l -> StronglySorted R (map f l).
Proof.
  induction 1 as [| x l _ IH Hx]; cbn [map]; constructor; [exact IH |].
  apply Forall_map. exact Hx.
Qed.

End MapSorted.

Section GreedyOrder.
Import Py Np Networks.

Lemma slice_last_suffix {A} k (xs : list A) :
  exists pre, xs = pre ++ slice_last k xs.
Proof.
  destruct k as [| k]; cbn [slice_last].
  - now exists [].
  - exists (firstn (length xs - S k) xs). symmetry. apply firstn_skipn.
Qed.

Lemma insert_index_sorted v i sorted :
  StronglySorted (fun a b => (nth a v 0 <= nth b v 0)%Q) sorted ->
  StronglySorted (fun a b => (nth a v 0 <= nth b v 0)%Q)
                 (Demo.insert_index v i sorted).
Proof.
  induction sorted as [| j js IH]; cbn [Demo.insert_index]; intros Hs.
  - repeat constructor.
  - destruct (Qle_bool (nth i v 0%Q) (nth j v 0%Q)) eqn:E.
    + apply Qle_bool_iff in E. apply StronglySorted_inv in Hs as [Hs Hj].
      constructor; [now constructor |]. constructor; [exact E |].
      eapply Forall_impl; [| exact Hj]. cbn beta. intros a Ha. lra.
    + assert (Hlt : (nth j v 0 <= nth i v 0)%Q).
      { destruct (Qlt_le_dec (nth j v 0%Q) (nth i v 0%Q)) as [H | H]; [lra |].
        apply Qle_bool_iff in H. congruence. }
      apply StronglySorted_inv in Hs as [Hs Hj]. constructor; [now apply IH |].
      apply Forall_forall. intros a Ha.
      apply (Permutation_in _ (insert_index_perm v i js)) in Ha.
      destruct Ha as [<- | Ha]; [exact Hlt |].
      rewrite Forall_forall in Hj. now apply Hj.
Qed.

Lemma demo_sorted_contract : sorted_contract Demo.numpy.
Proof.
  intros v. cbn. unfold Demo.insertion_argsort.
  induction (seq 0 (length v)) as [| i l IH]; cbn [fold_right]; [constructor |].
  now apply insert_index_sorted.
Qed.

(** X12. The greedy message lists the most probable symbols, the most
    probable first: the probabilities [infer_from_speaker_policy] returns
    never increase along the message, and no symbol left out of the
    message is more probable than a symbol in it. *)
Theorem greedy_message_is_most_probable :
  forall (N : Numpy) (K : Keras) x (w : world ifca),
    argsort_contract N -> sorted_contract N ->
    keras_contract K (alphabet_size (self w)) ->
    length x = speaker_dim (self w) ->
    exists row syms w',
      Np.predict (speaker_model (self w)) x = [row] /\
      infer_from_speaker_policy x w
      = (Ok (join "#" (map str syms),
             map (fun s => nth s (divide row (sum row)) 0%Q) syms), w') /\
      StronglySorted (fun p q => (q <= p)%Q)
                     (map (fun s => nth s (divide row (sum row)) 0%Q) syms) /\
      (forall s s',
          s < alphabet_size (self w) -> ~ In s syms -> In s' syms ->
          (nth s (divide row (sum row)) 0 <= nth s' (divide row (sum row)) 0)%Q).
Proof.
  intros N K x w Hperm Hsort Hk Hx.
  destruct (infer_ok x w Hperm Hk Hx) as (row & Hrow & Hlen & _ & Hrun).
  set (nrow := divide row (sum row)) in *.
  destruct (slice_last_suffix (max_message_length (self w)) (argsort nrow))
    as [pre Hpre].
  set (suf := slice_last (max_message_length (self w)) (argsort nrow)) in *.
  pose proof (Hsort nrow) as Hs. rewrite Hpre in Hs.
  apply StronglySorted_app_inv in Hs as [Hsuf Hcross].
  eexists row, (rev suf), _. split; [exact Hrow |]. split; [exact Hrun |]. split.
  - apply StronglySorted_map.
    apply (StronglySorted_rev (fun a b => (nth a nrow 0 <= nth b nrow 0)%Q)), Hsuf.
  - intros s s' Hs Hout Hin. apply in_rev in Hin. apply Hcross; [| exact Hin].
    assert (Hall : In s (argsort nrow)).
    { apply (Permutation_in _ (Permutation_sym (Hperm nrow))).
      apply in_seq. subst nrow. rewrite length_divide, Hlen. lia. }
    rewrite Hpre in Hall. apply in_app_or in Hall as [Hp | Hsf]; [exact Hp |].
    exfalso. apply Hout. now apply in_rev in Hsf.
Qed.

Lemma greedy_message_is_most_probable_witness :
  exists row syms w',
    @Np.predict Demo.keras 0 [0; 1]%Q = [row] /\
    @infer_from_speaker_policy Demo.numpy Demo.keras [0; 1]%Q
      (Demo.start (Demo.agent true true))
    = (Ok (join "#" (map str syms),
           map (fun s => nth s (divide row (sum row)) 0%Q) syms), w') /\
    StronglySorted (fun p q => (q <= p)%Q)
                   (map (fun s => nth s (divide row (sum row)) 0%Q) syms) /\
    (forall s s',
        s < 5 -> ~ In s syms -> In s' syms ->
        (nth s (divide row (sum row)) 0 <= nth s' (divide row (sum row)) 0)%Q).
Proof.
  apply (greedy_message_is_most_probable Demo.numpy Demo.keras [0; 1]%Q
           (Demo.start (Demo.agent true true))
           demo_argsort_contract demo_sorted_contract demo_keras_contract eq_refl).
Defined.

End GreedyOrder.

(** ** [VisaAgents] *)

Section VisaFit.
Import Py Agents Visa.
Context {P : PolicyNetworks} {D : DatasetWrapper}.

Lemma for_each_ext {S A B} (body1 body2 : B -> A -> M S B) xs :
  (forall acc x s, body1 acc x s = body2 acc x s) ->
  forall acc s, for_each body1 xs acc s = for_each body2 xs acc s.
Proof.
  intros Hext. induction xs as [| x xs IH]; intros acc s; [reflexivity |].
  cbn [for_each]. unfold bind. rewrite Hext.
  destruct (body2 acc x s) as [[b | e] s']; [apply IH | reflexivity].
Qed.

Lemma inherited_ok {A} (m : M Agents.world A) (w : world) a bw :
  m (Agents.mkWorld (base (self w)) (calls w)) = (Ok a, bw) ->
  inherited m w
  = (Ok a, mkWorld (set_base (Agents.self bw) (self w)) (data_generator w)
                   (Agents.calls bw)).
Proof. intros H. unfold inherited. now rewrite H. Qed.

(** A loop of inherited steps is the inherited loop. *)
Lemma inherited_for_each {A B} (body : B -> A -> M Agents.world B) xs :
  forall acc o g cs b bw,
    for_each body xs acc (Agents.mkWorld (base o) cs) = (Ok b, bw) ->
    for_each (fun acc x => inherited (body acc x)) xs acc (mkWorld o g cs)
    = (Ok b, mkWorld (set_base (Agents.self bw) o) g (Agents.calls bw)).
Proof.
  induction xs as [| x xs IH]; intros acc o g cs b bw H.
  - injection H as <- <-. destruct o. reflexivity.
  - cbn [for_each] in *. apply bind_ok_inv in H as (b1 & bw1 & Hbody & Hrest).
    erewrite bind_ok; cycle 1.
    { apply inherited_ok. exact Hbody. }
    cbn [self data_generator calls]. destruct bw1 as [o1 cs1].
    cbn [Agents.self Agents.calls].
    rewrite (IH b1 (set_base o1 o) g cs1 b bw Hrest). destruct o. reflexivity.
Qed.

(** The batches of [fit], one generator call after the other. *)
Lemma visa_batches_ok n :
  forall start o g cs bw,
    for_each fit_body (concat (fst (batches_of n g))) tt (Agents.mkWorld (base o) cs)
    = (Ok tt, bw) ->
    for_each fit_on_batch (seq start n) tt (mkWorld o g cs)
    = (Ok tt, mkWorld (set_base (Agents.self bw) o) (snd (batches_of n g))
                      (Agents.calls bw)).
Proof.
  induction n as [| n IH]; intros start o g cs bw H.
  - injection H as <-. destruct o. reflexivity.
  - cbn [batches_of] in *.
    destruct (training_batch_generator g) as [batch g1] eqn:Eb.
    destruct (batches_of n g1) as [rest g2] eqn:Er.
    cbn [fst snd concat] in *. rewrite for_each_app in H.
    apply bind_ok_inv in H as ([] & bw1 & Hbatch & Hrest).
    cbn [seq for_each]. erewrite bind_ok; cycle 1.
    { unfold fit_on_batch. erewrite bind_ok; cycle 1.
      { unfold generate. cbn [data_generator self calls]. rewrite Eb. reflexivity. }
      rewrite (for_each_ext _ (fun u b => inherited (fit_body u b)))
        by (intros [] x s; reflexivity).
      apply inherited_for_each. exact Hbatch. }
    destruct bw1 as [o1 cs1]. cbn [Agents.self Agents.calls] in *.
    specialize (IH (S start) (set_base o1 o) g1 cs1 bw).
    rewrite Er in IH. cbn [fst snd] in IH. rewrite (IH Hrest).
    destruct o. reflexivity.
Qed.

End VisaFit.

Section VisaFitClaims.
Import Py Agents Visa.

(** X13. [VisaAgents.fit] is [BaseAgents.fit] on the examples of the
    [n_batches] batches of the generator, one after the other: the batch
    counter carries over from one batch of the generator to the next, so
    a training step is made after every [batch_size] examples wherever
    the batches of the generator end, [total / batch_size] steps in all;
    the generator is left [n_batches] calls further. *)
Theorem visa_fit_trains_across_batches :
  forall (P : PolicyNetworks) (D : DatasetWrapper) (o : visa_agents) g cs,
    listener_contract P ->
    Forall well_formed (concat (fst (batches_of (n_batches o) g))) ->
    exists w' bw' chunks rest,
      Visa.fit (mkWorld o g cs) = (Ok tt, w') /\
      Agents.fit (concat (fst (batches_of (n_batches o) g)))
                 (Agents.mkWorld (base o) cs) = (Ok tt, bw') /\
      self w' = set_base (Agents.self bw') o /\
      data_generator w' = snd (batches_of (n_batches o) g) /\
      concat (fst (batches_of (n_batches o) g)) = concat chunks ++ rest /\
      Forall (fun c => length c = batch_size (base o)) chunks /\
      length chunks
      = length (concat (fst (batches_of (n_batches o) g))) / batch_size (base o) /\
      calls w' = cs ++ batches chunks ++ episodes rest.
Proof.
  intros P D o g cs Hl Hdata.
  destruct (agents_fit_ok (base o) cs _ Hl Hdata)
    as (bw' & chunks & rest & ts & Hrun & Hsplit & Hchunks & Hq & _ & _ & Hcalls & _).
  exists (mkWorld (set_base (Agents.self bw') o)
                  (snd (batches_of (n_batches o) g)) (Agents.calls bw')),
    bw', chunks, rest.
  cbn [self data_generator calls]. repeat split; try assumption.
  unfold Agents.fit in Hrun.
  apply bind_ok_inv in Hrun as ([] & bw1 & H1 & Hrun).
  apply bind_ok_inv in Hrun as ([] & bw2 & H2 & Hrun).
  injection H1 as <-. injection H2 as <-. cbn [Agents.self Agents.calls] in Hrun.
  unfold Visa.fit.
  erewrite bind_ok by (apply inherited_ok; reflexivity).
  erewrite bind_ok by (apply inherited_ok; reflexivity).
  erewrite bind_ok by reflexivity.
  cbn [self data_generator calls Agents.self Agents.calls base set_base n_batches].
  set (o2 := set_base (set_batch_counter (Some 0)
                         (set_total_training_reward (Some 0%Z) (base o)))
                      (set_base (set_total_training_reward (Some 0%Z) (base o)) o)).
  rewrite (visa_batches_ok (n_batches o) 0 o2 g cs bw' Hrun).
  destruct o. reflexivity.
Qed.

End VisaFitClaims.

Section VisaFitExample.
Import Py Agents Visa.

Lemma three_examples_well_formed :
  Forall well_formed (VisaDemo.three_examples ++ VisaDemo.three_examples ++ []).
Proof. repeat constructor; discriminate. Qed.

Lemma visa_fit_trains_across_batches_witness :
  exists w' bw' chunks rest,
    @Visa.fit Demo.networks VisaDemo.wrapper
      (VisaDemo.start (VisaDemo.agent true true)) = (Ok tt, w') /\
    @Agents.fit Demo.networks
      (concat (fst (@batches_of VisaDemo.wrapper 2 0)))
      (Agents.mkWorld (base (VisaDemo.agent true true)) []) = (Ok tt, bw') /\
    self w' = set_base (Agents.self bw') (VisaDemo.agent true true) /\
    data_generator w' = snd (@batches_of VisaDemo.wrapper 2 0) /\
    concat (fst (@batches_of VisaDemo.wrapper 2 0)) = concat chunks ++ rest /\
    Forall (fun c => length c = 2) chunks /\
    length chunks = length (concat (fst (@batches_of VisaDemo.wrapper 2 0))) / 2 /\
    calls w' = [] ++ batches chunks ++ episodes rest.
Proof.
  apply (visa_fit_trains_across_batches Demo.networks VisaDemo.wrapper
           (VisaDemo.agent true true) 0 [] demo_listener_contract
           three_examples_well_formed).
Defined.

End VisaFitExample.

Section VisaEvaluation.
Import Py Agents Visa.
Context {P : PolicyNetworks} {D : DatasetWrapper} {L : ListenerInference}.

(** The object after the two greedy calls of an episode. *)
Let inferred (s : speaker) (l : listener) (o : visa_agents) : visa_agents :=
  set_base (set_listener_model l (set_speaker_model s (base o))) o.

Lemma evaluate_example_ok record tr ex (w : world) :
  inference_contract -> well_formed ex ->
  exists s l rec,
    logged_episode ex rec /\
    evaluate_example record tr ex w
    = bind (record rec) (fun _ => ret (tr + reward rec)%Z)
           (mkWorld (inferred s l (self w)) (data_generator w)
                    (calls w ++ [SpeakerInfer; ListenerInfer])).
Proof.
  intros Hl Hex. destruct ex as [[x cands] onehot]. destruct Hex as [Hne Hlen].
  destruct (infer_from_speaker_policy x (speaker_model (base (self w))))
    as [[m mp] s] eqn:Es.
  pose proof (Hl m cands (listener_model (base (self w))) Hne) as Ha.
  destruct (infer_from_listener_policy_pair m cands (listener_model (base (self w))))
    as [[a lp] l] eqn:El.
  cbn [fst] in Ha.
  destruct (calculate_reward_in_range a onehot ltac:(lia)) as [rw Hrw].
  exists s, l, (mkStats rw x m a). split.
  { cbn [logged_episode input chosen_target_idx reward]. now repeat split. }
  unfold evaluate_example.
  erewrite bind_ok; cycle 1.
  { apply inherited_ok. unfold on_speaker.
    cbv beta iota delta [bind log gets Agents.set_self modify ret].
    cbn [Agents.self Agents.calls]. rewrite Es. reflexivity. }
  cbn beta iota. erewrite bind_ok; cycle 1.
  { apply inherited_ok. unfold on_listener.
    cbv beta iota delta [bind log gets Agents.set_self modify ret].
    cbn [Agents.self Agents.calls self calls base set_base listener_model
         set_speaker_model].
    rewrite El. reflexivity. }
  cbn beta iota. erewrite bind_ok by (unfold lift_result; rewrite Hrw; reflexivity).
  cbn [Agents.self Agents.calls self calls data_generator reward].
  unfold inferred. rewrite <- app_assoc. destruct (self w). reflexivity.
Qed.

Context (record : stats -> M world unit).
Context (sel : visa_agents -> option (list stats)) (flag : visa_agents -> bool).
Context (keep : visa_agents -> visa_agents -> Prop).
Hypothesis keep_refl : forall o, keep o o.
Hypothesis keep_trans : forall o1 o2 o3, keep o1 o2 -> keep o2 o3 -> keep o1 o3.
Hypothesis keep_inferred : forall s l o, keep o (inferred s l o).
Hypothesis sel_inferred : forall s l o, sel (inferred s l o) = sel o.
Hypothesis flag_inferred : forall s l o, flag (inferred s l o) = flag o.
Hypothesis record_ok :
  forall rec (w : world) log,
    sel (self w) = Some log ->
    exists o',
      record rec w = (Ok tt, mkWorld o' (data_generator w) (calls w)) /\
      sel o' = Some (log ++ if flag (self w) then [rec] else []) /\
      flag o' = flag (self w) /\
      keep (self w) o'.

Lemma evaluate_loop_ok exs :
  inference_contract -> Forall well_formed exs ->
  forall tr (w : world) log,
    sel (self w) = Some log ->
    exists tr' o' recs,
      for_each (evaluate_example record) exs tr w
      = (Ok tr', mkWorld o' (data_generator w) (calls w ++ inferences exs)) /\
      Forall2 logged_episode exs recs /\
      sel o' = Some (log ++ if flag (self w) then recs else []) /\
      flag o' = flag (self w) /\
      keep (self w) o'.
Proof.
  intros Hl Hexs. induction Hexs as [| ex exs Hex _ IH]; intros tr w log Hlog.
  - exists tr, (self w), []. cbn [for_each inferences flat_map].
    rewrite !app_nil_r. destruct w. cbn [self data_generator calls] in *.
    repeat split; try constructor; try apply keep_refl.
    rewrite Hlog. now destruct (flag _); rewrite app_nil_r.
  - destruct (evaluate_example_ok record tr ex w Hl Hex) as (s & l & rec & Hrec & Hstep).
    set (w1 := mkWorld (inferred s l (self w)) (data_generator w)
                       (calls w ++ [SpeakerInfer; ListenerInfer])) in *.
    destruct (record_ok rec w1 log) as (o2 & Hrecord & Hsel2 & Hflag2 & Hkeep2).
    { subst w1. cbn [self]. now rewrite sel_inferred. }
    destruct (IH (tr + reward rec)%Z
                 (mkWorld o2 (data_generator w1) (calls w1)) _ Hsel2)
      as (tr' & o' & recs & Hrun & Hrecs & Hsel' & Hflag' & Hkeep').
    subst w1. cbn [self data_generator calls] in *.
    rewrite flag_inferred in *.
    exists tr', o', (rec :: recs). split; [| repeat split].
    + cbn [for_each]. unfold bind at 1. rewrite Hstep.
      unfold bind at 1. rewrite Hrecord. unfold ret at 1. rewrite Hrun.
      cbn [inferences flat_map app]. now rewrite <- app_assoc.
    + now constructor.
    + rewrite Hsel', Hflag2. destruct (flag (self w)); cbn [app];
        now rewrite <- app_assoc.
    + congruence.
    + eapply keep_trans; [apply keep_inferred |].
      eapply keep_trans; eassumption.
Qed.

End VisaEvaluation.

Section VisaEvaluationClaims.
Import Py Agents Visa.

Lemma visa_predict_keep_refl {P : PolicyNetworks} (o : visa_agents) : predict_keep o o.
Proof. repeat split. Qed.

Lemma visa_predict_keep_trans {P : PolicyNetworks} (o1 o2 o3 : visa_agents) :
  predict_keep o1 o2 -> predict_keep o2 o3 -> predict_keep o1 o3.
Proof.
  intros (Hs1 & ? & ? & ?) (Hs2 & ? & ? & ?). split.
  - eapply same_training_side_trans; eassumption.
  - repeat split; congruence.
Qed.

Lemma visa_evaluation_keep_refl {P : PolicyNetworks} (o : visa_agents) :
  evaluation_keep o o.
Proof. repeat split. Qed.

Lemma visa_evaluation_keep_trans {P : PolicyNetworks} (o1 o2 o3 : visa_agents) :
  evaluation_keep o1 o2 -> evaluation_keep o2 o3 -> evaluation_keep o1 o3.
Proof.
  intros (Hs1 & ? & ? & ?) (Hs2 & ? & ? & ?). split.
  - eapply same_training_side_trans; eassumption.
  - repeat split; congruence.
Qed.

(** X14. [VisaAgents.predict] returns on a test set of well-formed
    examples, after one call of [testing_set_generator] and the two
    [infer] calls of every example, in order; the testing log is started
    afresh and, when [save_testing_stats] is on, holds one record for
    every example, with a chosen index in the candidate list and its
    reward ([save_training_stats] plays no part); the training side of the
    object and the log of [evaluate_on_training_set] are left alone. *)
Theorem visa_predict_log :
  forall (P : PolicyNetworks) (D : DatasetWrapper) (L : ListenerInference)
         (o : visa_agents) g cs,
    inference_contract ->
    Forall well_formed (fst (testing_set_generator g)) ->
    exists w' recs,
      Visa.predict (mkWorld o g cs) = (Ok tt, w') /\
      data_generator w' = snd (testing_set_generator g) /\
      calls w' = cs ++ inferences (fst (testing_set_generator g)) /\
      Forall2 logged_episode (fst (testing_set_generator g)) recs /\
      testing_stats (base (self w'))
      = (if save_testing_stats (base o) then recs else []) /\
      predict_keep o (self w').
Proof.
  intros P D L o g cs Hl Hexs.
  destruct (testing_set_generator g) as [test_set g1] eqn:Eg. cbn [fst snd] in *.
  set (o0 := set_base (set_testing_stats [] (base o)) o).
  destruct (evaluate_loop_ok record_testing
              (fun o => Some (testing_stats (base o)))
              (fun o => save_testing_stats (base o)) predict_keep
              visa_predict_keep_refl visa_predict_keep_trans
              ltac:(intros; repeat split) ltac:(reflexivity) ltac:(reflexivity))
    with (exs := test_set) (tr := 0%Z) (w := mkWorld o0 g1 cs) (log := @nil stats)
    as (tr' & o' & recs & Hrun & Hrecs & Hsel & Hflag & Hkeep);
    try assumption; try reflexivity.
  { intros rec w log Hlog. injection Hlog as <-. unfold record_testing.
    erewrite bind_ok by reflexivity.
    destruct (save_testing_stats (base (self w))) eqn:Hsave.
    - eexists. split.
      { unfold inherited, Agents.set_self, modify.
        cbn [Agents.self Agents.calls]. reflexivity. }
      cbn [Agents.self Agents.calls base set_base testing_stats set_testing_stats
           save_testing_stats].
      rewrite Hsave. now repeat split.
    - exists (self w). destruct w. cbn [self data_generator calls] in *.
      rewrite Hsave, app_nil_r. repeat split. }
  exists (mkWorld o' g1 (cs ++ inferences test_set)), recs.
  cbn [self data_generator calls] in *. injection Hsel as Hsel.
  split; [| split; [reflexivity | split; [reflexivity | split; [exact Hrecs |]]]].
  - unfold Visa.predict.
    erewrite bind_ok by (apply inherited_ok; reflexivity).
    erewrite bind_ok; cycle 1.
    { unfold generate. cbn [self data_generator calls Agents.self Agents.calls].
      rewrite Eg. reflexivity. }
    fold o0. erewrite bind_ok by exact Hrun. reflexivity.
  - split.
    + rewrite Hsel. subst o0. cbn. now destruct (save_testing_stats (base o)).
    + destruct Hkeep as (Hside & ? & ? & ?). subst o0. cbn in *.
      split; [| repeat split; assumption].
      destruct Hside as (? & ? & ? & ?). repeat split; assumption.
Qed.

(** X15. [VisaAgents.evaluate_on_training_set] returns on well-formed
    examples, after one call of [training_set_evaluation_generator] and
    the two [infer] calls of every example, in order; its log,
    [training_eval_stats], is started afresh and, when
    [save_training_stats] is on, holds one record for every example; the
    training log, the testing log and the rest of the training side of the
    object are left alone. *)
Theorem visa_evaluate_on_training_set_log :
  forall (P : PolicyNetworks) (D : DatasetWrapper) (L : ListenerInference)
         (o : visa_agents) g cs,
    inference_contract ->
    Forall well_formed (fst (training_set_evaluation_generator g)) ->
    exists w' recs,
      evaluate_on_training_set (mkWorld o g cs) = (Ok tt, w') /\
      data_generator w' = snd (training_set_evaluation_generator g) /\
      calls w' = cs ++ inferences (fst (training_set_evaluation_generator g)) /\
      Forall2 logged_episode (fst (training_set_evaluation_generator g)) recs /\
      training_eval_stats (self w')
      = Some (if save_training_stats (base o) then recs else []) /\
      evaluation_keep o (self w').
Proof.
  intros P D L o g cs Hl Hexs.
  destruct (training_set_evaluation_generator g) as [eval_set g1] eqn:Eg.
  cbn [fst snd] in *.
  set (o0 := set_training_eval_stats (Some []) o).
  destruct (evaluate_loop_ok record_training_eval
              training_eval_stats
              (fun o => save_training_stats (base o)) evaluation_keep
              visa_evaluation_keep_refl visa_evaluation_keep_trans
              ltac:(intros; repeat split) ltac:(reflexivity) ltac:(reflexivity))
    with (exs := eval_set) (tr := 0%Z) (w := mkWorld o0 g1 cs) (log := @nil stats)
    as (tr' & o' & recs & Hrun & Hrecs & Hsel & Hflag & Hkeep);
    try assumption; try reflexivity.
  { intros rec w log Hlog. unfold record_training_eval.
    erewrite bind_ok by reflexivity.
    destruct (save_training_stats (base (self w))) eqn:Hsave.
    - rewrite Hlog. eexists. split; [reflexivity |].
      cbn [training_eval_stats set_training_eval_stats base].
      rewrite Hsave. now repeat split.
    - exists (self w). destruct w. cbn [self data_generator calls] in *.
      rewrite Hlog, app_nil_r. rewrite Hsave. repeat split. }
  exists (mkWorld o' g1 (cs ++ inferences eval_set)), recs.
  cbn [self data_generator calls] in *.
  split; [| split; [reflexivity | split; [reflexivity | split; [exact Hrecs |]]]].
  - unfold evaluate_on_training_set.
    erewrite bind_ok by reflexivity.
    erewrite bind_ok; cycle 1.
    { unfold generate. cbn [self data_generator calls]. rewrite Eg. reflexivity. }
    fold o0. erewrite bind_ok by exact Hrun. reflexivity.
  - split.
    + rewrite Hsel. subst o0. cbn. now destruct (save_training_stats (base o)).
    + destruct Hkeep as (Hside & ? & ? & ?). subst o0. cbn in *.
      split; [| repeat split; assumption]. exact Hside.
Qed.

End VisaEvaluationClaims.

Section VisaEvaluationExample.
Import Py Agents Visa.

Lemma demo_inference_contract :
  @inference_contract Demo.networks VisaDemo.inference.
Proof.
  intros m cands l Hne. cbn. destruct cands; [congruence | cbn; lia].
Qed.

Lemma three_examples_each_well_formed : Forall well_formed VisaDemo.three_examples.
Proof. repeat constructor; discriminate. Qed.

Lemma visa_predict_log_witness :
  exists w' recs,
    @Visa.predict Demo.networks VisaDemo.wrapper VisaDemo.inference
      (VisaDemo.start (VisaDemo.agent true true)) = (Ok tt, w') /\
    data_generator w' = 1 /\
    calls w' = [] ++ inferences Demo.onehot_examples /\
    Forall2 logged_episode Demo.onehot_examples recs /\
    testing_stats (base (self w')) = recs /\
    predict_keep (VisaDemo.agent true true) (self w').
Proof.
  apply (visa_predict_log Demo.networks VisaDemo.wrapper VisaDemo.inference
           (VisaDemo.agent true true) 0 [] demo_inference_contract
           demo_onehot_examples_well_formed).
Defined.

Lemma visa_evaluate_on_training_set_log_witness :
  exists w' recs,
    @evaluate_on_training_set Demo.networks VisaDemo.wrapper VisaDemo.inference
      (VisaDemo.start (VisaDemo.agent true true)) = (Ok tt, w') /\
    data_generator w' = 1 /\
    calls w' = [] ++ inferences VisaDemo.three_examples /\
    Forall2 logged_episode VisaDemo.three_examples recs /\
    training_eval_stats (self w') = Some recs /\
    evaluation_keep (VisaDemo.agent true true) (self w').
Proof.
  apply (visa_evaluate_on_training_set_log Demo.networks VisaDemo.wrapper
           VisaDemo.inference (VisaDemo.agent true true) 0 []
           demo_inference_contract three_examples_each_well_formed).
Defined.

End VisaEvaluationExample.

(** ** The bookkeeping of [BaseAgents.fit] *)

Section AgentsBookkeeping.
Import Py Agents.
Context {P : PolicyNetworks}.

Lemma reward_total_app recs recs' :
  reward_total (recs ++ recs') = (reward_total recs + reward_total recs')%Z.
Proof.
  unfold reward_total. induction recs as [| r recs IH]; cbn [app map fold_right].
  - reflexivity.
  - rewrite IH. lia.
Qed.

Lemma logged_reward_01 ex rec :
  logged_episode ex rec -> reward rec = 0%Z \/ reward rec = 1%Z.
Proof.
  destruct ex as [[x cands] onehot]. intros (_ & _ & H).
  unfold calculate_reward in H. destruct (getitem onehot _); [| discriminate].
  destruct (Qeq_bool _ _); injection H as <-; auto.
Qed.

Lemma reward_total_bounds exs recs :
  Forall2 logged_episode exs recs ->
  (0 <= reward_total recs <= Z.of_nat (length exs))%Z.
Proof.
  unfold reward_total.
  induction 1 as [| ex rec exs recs Hrec _ IH]; cbn [map fold_right length]; [lia |].
  destruct (logged_reward_01 ex rec Hrec) as [-> | ->]; lia.
Qed.

(** One episode of [fit], in full. *)
Lemma sample_from_networks_on_batch_detail x cands onehot (w : world) t c :
  listener_contract P -> well_formed (x, cands, onehot) ->
  total_training_reward (self w) = Some t ->
  batch_counter (self w) = Some c ->
  exists rec w',
    logged_episode (x, cands, onehot) rec /\
    sample_from_networks_on_batch x cands onehot w = (Ok tt, w') /\
    calls w' = calls w ++ episode_calls /\
    config (self w') = config (self w) /\
    batch_counter (self w') = Some (c + 1) /\
    total_training_reward (self w') = Some (t + reward rec)%Z /\
    training_stats (self w')
    = training_stats (self w)
        ++ (if save_training_stats (self w) then [rec] else []) /\
    testing_stats (self w') = testing_stats (self w).
Proof.
  intros [Hl _] [Hne Hlen] Ht Hc.
  destruct w as [[bsz sm lm st se trs tes tot bc] cs0].
  cbn [self total_training_reward batch_counter] in Ht, Hc. subst tot bc.
  destruct (sample_from_speaker_policy x sm) as [[m sp] s1] eqn:Es.
  specialize (Hl m cands lm Hne).
  destruct (sample_from_listener_policy m cands lm) as [[a lp] l1] eqn:El.
  cbn [fst] in Hl.
  destruct (calculate_reward_in_range a onehot ltac:(lia)) as [rw Hrw].
  exists (mkStats rw x m a).
  destruct st; (eexists; split;
    [ cbn [logged_episode input chosen_target_idx reward]; now repeat split
    | split;
      [ unfold sample_from_networks_on_batch, on_speaker, on_listener, attr;
        cbv beta iota delta [bind log gets set_self modify ret lift_result raise];
        simpl; rewrite Es; simpl; rewrite El; rewrite Hrw; simpl; reflexivity
      | simpl; rewrite <- ?app_assoc, ?app_nil_r; now repeat split ] ]).
Qed.

Lemma agents_fit_for_each_detail bs st se data :
  listener_contract P -> Forall well_formed data ->
  forall (w : world) t c,
  config (self w) = (bs, st, se) ->
  total_training_reward (self w) = Some t ->
  batch_counter (self w) = Some c ->
  exists w' recs c',
    for_each fit_body data tt w = (Ok tt, w') /\
    Forall2 logged_episode data recs /\
    training_stats (self w')
    = training_stats (self w) ++ (if st then recs else []) /\
    total_training_reward (self w') = Some (t + reward_total recs)%Z /\
    batch_counter (self w') = Some c' /\
    config (self w') = config (self w).
Proof.
  intros Hl Hdata. induction Hdata as [| ex data Hex _ IH]; intros w t c Hcfg Ht Hc.
  - exists w, [], c. cbn [for_each reward_total map fold_right].
    rewrite Z.add_0_r. repeat split; try assumption; try constructor.
    now destruct st; rewrite app_nil_r.
  - destruct ex as [[x cands] onehot].
    destruct (sample_from_networks_on_batch_detail x cands onehot w t c Hl Hex Ht Hc)
      as (rec & w1 & Hrec & Hrun1 & _ & Hcfg1 & Hc1 & Ht1 & Hts1 & _).
    assert (Hf : batch_size (self w1) = bs /\ save_training_stats (self w) = st).
    { rewrite Hcfg in Hcfg1. unfold config in Hcfg, Hcfg1.
      split; [now inversion Hcfg1 | now inversion Hcfg]. }
    destruct Hf as (Fbs & Fst).
    assert (Hstep : exists w2 c2,
               fit_body tt (x, cands, onehot) w = (Ok tt, w2) /\
               config (self w2) = config (self w1) /\
               total_training_reward (self w2) = total_training_reward (self w1) /\
               training_stats (self w2) = training_stats (self w1) /\
               batch_counter (self w2) = Some c2).
    { unfold fit_body. erewrite bind_ok by exact Hrun1.
      erewrite bind_ok by (apply attr_ok; exact Hc1).
      erewrite bind_ok by reflexivity.
      destruct (c + 1 =? batch_size (self w1)).
      - destruct (train_networks_on_batch_ok w1)
          as (w2 & Hrun2 & _ & Hcfg2 & Hc2 & Ht2 & Hts2 & _).
        exists w2, 0. now repeat split.
      - exists w1, (c + 1). now repeat split. }
    destruct Hstep as (w2 & c2 & Hrun2 & Hcfg2 & Ht2 & Hts2 & Hc2).
    destruct (IH w2 (t + reward rec)%Z c2) as (w' & recs & c' & Hrun & Hrecs & Hts' & Ht' & Hc' & Hcfg');
      [congruence | congruence | exact Hc2 |].
    exists w', (rec :: recs), c'. repeat split.
    + cbn [for_each]. erewrite bind_ok by exact Hrun2. exact Hrun.
    + now constructor.
    + rewrite Hts', Hts2, Hts1, Fst. destruct st; cbn [app];
        now rewrite <- ?app_assoc, ?app_nil_r.
    + rewrite Ht'. change (rec :: recs) with ([rec] ++ recs).
      rewrite reward_total_app. unfold reward_total at 2.
      cbn [map fold_right]. f_equal. lia.
    + exact Hc'.
    + congruence.
Qed.

End AgentsBookkeeping.

Section AgentsBookkeepingClaims.
Import Py Agents.

(** X17. [BaseAgents.fit] counts what the listener got right:
    [total_training_reward] starts at 0 and ends at the sum of the rewards
    of the episodes of this run, each 0 or 1, so between 0 and the number
    of examples; every episode has a chosen index in its candidate list
    and the reward of that choice, and with [save_training_stats] on the
    episodes are the records this run appends to the training log, in the
    order of the dataset. *)
Theorem fit_counts_rewards :
  forall (P : PolicyNetworks) (o : base_agents) cs data,
    listener_contract P -> Forall well_formed data ->
    exists w' recs,
      fit data (mkWorld o cs) = (Ok tt, w') /\
      Forall2 logged_episode data recs /\
      training_stats (self w')
      = training_stats o ++ (if save_training_stats o then recs else []) /\
      total_training_reward (self w') = Some (reward_total recs) /\
      (0 <= reward_total recs <= Z.of_nat (length data))%Z.
Proof.
  intros P o cs data Hl Hdata.
  set (o0 := set_batch_counter (Some 0) (set_total_training_reward (Some 0%Z) o)).
  destruct (agents_fit_for_each_detail (batch_size o) (save_training_stats o)
              (save_testing_stats o) data Hl Hdata (mkWorld o0 cs) 0%Z 0
              eq_refl eq_refl eq_refl)
    as (w' & recs & c' & Hrun & Hrecs & Hts & Ht & _).
  exists w', recs. split; [| split; [exact Hrecs | split; [exact Hts | split]]].
  - unfold fit. erewrite bind_ok by reflexivity. erewrite bind_ok by reflexivity.
    exact Hrun.
  - exact Ht.
  - now apply reward_total_bounds.
Qed.

Lemma fit_counts_rewards_witness :
  exists w' recs,
    @fit Demo.networks Demo.onehot_examples
      (Demo.base_start (Demo.base_agent true true)) = (Ok tt, w') /\
    Forall2 logged_episode Demo.onehot_examples recs /\
    training_stats (self w') = [] ++ recs /\
    total_training_reward (self w') = Some (reward_total recs) /\
    (0 <= reward_total recs <= Z.of_nat (length Demo.onehot_examples))%Z.
Proof.
  apply (fit_counts_rewards Demo.networks (Demo.base_agent true true) []
           Demo.onehot_examples demo_listener_contract
           demo_onehot_examples_well_formed).
Defined.

End AgentsBookkeepingClaims.

(** ** The messages of [predict] *)

Section PredictDetail.
Import Py Np Networks.
Context {N : Numpy} {K : Keras}.

(** The greedy message as a function of the weights and the input. *)
Let greedy (model : weights) (mml : nat) (x : list Q) : string :=
  let row := hd [] (Np.predict model x) in
  join "#" (map str (rev (slice_last mml (argsort (divide row (sum row)))))).

Lemma predict_body_detail tr ex (w : world ifca) ts :
  random_contract N -> argsort_contract N ->
  keras_contract K (alphabet_size (self w)) ->
  well_formed (speaker_dim (self w)) ex ->
  testing_stats (self w) = Some ts ->
  exists tr' rec g' new,
    input rec = input_of ex /\
    message rec = greedy (speaker_model (self w)) (max_message_length (self w))
                         (input_of ex) /\
    predict_body tr ex w
    = (Ok tr',
       mkWorld (if save_training_stats (self w)
                then set_testing_stats (Some (ts ++ [rec])) (self w)
                else self w)
               g' (calls w ++ new)).
Proof.
  intros Hr Hs Hk [Hx Hc] Hts. destruct ex as [[x cands] t].
  unfold input_of, candidates_of in *. cbn [fst snd] in *.
  destruct (infer_ok x w Hs Hk Hx) as (row & Hrow & _ & _ & Hrun).
  set (msg := join "#" (map str (rev (slice_last (max_message_length (self w))
                                                 (argsort (divide row (sum row))))))) in *.
  set (w1 := mkWorld (self w) (np_random w)
                     (calls w ++ [KerasPredict x; NpArgsort (divide row (sum row))])) in *.
  destruct (listener_policy_ok msg cands w1 Hr Hc) as (i & Hi & Hlisten).
  assert (Hget : getitem_nat cands i = Ok (nth i cands [])).
  { unfold getitem_nat. now rewrite (nth_error_nth' cands [] Hi). }
  exists (tr + calculate_reward (Z.of_nat i) t)%Z,
    (mkStats (calculate_reward (Z.of_nat i) t) x msg (nth i cands [])),
    (snd (randint (length cands) (np_random w))),
    [KerasPredict x; NpArgsort (divide row (sum row)); NpRandomRandint (length cands)].
  split; [reflexivity |]. split.
  { cbn [message]. unfold greedy. now rewrite Hrow. }
  unfold predict_body.
  erewrite bind_ok by exact Hrun.
  cbn beta iota. erewrite bind_ok by exact Hlisten.
  erewrite bind_ok by reflexivity. subst w1. cbn [self np_random calls].
  destruct (save_training_stats (self w)) eqn:Hsave.
  - unfold bind at 1. unfold bind at 1. unfold lift_result at 1. rewrite Hget.
    unfold append_stats. erewrite bind_ok by reflexivity.
    cbn [self]. rewrite Hts.
    cbv beta iota zeta delta [bind set_self modify ret].
    cbn [self np_random calls]. now rewrite <- app_assoc.
  - cbv beta iota zeta delta [bind set_self modify ret].
    now rewrite <- app_assoc.
Qed.

Lemma predict_for_each_detail mml asz sd bs st se model data :
  random_contract N -> argsort_contract N -> keras_contract K asz ->
  Forall (well_formed sd) data ->
  forall tr (w : world ifca) ts,
  config (self w) = (mml, asz, sd, bs, st, se) ->
  speaker_model (self w) = model ->
  testing_stats (self w) = Some ts ->
  exists tr' w' recs,
    for_each predict_body data tr w = (Ok tr', w') /\
    testing_stats (self w') = Some (ts ++ if st then recs else []) /\
    map input recs = map input_of data /\
    map message recs = map (fun ex => greedy model mml (input_of ex)) data.
Proof.
  intros Hr Hs Hk Hdata. induction Hdata as [| ex data Hex _ IH];
    intros tr w ts Hcfg Hmodel Hts.
  - exists tr, w, []. repeat split. rewrite Hts. now destruct st; rewrite app_nil_r.
  - assert (Hf : max_message_length (self w) = mml /\ alphabet_size (self w) = asz /\
                 speaker_dim (self w) = sd /\ save_training_stats (self w) = st).
    { unfold config in Hcfg. now inversion Hcfg. }
    destruct Hf as (Fmml & Fasz & Fsd & Fst).
    destruct (predict_body_detail tr ex w ts Hr Hs ltac:(now rewrite Fasz)
                ltac:(now rewrite Fsd) Hts)
      as (tr1 & rec & g1 & new & Hin & Hmsg & Hbody).
    rewrite Fst, Fmml, Hmodel in *.
    set (o1 := if st then set_testing_stats (Some (ts ++ [rec])) (self w) else self w)
      in *.
    assert (Ho1 : config o1 = config (self w) /\ speaker_model o1 = model /\
                  testing_stats o1 = Some (ts ++ if st then [rec] else [])).
    { subst o1. destruct st; cbn; repeat split; try assumption.
      now rewrite app_nil_r. }
    destruct Ho1 as (Hcfg1 & Hmodel1 & Hts1).
    destruct (IH tr1 (mkWorld o1 g1 (calls w ++ new)) _
                 ltac:(cbn [self]; congruence) Hmodel1 Hts1)
      as (tr' & w' & recs & Hrun & Hts' & Hins & Hmsgs).
    exists tr', w', (rec :: recs). repeat split.
    + cbn [for_each]. erewrite bind_ok by exact Hbody. exact Hrun.
    + rewrite Hts'. destruct st; cbn [app]; now rewrite <- ?app_assoc, ?app_nil_r.
    + cbn [map]. now rewrite Hin, Hins.
    + cbn [map]. now rewrite Hmsg, Hmsgs.
Qed.

(** X18. The messages of [predict] are reproducible: two objects with
    the same configuration and weights, from whatever generator states,
    log for the same test data the same inputs and the same messages, in
    the order of the data (the chosen targets and the rewards are the
    listener's random picks); so do two successive runs of [predict] on
    one object. *)
Theorem predict_messages_reproducible :
  forall (o1 o2 : ifca) g1 cs1 g2 cs2 data,
    random_contract N -> argsort_contract N ->
    keras_contract K (alphabet_size o1) ->
    config o1 = config o2 -> speaker_model o1 = speaker_model o2 ->
    Forall (well_formed (speaker_dim o1)) data ->
    save_training_stats o1 = true ->
    exists w1 w2 ts1 ts2,
      predict data (mkWorld o1 g1 cs1) = (Ok tt, w1) /\
      predict data (mkWorld o2 g2 cs2) = (Ok tt, w2) /\
      testing_stats (self w1) = Some ts1 /\
      testing_stats (self w2) = Some ts2 /\
      map input ts1 = map input_of data /\
      map input ts2 = map input_of data /\
      map message ts1 = map message ts2 /\
      config (self w1) = config o1 /\
      speaker_model (self w1) = speaker_model o1.
Proof.
  intros o1 o2 g1 cs1 g2 cs2 data Hr Hs Hk Hcfg Hmodel Hdata Hsave.
  assert (Hf : max_message_length o1 = max_message_length o2 /\
               alphabet_size o1 = alphabet_size o2 /\
               speaker_dim o1 = speaker_dim o2 /\
               save_training_stats o1 = save_training_stats o2).
  { unfold config in Hcfg. now inversion Hcfg. }
  destruct Hf as (Fmml & Fasz & Fsd & Fst).
  destruct (predict_for_each_detail
              (max_message_length o1) (alphabet_size o1) (speaker_dim o1)
              (batch_size o1) (save_training_stats o1) (save_testing_stats o1)
              (speaker_model o1) data Hr Hs Hk Hdata 0%Z
              (mkWorld (set_testing_stats (Some []) o1) g1 cs1) []
              eq_refl eq_refl eq_refl)
    as (tr1 & w1 & recs1 & Hrun1 & Hts1 & Hin1 & Hmsg1).
  destruct (predict_for_each_detail
              (max_message_length o1) (alphabet_size o1) (speaker_dim o1)
              (batch_size o1) (save_training_stats o1) (save_testing_stats o1)
              (speaker_model o1) data Hr Hs Hk Hdata 0%Z
              (mkWorld (set_testing_stats (Some []) o2) g2 cs2) []
              ltac:(cbn [self]; exact (eq_sym Hcfg))
              ltac:(cbn [self]; exact (eq_sym Hmodel)) eq_refl)
    as (tr2 & w2 & recs2 & Hrun2 & Hts2 & Hin2 & Hmsg2).
  rewrite Hsave in Hts1, Hts2. cbn [app] in Hts1, Hts2.
  assert (Hp1 : predict data (mkWorld o1 g1 cs1) = (Ok tt, w1)).
  { unfold predict. erewrite bind_ok by reflexivity.
    erewrite bind_ok by exact Hrun1. reflexivity. }
  destruct (respects_predict data _ _ _ Hp1) as [Hsame _].
  unfold same_but_testing_stats in Hsame. cbn [self] in Hsame.
  exists w1, w2, recs1, recs2. repeat split; try assumption.
  - unfold predict. erewrite bind_ok by reflexivity.
    erewrite bind_ok by exact Hrun2. reflexivity.
  - congruence.
  - now apply (f_equal config) in Hsame.
  - now apply (f_equal speaker_model) in Hsame.
Qed.

End PredictDetail.

Section PredictDetailExample.
Import Py Np Networks.

Lemma predict_messages_reproducible_witness :
  exists w1 w2 ts1 ts2,
    @predict Demo.numpy Demo.keras Demo.two_examples
      (Demo.start (Demo.agent true true)) = (Ok tt, w1) /\
    @predict Demo.numpy Demo.keras Demo.two_examples
      (@mkWorld Demo.numpy _
         (set_testing_stats (Some []) (Demo.agent true true)) 3 [NpRandomRandint 4])
    = (Ok tt, w2) /\
    testing_stats (self w1) = Some ts1 /\
    testing_stats (self w2) = Some ts2 /\
    map input ts1 = map input_of Demo.two_examples /\
    map input ts2 = map input_of Demo.two_examples /\
    map message ts1 = map message ts2 /\
    config (self w1) = config (Demo.agent true true) /\
    speaker_model (self w1) = speaker_model (Demo.agent true true).
Proof.
  apply (@predict_messages_reproducible Demo.numpy Demo.keras
           (Demo.agent true true)
           (set_testing_stats (Some []) (Demo.agent true true))
           0 [] 3 [NpRandomRandint 4] Demo.two_examples
           demo_random_contract demo_argsort_contract demo_keras_contract
           eq_refl eq_refl demo_two_examples_well_formed eq_refl).
Defined.

End PredictDetailExample.

(** ** The configuration the constructors read *)

Section ConfigFacts.
Import Config.

Lemma getitem_ok d key v : getitem d key = Ok v -> lookup key d = Some v.
Proof. unfold getitem. destruct (lookup key d); now intros [= <-]. Qed.

Lemma bind_inv {A B} (m : result A) (k : A -> result B) b :
  bind m k = Ok b -> exists a, m = Ok a /\ k a = Ok b.
Proof. destruct m as [a | e]; [now exists a | discriminate]. Qed.

(** X19. Every configuration [BaseAgents] accepts,
    [IndependentFullyConnectedAgents] accepts, with the same values for
    the attributes the two share and [n_classes = n_distractors + 1]; the
    other way round [BaseAgents] reads two more keys: without
    [speaker_input_dim], or with it and without [n_batches], a
    configuration that [IndependentFullyConnectedAgents] accepts raises
    [KeyError] on that key. *)
Theorem base_agents_configuration :
  (forall d p,
      base_initialize_parameters d = Ok p ->
      ifca_initialize_parameters d = Ok (shared p) /\
      (forall key, In key base_keys -> lookup key d <> None) /\
      (exists n, lookup "n_distractors" d = Some n /\
                 add_one n = Ok (n_classes (shared p)))) /\
  (forall d p,
      ifca_initialize_parameters d = Ok p ->
      (lookup "speaker_input_dim" d = None ->
       base_initialize_parameters d = Raise (KeyError "speaker_input_dim")) /\
      (lookup "speaker_input_dim" d <> None -> lookup "n_batches" d = None ->
       base_initialize_parameters d = Raise (KeyError "n_batches")) /\
      (lookup "speaker_input_dim" d <> None -> lookup "n_batches" d <> None ->
       exists p', base_initialize_parameters d = Ok p' /\ shared p' = p)).
Proof.
  split.
  - intros d p H. unfold base_initialize_parameters in H.
    repeat (apply bind_inv in H as (? & ? & H)).
    injection H as <-.
    repeat match goal with
           | G : getitem d _ = Ok _ |- _ => apply getitem_ok in G
           end.
    split; [| split].
    + unfold ifca_initialize_parameters, getitem.
      repeat match goal with
             | G : lookup _ d = Some _ |- _ => rewrite G; clear G
             end.
      cbn [bind]. match goal with G : add_one _ = _ |- _ => rewrite G end.
      reflexivity.
    + intros key Hkey. cbn in Hkey.
      repeat (destruct Hkey as [<- | Hkey]; [congruence |]). contradiction.
    + eexists. split; [eassumption |]. cbn [shared n_classes]. assumption.
  - intros d p H. unfold ifca_initialize_parameters in H.
    repeat (apply bind_inv in H as (? & ? & H)).
    injection H as <-.
    repeat match goal with
           | G : getitem d _ = Ok _ |- _ => apply getitem_ok in G
           end.
    unfold base_initialize_parameters, getitem.
    repeat match goal with
           | G : lookup _ d = Some _ |- _ => rewrite G; clear G
           end.
    cbn [bind]. match goal with G : add_one _ = _ |- _ => rewrite G end.
    split; [| split].
    + intros ->. reflexivity.
    + intros Hs ->. destruct (lookup "speaker_input_dim" d); [| congruence].
      reflexivity.
    + intros Hs Hn. destruct (lookup "speaker_input_dim" d); [| congruence].
      destruct (lookup "n_batches" d); [| congruence].
      eexists. split; reflexivity.
Qed.

Lemma base_agents_configuration_witness :
  ifca_initialize_parameters example_config
  = Ok (mkIfcaParameters (VInt 3) (VList ["a"; "b"; "c"; "d"; "e"]%string) (VInt 5)
                         (VFloat (1 # 1000)) (VInt 2) (VFloat (1 # 1000)) (VInt 2)
                         (VInt 1) (VInt 2) (VInt (3 + 1))) /\
  (forall key, In key base_keys -> lookup key example_config <> None) /\
  (exists n, lookup "n_distractors" example_config = Some n /\
             add_one n = Ok (VInt (3 + 1))).
Proof.
  exact (proj1 base_agents_configuration example_config
           (mkBaseParameters
              (mkIfcaParameters (VInt 3) (VList ["a"; "b"; "c"; "d"; "e"]%string)
                                (VInt 5) (VFloat (1 # 1000)) (VInt 2)
                                (VFloat (1 # 1000)) (VInt 2) (VInt 1) (VInt 2)
                                (VInt (3 + 1)))
              (VInt 2) (VInt 2))
           eq_refl).
Defined.

End ConfigFacts.

(** ** A listener that answers out of range *)

Section OutOfRange.
Import Py Agents.

Lemma getitem_out_of_range {A} (xs : list A) (i : Z) :
  (i < - Z.of_nat (length xs) \/ Z.of_nat (length xs) <= i)%Z ->
  getitem xs i = Raise IndexError.
Proof.
  intros H. unfold getitem. cbv zeta.
  destruct (Z.ltb_spec i 0) as [Hneg | Hneg].
  - destruct (Z.ltb_spec (Z.of_nat (length xs) + i) 0); [reflexivity | lia].
  - destruct (Z.ltb_spec i 0); [lia |].
    destruct (nth_error xs (Z.to_nat i)) eqn:E; [| reflexivity].
    assert (Z.to_nat i < length xs) by (apply nth_error_Some; congruence). lia.
Qed.

(** X20. An episode in which the listener answers with an index outside
    the ground-truth vector (at or beyond its length, or below minus its
    length) raises [IndexError] at the reward: the two networks have
    sampled, but they are not told to remember the episode, and the reward
    total, the batch counter and the training log are what they were. *)
Theorem episode_with_choice_out_of_range :
  forall (P : PolicyNetworks) x cands onehot (w : world) m sp s1 a lp l1,
    sample_from_speaker_policy x (speaker_model (self w)) = ((m, sp), s1) ->
    sample_from_listener_policy m cands (listener_model (self w)) = ((a, lp), l1) ->
    (a < - Z.of_nat (length onehot) \/ Z.of_nat (length onehot) <= a)%Z ->
    sample_from_networks_on_batch x cands onehot w
    = (Raise IndexError,
       mkWorld (set_listener_model l1 (set_speaker_model s1 (self w)))
               (calls w ++ [SpeakerSample; ListenerSample])).
Proof.
  intros P x cands onehot w m sp s1 a lp l1 Es El Hout.
  unfold sample_from_networks_on_batch, on_speaker, on_listener.
  cbv beta iota delta [bind log gets set_self modify ret lift_result].
  destruct w as [o cs]. simpl. simpl in Es, El. rewrite Es. simpl. rewrite El.
  unfold calculate_reward. rewrite (getitem_out_of_range onehot a Hout).
  simpl. now rewrite <- app_assoc.
Qed.

Lemma episode_with_choice_out_of_range_witness :
  @sample_from_networks_on_batch Demo.networks [0; 1]%Q Demo.candidates4 []
    (Demo.base_start (Demo.base_agent true true))
  = (Raise IndexError,
     mkWorld (@set_listener_model Demo.networks 0
                (@set_speaker_model Demo.networks 0
                   (self (Demo.base_start (Demo.base_agent true true)))))
             (calls (Demo.base_start (Demo.base_agent true true))
              ++ [SpeakerSample; ListenerSample])).
Proof.
  apply (episode_with_choice_out_of_range Demo.networks [0; 1]%Q Demo.candidates4
           [] (Demo.base_start (Demo.base_agent true true))
           0 tt 0 0%Z tt 0 eq_refl eq_refl).
  right. cbn. lia.
Defined.

End OutOfRange.
